(** * pyseer: the association-testing engine

    A shallow embedding of [pyseer/input.py], [pyseer/classes.py] and of the
    driver loops of [pyseer/__main__.py], followed by the properties of the
    natural-language specification that were checked against it.

    Conventions of the embedding.
    - Python [float] is IEEE binary64, modelled by [spec_float] with
      [prec = 53] and [emax = 1024]; comparisons are the IEEE ones (a NaN
      compares false with everything).
    - A Python exception that escapes a function is the [Raise] branch of
      [result].
    - Text is ASCII: [bytes.decode()] is the identity and the only white
      space is the ASCII white space of [str.isspace].
    - Identity tests on strings ([var_type is "vcf"], [present is not '0'])
      are equality tests: CPython interns those literals and shares the
      one-character strings.
    - A generator is a state and a [next] function; the code was written
      for the generators of Python 3.6 and earlier, where [raise
      StopIteration] inside a generator ends it.
    - Of what a run writes, the trace keeps the standard output, the
      patterns and the messages of [main]; the notes that [read_variant]
      and [read_vcf_var] write on the standard error are left out.
    - The loops [while True] and [while not eof] take a fuel; [main]
      gives them more than the length of the input, which is enough
      (lemma [association_ends]). *)

From Stdlib Require Import ZArith String Ascii Bool Lia.
From Stdlib Require Import Floats.SpecFloat.
From stdpp Require Import gmap strings list sorting.

Local Open Scope string_scope.

(** ** Python values *)

(** *** Floats *)

Module PyFloat.

Definition prec : Z := 53.
Definition emax : Z := 1024.

Abbreviation float := spec_float.

Definition zero : float := S754_zero false.

(** [float(n)] for a non-negative [int]: correctly rounded. *)
Definition of_nat (n : nat) : float :=
  binary_normalize prec emax (Z.of_nat n) 0 false.

Definition of_Z (z : Z) : float :=
  binary_normalize prec emax z 0 false.

Definition ltb : float → float → bool := SFltb.
Definition leb : float → float → bool := SFleb.
Definition eqb : float → float → bool := SFeqb.

Definition is_nan (x : float) : bool :=
  match x with S754_nan => true | _ => false end.

(** The floats above zero. *)
Definition positive_float (x : float) : Prop :=
  x = S754_infinity false ∨ ∃ mx ex, x = S754_finite false mx ex.

Definition next_up : float → float := SFsucc prec emax.
Definition next_down : float → float := SFpred prec emax.

End PyFloat.

Import PyFloat.

(** *** Exceptions *)

Inductive exn : Type :=
| IndexError
| TypeError
| ValueError
| ZeroDivisionError
| UnboundLocalError
| RuntimeError.

Inductive result (A : Type) : Type :=
| Ok (a : A)
| Raise (e : exn).

Arguments Ok {A} a.
Arguments Raise {A} e.

#[global] Instance result_ret : MRet result := λ A a, Ok a.

#[global] Instance result_bind : MBind result := λ A B f r,
  match r with
  | Ok a => f a
  | Raise e => Raise e
  end.

(** [float / int]: CPython converts the divisor and raises on a zero. *)
Definition truediv (x : float) (n : nat) : result float :=
  let y := of_nat n in
  if eqb y zero then Raise ZeroDivisionError
  else Ok (SFdiv prec emax x y).

(** *** Dynamically typed fields *)

Abbreviation bytes := (list Z).

Inductive pyobj : Type :=
| PNone
| PBool (b : bool)
| PInt (z : Z)
| PFloat (f : float)
| PStr (s : string)
| PBytes (b : bytes)
| PStrList (l : list string).

(** [x < y] for a field [x] and a float [y]; the integers that this
    code compares are 0 and are converted exactly. *)
Definition py_lt_float (x : pyobj) (y : float) : result bool :=
  match x with
  | PFloat f => Ok (ltb f y)
  | PInt z => Ok (ltb (of_Z z) y)
  | PBool b => Ok (ltb (of_Z (if b then 1 else 0)) y)
  | _ => Raise TypeError
  end.

(** The argument of [file.write] on a file opened in binary mode. *)
Definition py_bytes (x : pyobj) : result bytes :=
  match x with
  | PBytes b => Ok b
  | _ => Raise TypeError
  end.

(** ** Python strings *)

Module PyStr.

(** [str.isspace] on ASCII. *)
Definition isspace (c : ascii) : bool :=
  let n := nat_of_ascii c in
  ((9 <=? n) && (n <=? 13) || (28 <=? n) && (n <=? 32))%nat.

Definition cons_word (w : string) (ws : list string) : list string :=
  if String.eqb w "" then ws else w :: ws.

(** The word being read and the words after it. *)
Fixpoint words (s : string) : string * list string :=
  match s with
  | "" => ("", [])
  | String c s' =>
      let '(w, ws) := words s' in
      if isspace c then ("", cons_word w ws) else (String c w, ws)
  end.

(** [s.split()] *)
Definition split (s : string) : list string :=
  let '(w, ws) := words s in cons_word w ws.

(** [s.split(sep)] for a one-character separator. *)
Fixpoint split_on (sep : ascii) (s : string) : list string :=
  match s with
  | "" => [""]
  | String c s' =>
      if Ascii.eqb c sep then "" :: split_on sep s'
      else match split_on sep s' with
           | w :: ws => String c w :: ws
           | [] => [String c ""]
           end
  end.

(** [s.rstrip()] *)
Fixpoint rstrip (s : string) : string :=
  match s with
  | "" => ""
  | String c s' =>
      let r := rstrip s' in
      if isspace c && String.eqb r "" then "" else String c r
  end.

(** [s.lstrip()] *)
Fixpoint lstrip (s : string) : string :=
  match s with
  | "" => ""
  | String c s' => if isspace c then lstrip s' else s
  end.

(** [sep.join(l)] *)
Fixpoint join (sep : string) (l : list string) : string :=
  match l with
  | [] => ""
  | [x] => x
  | x :: l' => x ++ sep ++ join sep l'
  end.

Definition is_digit (c : ascii) : bool :=
  let n := nat_of_ascii c in ((48 <=? n) && (n <=? 57))%nat.

Fixpoint all_digits (s : string) : bool :=
  match s with
  | "" => true
  | String c s' => is_digit c && all_digits s'
  end.

(** [int(s)] on a string of decimal digits. *)
Fixpoint int_acc (acc : Z) (s : string) : Z :=
  match s with
  | "" => acc
  | String c s' => int_acc (10 * acc + (Z.of_nat (nat_of_ascii c) - 48)) s'
  end.

Definition int (s : string) : Z := int_acc 0 s.

Definition digit_char (d : Z) : ascii := ascii_of_nat (Z.to_nat (48 + d)).

Fixpoint str_pos (fuel : nat) (z : Z) (acc : string) : string :=
  match fuel with
  | O => acc
  | S fuel' =>
      let acc' := String (digit_char (z mod 10)) acc in
      if (z <? 10)%Z then acc' else str_pos fuel' (z / 10) acc'
  end.

(** [str(z)] for an [int]. *)
Definition str (z : Z) : string :=
  if (z <? 0)%Z then String "-" (str_pos (S (Z.to_nat (Z.log2 (- z)))) (- z) "")
  else str_pos (S (Z.to_nat (Z.log2 z))) z "".

End PyStr.

(** ** The regular expression of a burden region *)

Module Region.

Definition newline : ascii := ascii_of_nat 10.

Fixpoint drop_final_newline (s : string) : string :=
  match s with
  | "" => ""
  | String c "" => if Ascii.eqb c newline then "" else s
  | String c s' => String c (drop_final_newline s')
  end.

(** The tail [digits-digits$] of the pattern; [$] also matches before
    a final newline. *)
Definition match_range (s : string) : option (string * string) :=
  match PyStr.split_on "-" (drop_final_newline s) with
  | [a; b] =>
      if negb (String.eqb a "") && PyStr.all_digits a &&
         negb (String.eqb b "") && PyStr.all_digits b
      then Some (a, b) else None
  | _ => None
  end.

(** A possibly empty first group, the colon and the tail, anchored at
    the start. The two numbers hold no colon, so the colon of a match
    is the last one of the string, which is also where the greedy first
    group stops; the dot of the first group matches no newline. *)
Fixpoint match_tail (s : string) : option (string * string * string) :=
  match s with
  | "" => None
  | String c s' =>
      match match_tail s' with
      | Some (g1, g2, g3) =>
          if Ascii.eqb c newline then None else Some (String c g1, g2, g3)
      | None =>
          if Ascii.eqb c ":" then
            match match_range s' with
            | Some (g2, g3) => Some ("", g2, g3)
            | None => None
            end
          else None
      end
  end.

(** [re.match] of the region pattern of [read_variant], a non-empty
    first group, a colon and two numbers around a dash: the groups. *)
Definition re_match (s : string) : option (string * string * string) :=
  match match_tail s with
  | Some (g1, g2, g3) =>
      if String.eqb g1 "" then None else Some (g1, g2, g3)
  | None => None
  end.

End Region.

(** ** [pyseer/classes.py] *)

Module classes.

(** A namedtuple field holds any Python object. *)
Record LMM : Type := {
  kmer : pyobj; pattern : pyobj; af : pyobj; prep : pyobj; pvalue : pyobj;
  kbeta : pyobj; bse : pyobj; frac_h2 : pyobj; max_lineage : pyobj;
  kstrains : pyobj; nkstrains : pyobj; notes : pyobj;
  prefilter : pyobj; filter : pyobj
}.

Definition LMM_fields : list string :=
  ["kmer"; "pattern"; "af"; "prep"; "pvalue"; "kbeta"; "bse"; "frac_h2";
   "max_lineage"; "kstrains"; "nkstrains"; "notes"; "prefilter"; "filter"].

(** A call of [LMM] with positional arguments: the class made by
    [namedtuple] takes one argument per declared field, and raises
    [TypeError] on any other number of them. *)
Definition LMM_new (args : list pyobj) : result LMM :=
  match args with
  | [a1; a2; a3; a4; a5; a6; a7; a8; a9; a10; a11; a12; a13; a14] =>
      Ok {| kmer := a1; pattern := a2; af := a3; prep := a4; pvalue := a5;
            kbeta := a6; bse := a7; frac_h2 := a8; max_lineage := a9;
            kstrains := a10; nkstrains := a11; notes := a12;
            prefilter := a13; filter := a14 |}
  | _ => Raise TypeError
  end.

Record Seer : Type := {
  s_kmer : pyobj; s_pattern : pyobj; s_af : pyobj; s_prep : pyobj;
  s_pvalue : pyobj; s_kbeta : pyobj; s_bse : pyobj; s_intercept : pyobj;
  s_betas : pyobj; s_max_lineage : pyobj; s_kstrains : pyobj;
  s_nkstrains : pyobj; s_notes : pyobj;
  s_prefilter : pyobj; s_filter : pyobj
}.

End classes.

(** The truth value of an object, as [if x:] takes it. *)
Definition truthy (x : pyobj) : bool :=
  match x with
  | PNone => false
  | PBool b => b
  | PInt z => negb (z =? 0)%Z
  | PFloat f => negb (eqb f zero)
  | PStr s => negb (String.eqb s "")
  | PBytes b => negb (Nat.eqb (length b) 0)
  | PStrList l => negb (Nat.eqb (length l) 0)
  end.

(** ** The inputs of [pyseer/input.py] *)

(** A record of a [pysam.VariantFile]: what [read_vcf_var] reads of it.
    [alts] is [None] for a record without alternate allele; a genotype is
    the tuple of the haplotype calls, [None] for a missing call. *)
Record VariantRecord : Type := {
  contig : string;
  pos : Z;
  alleles : list string;
  alts : option (list string);
  filter_keys : list string;
  samples : list (string * list (option Z))
}.

(** The variant file: the lines still to be read of a text file (k-mers,
    Rtab), the records still to be iterated of a [VariantFile], and
    [fetch] of an indexed [VariantFile]. *)
Record VariantFile : Type := {
  f_lines : list string;
  f_records : list VariantRecord;
  f_fetch : string → Z → Z → result (list VariantRecord)
}.

(** The phenotypes [p], a [pandas.Series]. *)
Record Series : Type := {
  index : list string;
  values : list float
}.

Inductive var_type_t : Type := kmers | vcf | Rtab.

(** What is read and consumed across the calls of [read_variant]. *)
Record stream : Type := {
  infile : VariantFile;
  burden_regions : list (string * string)
}.

(** The three shapes of the tuple [read_variant] returns. *)
Inductive read_out : Type :=
| Eof
    (* (True, None, None, None, None, None) *)
| Skip
    (* (False, None, None, None, None, None) *)
| Variant (k : list Z) (var_name : string)
          (kstrains nkstrains : list string) (af : float).
    (* (False, k, var_name, kstrains, nkstrains, af) *)

(** ** [pyseer/input.py] *)

Definition load_burden_line (line : string) : result (string * string) :=
  match PyStr.split (PyStr.rstrip line) with
  | [name; region] => Ok (name, region)
  | _ => Raise ValueError
  end.

Fixpoint load_burden (region_file : list string)
    (burden_regions : list (string * string)) : result (list (string * string)) :=
  match region_file with
  | [] => Ok burden_regions
  | region :: rest =>
      nr ← load_burden_line region;
      load_burden rest (burden_regions ++ [nr])
  end.

(** [str(haplotype) is not "." and haplotype != 0]: the string that [str]
    returns is never the literal itself, so the first test always holds,
    and a missing call, [None], differs from 0. *)
Definition haplotype_present (haplotype : option Z) : bool :=
  negb (bool_decide (haplotype = Some 0%Z)).

Definition read_vcf_call (d : gmap string Z) (sc : string * list (option Z))
    : gmap string Z :=
  if existsb haplotype_present sc.2 then <[sc.1 := 1%Z]> d else d.

(** Returns the name, [None] for a filtered variant, and the dictionary
    [d] as the call leaves it. *)
Definition read_vcf_var (variant : VariantRecord) (d : gmap string Z)
    : result (option string * gmap string Z) :=
  let var_name :=
    PyStr.join "_" ([contig variant; PyStr.str (pos variant)] ++ alleles variant) in
  match alts variant with
  | None => Raise TypeError
  | Some a =>
      if (1 <? length a)%nat then Ok (None, d)
      else if negb (bool_decide ("PASS" ∈ filter_keys variant)) &&
              negb (bool_decide ("." ∈ filter_keys variant))
      then Ok (None, d)
      else Ok (Some var_name, foldl read_vcf_call d (samples variant))
  end.

(** The loop over the records of a burden region. *)
Fixpoint read_vcf_region (variants : list VariantRecord) (d : gmap string Z)
    : result (gmap string Z) :=
  match variants with
  | [] => Ok d
  | variant :: rest =>
      '(_, d') ← read_vcf_var variant d;
      read_vcf_region rest d'
  end.

Definition kmers_dict (strains : list string) : gmap string Z :=
  foldl (λ d x, <[hd "" (PyStr.split_on ":" x) := 1%Z]> d) ∅ strains.

Definition Rtab_dict (strains sample_order : list string) : gmap string Z :=
  foldl (λ d ps, if negb (String.eqb ps.1 "0") then <[ps.2 := 1%Z]> d else d)
        ∅ (zip strains sample_order).

(** Every value that a parser puts in the dictionary is 1. *)
Definition ones (d : gmap string Z) : Prop :=
  ∀ x v, d !! x = Some v → v = 1%Z.

(** The end of [read_variant], common to the three formats. *)
Definition design (p : Series) (all_strains : gset string)
    (var_name : string) (d : gmap string Z) : result read_out :=
  let kstrains := merge_sort String.le (elements (dom d ∩ all_strains)) in
  let nkstrains :=
    merge_sort String.le (elements (all_strains ∖ list_to_set kstrains)) in
  let d := foldl (λ d x, <[x := 0%Z]> d) d nkstrains in
  af ← truediv (of_nat (length kstrains)) (size all_strains);
  let k := omap (λ x, d !! x) (index p) in
  Ok (Variant k var_name kstrains nkstrains af).

Definition read_variant (st : stream) (p : Series) (var_type : var_type_t)
    (burden : bool) (uncompressed : bool) (all_strains : gset string)
    (sample_order : list string) : result (read_out * stream) :=
  let f := infile st in
  match var_type with
  | vcf =>
      if burden then
        match burden_regions st with
        | [] => Ok (Eof, st)
        | (var_name, region) :: rest =>
            let st' := {| infile := f; burden_regions := rest |} in
            match Region.re_match region with
            | Some (g1, g2, g3) =>
                variants ← f_fetch f g1 (PyStr.int g2 - 1) (PyStr.int g3);
                d ← read_vcf_region variants ∅;
                r ← design p all_strains var_name d;
                Ok (r, st')
            | None => Ok (Skip, st')
            end
        end
      else
        match f_records f with
        | [] => Ok (Eof, st)
        | variant :: rest =>
            let st' :=
              {| infile := {| f_lines := f_lines f; f_records := rest;
                              f_fetch := f_fetch f |};
                 burden_regions := burden_regions st |} in
            '(var_name, d) ← read_vcf_var variant ∅;
            match var_name with
            | None => Ok (Skip, st')
            | Some var_name =>
                r ← design p all_strains var_name d;
                Ok (r, st')
            end
        end
  | _ =>
      match f_lines f with
      | [] => Ok (Eof, st)
      | line_in :: rest =>
          let st' :=
            {| infile := {| f_lines := rest; f_records := f_records f;
                            f_fetch := f_fetch f |};
               burden_regions := burden_regions st |} in
          if String.eqb line_in "" then Ok (Eof, st')
          else
            match var_type with
            | kmers =>
                match PyStr.split line_in,
                      PyStr.split_on "|" (PyStr.rstrip line_in) with
                | var_name :: _, _ :: strains :: _ =>
                    r ← design p all_strains var_name
                          (kmers_dict (PyStr.split (PyStr.lstrip strains)));
                    Ok (r, st')
                | _, _ => Raise IndexError
                end
            | _ =>
                match PyStr.split (PyStr.rstrip line_in) with
                | var_name :: strains =>
                    r ← design p all_strains var_name
                          (Rtab_dict strains sample_order);
                    Ok (r, st')
                | [] => Raise IndexError
                end
            end
      end
  end.

(** [k.view(np.uint8)]: [k] is an array of 64-bit integers, each seen as
    its eight bytes, the low one first. *)
Definition int64_bytes (z : Z) : bytes :=
  map (λ i, Z.land (Z.shiftr z (8 * Z.of_nat i)) 255) (seq 0 8).

Definition view_uint8 (k : list Z) : bytes := concat (map int64_bytes k).

(** What a run passes unchanged to every call of [iter_variants] and
    [load_var_block]. The structure matrix [m], the covariates and the
    null fits are only handed on to the regressions. *)
Record run_args {matrix cov_t clusters_t fit_t firth_t : Type} : Type := {
  p : Series;
  m : matrix;
  cov : cov_t;
  var_type : var_type_t;
  burden : bool;
  all_strains : gset string;
  sample_order : list string;
  lineage_effects : bool;
  lineage_clusters : clusters_t;
  min_af : float;
  max_af : float;
  filter_pvalue : float;
  lrt_pvalue : float;
  null_fit : fit_t;
  firth_null : firth_t;
  uncompressed : bool;
  continuous : bool
}.

(** The tuple [iter_variants] yields for a variant to fit. *)
Record fit_args {matrix cov_t clusters_t fit_t firth_t : Type} : Type := {
  a_var_name : string;
  a_v : list float;
  a_k : list Z;
  a_m : matrix;
  a_c : cov_t;
  a_af : float;
  a_pattern : bytes;
  a_lineage_effects : bool;
  a_lineage_clusters : clusters_t;
  a_filter_pvalue : float;
  a_lrt_pvalue : float;
  a_null_fit : fit_t;
  a_firth_null : firth_t;
  a_kstrains : list string;
  a_nkstrains : list string;
  a_continuous : bool
}.

(** [min_af <= af <= max_af] *)
Definition af_in_bounds (min_af af max_af : float) : bool :=
  leb min_af af && leb af max_af.

(** The counts of a block. *)
Record counts_t : Type := {
  c_prefilter : nat;
  c_tested : nat
}.

(** The variables of the loop of [load_var_block]; [variant_mat] is the
    list of the columns of the matrix. *)
Record block : Type := {
  b_prefilter : nat;
  b_variants : list classes.LMM;
  b_variant_mat : list (list float)
}.

(** [variant_mat[:, var_idx] = k]: [k] is broadcast to the column. *)
Definition assign_column (rows : nat) (variant_mat : list (list float))
    (var_idx : nat) (k : list Z) : result (list (list float)) :=
  if Nat.eqb (length k) rows then Ok (<[var_idx := map of_Z k]> variant_mat)
  else match k with
       | [x] => Ok (<[var_idx := replicate rows (of_Z x)]> variant_mat)
       | _ => Raise ValueError
       end.

(** [np.all(column == 0)] *)
Definition all_zero (column : list float) : bool :=
  forallb (λ x, eqb x zero) column.

(** The state of the generator [iter_variants]. *)
Record generator : Type := {
  g_stream : stream;
  g_done : bool
}.

Section Input.

Context {matrix cov_t clusters_t fit_t firth_t : Type}.

Abbreviation run_args' := (@run_args matrix cov_t clusters_t fit_t firth_t).
Abbreviation fit_args' := (@fit_args matrix cov_t clusters_t fit_t firth_t).

(** The tuple of sixteen [None] and the tuple of a variant. *)
Inductive worker_args : Type :=
| AllNone
| Args (a : fit_args').

(** [pyseer.model.pre_filtering], [hashlib.md5(...).digest()] and
    [binascii.b2a_base64] are called, not defined, by this code. *)
Variable pre_filtering : Series → list Z → bool → float * bool.
Variable md5 : bytes → bytes.
Variable b2a_base64 : bytes → bytes.

(** What the interpreter does with a [StopIteration] that the body of a
    generator raises: before Python 3.7 it ends the generator; from
    Python 3.7 on (PEP 479) it is turned into a [RuntimeError]. *)
Variable generator_stop : bool.

Definition hash_pattern (k : list Z) : bytes :=
  let pattern := view_uint8 k in
  let hashed := md5 pattern in
  b2a_base64 hashed.

(** What [iter_variants] yields for a read that is not the end of the
    file. *)
Definition iter_variants_body (a : run_args') (r : read_out) : worker_args :=
  match r with
  | Variant k var_name kstrains nkstrains af =>
      if negb (af_in_bounds (min_af a) af (max_af a)) then AllNone
      else
        let v := values (p a) in
        let c := cov a in
        let pattern := hash_pattern k in
        Args {| a_var_name := var_name; a_v := v; a_k := k;
                a_m := m a; a_c := c; a_af := af;
                a_pattern := pattern;
                a_lineage_effects := lineage_effects a;
                a_lineage_clusters := lineage_clusters a;
                a_filter_pvalue := filter_pvalue a;
                a_lrt_pvalue := lrt_pvalue a;
                a_null_fit := null_fit a; a_firth_null := firth_null a;
                a_kstrains := kstrains; a_nkstrains := nkstrains;
                a_continuous := continuous a |}
  | _ => AllNone
  end.

(** One turn of the [while True] of [iter_variants]: [None] is the end
    of the generator. At the end of the file the body does
    [raise StopIteration]. *)
Definition iter_variants_next (a : run_args') (g : generator)
    : result (option worker_args * generator) :=
  if g_done g then Ok (None, g)
  else
    '(r, st) ← read_variant (g_stream g) (p a) (var_type a) (burden a)
                 (uncompressed a) (all_strains a) (sample_order a);
    match r with
    | Eof =>
        if generator_stop then Raise RuntimeError
        else Ok (None, {| g_stream := st; g_done := true |})
    | _ => Ok (Some (iter_variants_body a r),
               {| g_stream := st; g_done := false |})
    end.

(** The body of the loop of [load_var_block] after the test for the
    end of the file. The call of [LMM] passes eleven arguments. *)
Definition load_var_body (a : run_args') (var_idx : nat) (r : read_out)
    (b : block) : result block :=
  match r with
  | Variant k var_name kstrains nkstrains af =>
      if af_in_bounds (min_af a) af (max_af a) then
        let prep :=
          if negb (continuous a)
          then PFloat (pre_filtering (p a) k (continuous a)).1
          else PInt 0 in
        lt ← py_lt_float prep (filter_pvalue a);
        if (lt : bool) then
          let pattern := hash_pattern k in
          v ← classes.LMM_new
                [PStr var_name; PBytes pattern; PFloat af; prep;
                 PInt 0; PInt 0; PInt 0; PInt 0; PNone;
                 PStrList kstrains; PStrList nkstrains];
          mat ← assign_column (length (index (p a))) (b_variant_mat b) var_idx k;
          Ok {| b_prefilter := b_prefilter b;
                b_variants := b_variants b ++ [v];
                b_variant_mat := mat |}
        else Ok b
      else
        Ok {| b_prefilter := b_prefilter b + 1;
              b_variants := b_variants b;
              b_variant_mat := b_variant_mat b |}
  | _ =>
      Ok {| b_prefilter := b_prefilter b + 1;
            b_variants := b_variants b;
            b_variant_mat := b_variant_mat b |}
  end.

(** [for var_idx in range(block_size)], from [var_idx] on, [n] turns
    left; the boolean is [eof] as the loop leaves it. *)
Fixpoint load_var_loop (a : run_args') (n var_idx : nat) (st : stream)
    (b : block) : result (block * bool * stream) :=
  match n with
  | O => Ok (b, false, st)
  | S n' =>
      '(r, st') ← read_variant st (p a) (var_type a) (burden a)
                    (uncompressed a) (all_strains a) (sample_order a);
      match r with
      | Eof => Ok (b, true, st')
      | _ =>
          b' ← load_var_body a var_idx r b;
          load_var_loop a n' (S var_idx) st' b'
      end
  end.

(** With [block_size = 0] no read binds [eof], which the [return]
    reads. *)
Definition load_var_block (a : run_args') (st : stream) (block_size : nat)
    : result (list classes.LMM * list (list float) * counts_t * bool * stream) :=
  let variant_mat :=
    replicate block_size (replicate (length (index (p a))) zero) in
  if Nat.eqb block_size 0 then Raise UnboundLocalError
  else
    '(b, eof, st') ← load_var_loop a block_size 0 st
                       {| b_prefilter := 0; b_variants := [];
                          b_variant_mat := variant_mat |};
    let variant_mat := List.filter (λ col, negb (all_zero col)) (b_variant_mat b) in
    Ok (b_variants b, variant_mat,
        {| c_prefilter := b_prefilter b; c_tested := length (b_variants b) |},
        eof, st').

End Input.

(** ** [pyseer/__main__.py] *)

(** Number of variants to process at a time *)
Definition lmm_block_size : nat := Z.to_nat 10000.
Definition kmer_per_core : Z := 1000.

(** The options of [get_options] that [main] reads in the part embedded
    here; an option that holds a file name is [None] when not given. *)
Record options : Type := {
  o_phenotypes : string;
  o_kmers : option string;
  o_vcf : option string;
  o_pres : option string;
  o_burden : option string;
  o_distances : option string;
  o_load_m : option string;
  o_similarity : option string;
  o_load_lmm : option string;
  o_max_dimensions : Z;
  o_continuous : bool;
  o_lmm : bool;
  o_lineage : bool;
  o_covariates : option string;
  o_min_af : float;
  o_max_af : float;
  o_filter_pvalue : float;
  o_lrt_pvalue : float;
  o_print_samples : bool;
  o_output_patterns : option string;
  o_uncompressed : bool;
  o_cpu : Z
}.

(** The same options with another number of processes, [--cpu]. *)
Definition with_cpu (o : options) (cpu : Z) : options :=
  {| o_phenotypes := o_phenotypes o;
     o_kmers := o_kmers o; o_vcf := o_vcf o; o_pres := o_pres o;
     o_burden := o_burden o; o_distances := o_distances o;
     o_load_m := o_load_m o; o_similarity := o_similarity o;
     o_load_lmm := o_load_lmm o; o_max_dimensions := o_max_dimensions o;
     o_continuous := o_continuous o; o_lmm := o_lmm o;
     o_lineage := o_lineage o; o_covariates := o_covariates o;
     o_min_af := o_min_af o; o_max_af := o_max_af o;
     o_filter_pvalue := o_filter_pvalue o; o_lrt_pvalue := o_lrt_pvalue o;
     o_print_samples := o_print_samples o;
     o_output_patterns := o_output_patterns o;
     o_uncompressed := o_uncompressed o; o_cpu := cpu |}.

(** The truth value of an option that is [None] or a string. *)
Definition given (x : option string) : bool :=
  match x with
  | Some s => negb (String.eqb s "")
  | None => false
  end.

(** What a run does that can be seen from outside, in order. *)
Inductive event : Type :=
| Stderr (msg : string)
| Stdout (line : string)
| Patterns (b : bytes)
| Read_phenotypes
| Read_setup
| Open_variants.

Inductive status : Type :=
| Exit (code : Z)
| Traceback (e : exn)
| Out_of_fuel.

Record run : Type := {
  trace : list event;
  exit_status : status
}.

Definition nl : string := String (ascii_of_nat 10) "".

(** The checks at the head of [main]: the message of the first one that
    fails. *)
Definition check_arguments (python_major : Z) (o : options) : option string :=
  if (o_max_dimensions o <? 1)%Z then
    Some ("Minimum number of dimensions after MDS is 1" ++ nl)
  else if (1 <? o_cpu o)%Z && (python_major <? 3)%Z then
    Some ("pyseer requires python version 3 or above " ++
          "unless the number of threads is 1" ++ nl)
  else if given (o_burden o) && negb (given (o_vcf o)) then
    Some ("Burden test can only be performed with VCF input" ++ nl)
  else if o_lmm o && (given (o_distances o) || given (o_load_m o))
          || negb (o_lmm o) && (given (o_similarity o) || given (o_load_lmm o)) then
    Some ("Must use distance matrix with fixed effects, " ++
          "or similarity matrix with random effects" ++ nl)
  else if (1 <? o_cpu o)%Z && o_lmm o then
    Some ("LMM does not currently support >1 core" ++ nl ++
          "Consider splitting your input file " ++
          "or running with 1 core." ++ nl)
  else None.

(** The counters of [main] and what it has written so far. *)
Record agg : Type := {
  prefilter : nat;
  tested : nat;
  printed : nat;
  out : list event
}.

Definition agg0 (out : list event) : agg :=
  {| prefilter := 0; tested := 0; printed := 0; out := out |}.

Inductive outcome : Type :=
| Finished (s : agg)
| Crashed (e : exn) (s : agg)
| No_fuel.

(** [patterns.write(x)] when [options.output_patterns] is set. *)
Definition write_pattern (o : options) (x : pyobj) (s : agg) : agg * option exn :=
  if given (o_output_patterns o) then
    match py_bytes x with
    | Ok b => ({| prefilter := prefilter s; tested := tested s;
                  printed := printed s; out := out s ++ [Patterns b] |}, None)
    | Raise e => (s, Some e)
    end
  else (s, None).

(** The numbers of variants still to be read. *)
Definition stream_size (st : stream) : nat :=
  length (f_lines (infile st)) + length (f_records (infile st))
  + length (burden_regions st).

(** What is left to read of a generator. *)
Definition generator_size (g : generator) : nat :=
  if g_done g then 0 else stream_size (g_stream g).

Section Main.

Context {matrix cov_t clusters_t fit_t firth_t model_t : Type}.

Abbreviation run_args'' := (@run_args matrix cov_t clusters_t fit_t firth_t).
Abbreviation worker_args' := (@worker_args matrix cov_t clusters_t fit_t firth_t).

Variable pre_filtering : Series → list Z → bool → float * bool.
Variable md5 : bytes → bytes.
Variable b2a_base64 : bytes → bytes.
Variable generator_stop : bool.

(** [pyseer.model.fixed_effects_regression], [pyseer.lmm.fit_lmm] and
    [pyseer.utils.format_output] are called, not defined, by this code. *)
Variable fixed_effects_regression : worker_args' → classes.Seer.
Variable fit_lmm :
  model_t → float → list classes.LMM → list (list float) → bool →
  clusters_t → cov_t → float → list classes.LMM.
Variable format_output :
  classes.Seer + classes.LMM → list string → bool → bool → string.

Variable o : options.
Variable a : run_args''.
Variable lineage_dict : list string.
Variable lmm : model_t.
Variable h2 : float.

(** *** The fixed effects *)

(** The body of the two loops over the results of the regressions. *)
Definition fixed_emit (x : classes.Seer) (s : agg) : agg * option exn :=
  if truthy (classes.s_prefilter x) then
    ({| prefilter := prefilter s + 1; tested := tested s;
        printed := printed s; out := out s |}, None)
  else
    let s := {| prefilter := prefilter s; tested := tested s + 1;
                printed := printed s; out := out s |} in
    let '(s, e) := write_pattern o (classes.s_pattern x) s in
    match e with
    | Some e => (s, Some e)
    | None =>
        if truthy (classes.s_filter x) then (s, None)
        else
          ({| prefilter := prefilter s; tested := tested s;
              printed := printed s + 1;
              out := out s ++ [Stdout (format_output (inl x) lineage_dict
                                         (o_lmm o) (o_print_samples o))] |},
           None)
    end.

(** [for data in v_iter:], one regression and its result at a time. *)
Fixpoint sequential (fuel : nat) (g : generator) (s : agg) : outcome :=
  match fuel with
  | O => No_fuel
  | S fuel' =>
      match iter_variants_next md5 b2a_base64 generator_stop a g with
      | Raise e => Crashed e s
      | Ok (None, _) => Finished s
      | Ok (Some data, g') =>
          let '(s', e) := fixed_emit (fixed_effects_regression data) s in
          match e with
          | Some e => Crashed e s'
          | None => sequential fuel' g' s'
          end
      end
  end.

(** [itertools.islice(v_iter, n)], consumed to its end. *)
Fixpoint islice (n : nat) (g : generator)
    : result (list worker_args' * generator) :=
  match n with
  | O => Ok ([], g)
  | S n' =>
      '(x, g') ← iter_variants_next md5 b2a_base64 generator_stop a g;
      match x with
      | None => Ok ([], g')
      | Some data =>
          '(rest, g'') ← islice n' g';
          Ok (data :: rest, g'')
      end
  end.

(** [for x in ret: ...] *)
Fixpoint emit_all (ret : list classes.Seer) (s : agg) : agg * option exn :=
  match ret with
  | [] => (s, None)
  | x :: ret' =>
      let '(s', e) := fixed_emit x s in
      match e with
      | Some e => (s', Some e)
      | None => emit_all ret' s'
      end
  end.

(** The [while True] of the pool: [pool.starmap] takes the whole slice
    and returns the results in the order of the slice. *)
Fixpoint parallel (fuel : nat) (g : generator) (s : agg) : outcome :=
  match fuel with
  | O => No_fuel
  | S fuel' =>
      match islice (Z.to_nat (o_cpu o * kmer_per_core)) g with
      | Raise e => Crashed e s
      | Ok (slice, g') =>
          let ret := map fixed_effects_regression slice in
          match ret with
          | [] => Finished s
          | _ =>
              let '(s', e) := emit_all ret s in
              match e with
              | Some e => Crashed e s'
              | None => parallel fuel' g' s'
              end
          end
      end
  end.

Definition fixed_effects (st : stream) (s : agg) : outcome :=
  let g := {| g_stream := st; g_done := false |} in
  if (1 <? o_cpu o)%Z then parallel (S (stream_size st)) g s
  else sequential (S (stream_size st)) g s.

(** *** The mixed model *)

(** The body of the loop over the fitted variants. *)
Definition lmm_emit (variant : classes.LMM) (s : agg) : agg * option exn :=
  let '(s, e) := write_pattern o (classes.pattern variant) s in
  match e with
  | Some e => (s, Some e)
  | None =>
      match py_lt_float (classes.pvalue variant) (o_lrt_pvalue o) with
      | Raise e => (s, Some e)
      | Ok true =>
          ({| prefilter := prefilter s; tested := tested s;
              printed := printed s + 1;
              out := out s ++ [Stdout (format_output (inr variant) lineage_dict
                                         (o_lmm o) (o_print_samples o))] |},
           None)
      | Ok false => (s, None)
      end
  end.

Fixpoint lmm_emit_all (fitted_variants : list classes.LMM) (s : agg)
    : agg * option exn :=
  match fitted_variants with
  | [] => (s, None)
  | variant :: rest =>
      let '(s', e) := lmm_emit variant s in
      match e with
      | Some e => (s', Some e)
      | None => lmm_emit_all rest s'
      end
  end.

(** [while not eof: ...] *)
Fixpoint lmm_blocks (fuel : nat) (st : stream) (s : agg) : outcome :=
  match fuel with
  | O => No_fuel
  | S fuel' =>
      match load_var_block pre_filtering md5 b2a_base64 a st lmm_block_size with
      | Raise e => Crashed e s
      | Ok (variants, variant_mat, counts, eof, st') =>
          let s := {| prefilter := prefilter s + c_prefilter counts;
                      tested := tested s + c_tested counts;
                      printed := printed s; out := out s |} in
          let '(s, e) :=
            if (0 <? c_tested counts)%nat then
              lmm_emit_all
                (fit_lmm lmm h2 variants variant_mat (o_lineage o)
                   (lineage_clusters a) (cov a) (o_lrt_pvalue o)) s
            else (s, None) in
          match e with
          | Some e => Crashed e s
          | None => if (eof : bool) then Finished s else lmm_blocks fuel' st' s
          end
      end
  end.

(** The association test of [main], from the open variant file on. *)
Definition association (st : stream) (s : agg) : outcome :=
  if negb (o_lmm o) then fixed_effects st s
  else lmm_blocks (S (stream_size st)) st s.

End Main.

(** What the part of [main] between the checks and the opening of the
    variant file leaves behind: the covariates, the structure matrix,
    the null fits, the lineages and the mixed model. *)
Record setup_env {matrix cov_t clusters_t fit_t firth_t model_t : Type} : Type := {
  e_continuous : bool;
  e_cov : cov_t;
  e_cov_columns : list string;
  e_m : matrix;
  e_max_dimensions : Z;
  e_null_fit : fit_t;
  e_firth_null : firth_t;
  e_lineage_clusters : clusters_t;
  e_lineage_dict : list string;
  e_lmm : model_t;
  e_h2 : float
}.

(** PEP 479 holds for every generator from Python 3.7 on. *)
Definition generator_stop_in (major minor : Z) : bool :=
  (3 <? major)%Z || (major =? 3)%Z && (7 <=? minor)%Z.

(** What a run finds outside: the version of Python, what
    [load_phenotypes] returns, what the set-up does ([None]: it calls
    [sys.exit(1)]) and writes, and the variant and burden files. *)
Record world {matrix cov_t clusters_t fit_t firth_t model_t : Type} : Type := {
  python_major : Z;
  python_minor : Z;
  phenotypes_table : result Series;
  setup : Series → list event *
          result (option (@setup_env matrix cov_t clusters_t fit_t firth_t model_t));
  variant_file : VariantFile;
  burden_file : list string
}.

(** The opening of the variant file: the type of the variants, the
    burden flag, the stream and the order of the samples. *)
Definition open_variants (o : options) (variant_file : VariantFile)
    (burden_file : list string)
    : result (var_type_t * bool * stream * list string) :=
  if given (o_kmers o) then
    Ok (kmers, false, {| infile := variant_file; burden_regions := [] |}, [])
  else if given (o_vcf o) then
    if given (o_burden o) then
      burden_regions ← load_burden burden_file [];
      Ok (vcf, true, {| infile := variant_file; burden_regions := burden_regions |}, [])
    else
      Ok (vcf, false, {| infile := variant_file; burden_regions := [] |}, [])
  else
    let header := PyStr.rstrip (hd "" (f_lines variant_file)) in
    let sample_order := tail (PyStr.split header) in
    Ok (Rtab, false,
        {| infile := {| f_lines := tail (f_lines variant_file);
                        f_records := f_records variant_file;
                        f_fetch := f_fetch variant_file |};
           burden_regions := [] |},
        sample_order).

(** The header of the output. *)
Definition header_fields (o : options) (max_dimensions : Z)
    (cov_columns : list string) : list string :=
  ["variant"; "af"; "filter-pvalue"; "lrt-pvalue"; "beta"; "beta-std-err"]
  ++ (if negb (o_lmm o) then
        ["intercept"]
        ++ map (λ i, "PC" ++ PyStr.str (Z.of_nat i))
               (seq 1 (Z.to_nat max_dimensions))
        ++ (if o_covariates o is Some _ then cov_columns else [])
      else ["variant_h2"])
  ++ (if o_lineage o then ["lineage"] else [])
  ++ (if o_print_samples o then ["k-samples"; "nk-samples"] else [])
  ++ ["notes"].

Definition tab : string := String (ascii_of_nat 9) "".

(** The four lines at the end of [main]. *)
Definition final_counts (s : agg) : list event :=
  [Stderr (PyStr.str (Z.of_nat (prefilter s + tested s)) ++ " loaded variants" ++ nl);
   Stderr (PyStr.str (Z.of_nat (prefilter s)) ++ " filtered variants" ++ nl);
   Stderr (PyStr.str (Z.of_nat (tested s)) ++ " tested variants" ++ nl);
   Stderr (PyStr.str (Z.of_nat (printed s)) ++ " printed variants" ++ nl)].

Section Program.

Context {matrix cov_t clusters_t fit_t firth_t model_t : Type}.

Variable pre_filtering : Series → list Z → bool → float * bool.
Variable md5 : bytes → bytes.
Variable b2a_base64 : bytes → bytes.
Variable fixed_effects_regression :
  @worker_args matrix cov_t clusters_t fit_t firth_t → classes.Seer.
Variable fit_lmm :
  model_t → float → list classes.LMM → list (list float) → bool →
  clusters_t → cov_t → float → list classes.LMM.
Variable format_output :
  classes.Seer + classes.LMM → list string → bool → bool → string.

Definition main (w : @world matrix cov_t clusters_t fit_t firth_t model_t)
    (o : options) : run :=
  match check_arguments (python_major w) o with
  | Some msg => {| trace := [Stderr msg]; exit_status := Exit 1 |}
  | None =>
      match phenotypes_table w with
      | Raise e => {| trace := [Read_phenotypes]; exit_status := Traceback e |}
      | Ok p =>
          let '(written, r) := setup w p in
          let tr := ([Read_phenotypes; Read_setup] ++ written)%list in
          match r with
          | Raise e => {| trace := tr; exit_status := Traceback e |}
          | Ok None => {| trace := tr; exit_status := Exit 1 |}
          | Ok (Some env) =>
              match open_variants o (variant_file w) (burden_file w) with
              | Raise e =>
                  {| trace := tr ++ [Open_variants]; exit_status := Traceback e |}
              | Ok (var_type, burden, st, sample_order) =>
                  let header :=
                    header_fields o (e_max_dimensions env) (e_cov_columns env) in
                  let a := {|
                    p := p; m := e_m env; cov := e_cov env;
                    var_type := var_type; burden := burden;
                    all_strains := list_to_set (index p);
                    sample_order := sample_order;
                    lineage_effects := o_lineage o;
                    lineage_clusters := e_lineage_clusters env;
                    min_af := o_min_af o; max_af := o_max_af o;
                    filter_pvalue := o_filter_pvalue o;
                    lrt_pvalue := o_lrt_pvalue o;
                    null_fit := e_null_fit env;
                    firth_null := e_firth_null env;
                    uncompressed := o_uncompressed o;
                    continuous := e_continuous env |} in
                  let s0 :=
                    agg0 (tr ++ [Open_variants; Stdout (PyStr.join tab header)]) in
                  match association pre_filtering md5 b2a_base64
                          (generator_stop_in (python_major w) (python_minor w))
                          fixed_effects_regression fit_lmm format_output
                          o a (e_lineage_dict env) (e_lmm env) (e_h2 env)
                          st s0 with
                  | Finished s =>
                      {| trace := out s ++ final_counts s; exit_status := Exit 0 |}
                  | Crashed e s =>
                      {| trace := out s; exit_status := Traceback e |}
                  | No_fuel => {| trace := out s0; exit_status := Out_of_fuel |}
                  end
              end
          end
      end
  end.

End Program.


(** ** What the properties of the code below speak of *)

(** The records that a run of the given type still has to read. *)
Definition pending (var_type : var_type_t) (burden : bool) (st : stream) : nat :=
  match var_type with
  | vcf =>
      if burden then length (burden_regions st)
      else length (f_records (infile st))
  | _ => length (f_lines (infile st))
  end.

(** A record that [read_vcf_var] does not filter: at most one alternate
    allele, and a filter that holds ["PASS"] or ["."]. *)
Definition passes (variant : VariantRecord) : bool :=
  match alts variant with
  | Some a =>
      negb (1 <? length a)%nat
      && (bool_decide ("PASS" ∈ filter_keys variant)
          || bool_decide ("." ∈ filter_keys variant))
  | None => false
  end.

(** The sample has, in the record, a genotype with a call that marks it
    present. *)
Definition carried_by (variant : VariantRecord) (sample : string) : bool :=
  existsb (λ sc, existsb haplotype_present sc.2 && String.eqb sc.1 sample)
          (samples variant).

(** A string of white space only, and a string that holds a character. *)
Fixpoint blank (s : string) : bool :=
  match s with
  | "" => true
  | String c s' => PyStr.isspace c && blank s'
  end.

Fixpoint has_char (c : ascii) (s : string) : bool :=
  match s with
  | "" => false
  | String c' s' => Ascii.eqb c' c || has_char c s'
  end.

(** The indicator of a set of samples over the index of the phenotypes. *)
Definition indicator (index kstrains : list string) : list Z :=
  map (λ x, if bool_decide (x ∈ kstrains) then 1%Z else 0%Z) index.

(** The lines and the patterns in what a run has written. *)
Definition is_stdout (e : event) : bool :=
  match e with Stdout _ => true | _ => false end.

Definition is_pattern (e : event) : bool :=
  match e with Patterns _ => true | _ => false end.

Definition count_stdout (l : list event) : nat := length (List.filter is_stdout l).
Definition count_patterns (l : list event) : nat := length (List.filter is_pattern l).

(** ** [scripts/save_model.py] *)

Module save_model.

(** A row of the output of pyseer, as [itertuples] gives it over the
    four columns that [read_table] keeps, in the order of the header that
    [main] of pyseer writes: [row[1]] is the variant, [row[2]] its allele
    frequency, [row[3]] the p-value of the likelihood-ratio test and
    [row[4]] the effect size. *)
Record row : Type := {
  variant : string;
  af : float;
  lrt_pvalue : float;
  beta : float
}.

(** The loop over the rows: [pred_model] is a dictionary from the name
    of a variant to its allele frequency and effect size. *)
Definition add_row (p_cutoff : float) (pred_model : gmap string (float * float))
    (r : row) : gmap string (float * float) :=
  if ltb p_cutoff (lrt_pvalue r) then <[variant r := (af r, beta r)]> pred_model
  else pred_model.

(** What [main] pickles: the model and the flag [--continuous]. *)
Definition main (p_cutoff : float) (continuous : bool) (pyseer_out : list row)
    : gmap string (float * float) * bool :=
  (foldl (add_row p_cutoff) ∅ pyseer_out, continuous).

End save_model.

(** The fields of a line of the file of regions, and the pair that
    [load_burden] makes of a line of two fields. *)
Definition fields (line : string) : list string :=
  PyStr.split (PyStr.rstrip line).

Definition region_of_line (line : string) : string * string :=
  (nth 0 (fields line) "", nth 1 (fields line) "").

(** The name that [read_vcf_var] gives to a record. *)
Definition vcf_name (variant : VariantRecord) : string :=
  PyStr.join "_" ([contig variant; PyStr.str (pos variant)] ++ alleles variant).

(** The integers of a numpy array of 64-bit integers. *)
Definition is_int64 (z : Z) : Prop := (- 2 ^ 63 ≤ z < 2 ^ 63)%Z.

(** From the state [s] of a run to a later state [s']: what was written
    is still there, followed by what was written since. *)
Definition grows (s s' : agg) : Prop :=
  ∃ written, out s' = (out s ++ written)%list.

(** The same, with the account of what was written since: one line per
    variant counted as printed and, when the patterns are written, one
    pattern per variant counted as tested. *)
Definition accounts (patterns : bool) (s s' : agg) : Prop :=
  ∃ written, out s' = (out s ++ written)%list
    ∧ printed s' = printed s + count_stdout written
    ∧ (tested s ≤ tested s')%nat
    ∧ count_patterns written = (if patterns then tested s' - tested s else 0).

(** The five checks of [main], as conditions on the options. *)
Definition arguments_pass (python_major : Z) (o : options) : Prop :=
  (1 ≤ o_max_dimensions o)%Z
  ∧ ((o_cpu o ≤ 1)%Z ∨ (3 ≤ python_major)%Z)
  ∧ (given (o_burden o) = true → given (o_vcf o) = true)
  ∧ (o_lmm o = true →
       given (o_distances o) = false ∧ given (o_load_m o) = false
       ∧ (o_cpu o ≤ 1)%Z)
  ∧ (o_lmm o = false →
       given (o_similarity o) = false ∧ given (o_load_lmm o) = false).

(** The integer that a list of bytes writes, the low byte first. *)
Definition of_bytes (l : bytes) : Z := foldr (λ b acc, b + 256 * acc)%Z 0%Z l.

(** No line of the text file is the empty string: a file yields its
    lines with their ends, and the empty string only at its end. *)
Definition no_empty_line (st : stream) : Prop :=
  Forall (λ line, line ≠ "") (f_lines (infile st)).

(** The records that a generator of [iter_variants] still has to read. *)
Definition left_to_read (var_type : var_type_t) (burden : bool)
    (g : generator) : nat :=
  if g_done g then 0 else pending var_type burden (g_stream g).
(** ** Small inputs *)

(** The inputs on which the properties below are tried: four samples,
    and stand-ins for the functions that the code calls without defining
    them. *)
Module Sample.

Definition half : float := Eval vm_compute in SFdiv prec emax (of_nat 1) (of_nat 2).
Definition one : float := Eval vm_compute in of_nat 1.
(** The defaults of [--min-af] and [--max-af], 0.01 and 0.99. *)
Definition min_af_default : float :=
  Eval vm_compute in SFdiv prec emax (of_nat 1) (of_nat 100).
Definition max_af_default : float :=
  Eval vm_compute in SFdiv prec emax (of_nat 99) (of_nat 100).

Definition pheno : Series :=
  {| index := ["A"; "B"; "C"; "D"];
     values := [one; zero; one; zero] |}.

Definition no_records : string → Z → Z → result (list VariantRecord) :=
  λ _ _ _, Ok [].

Definition text_file (lines : list string) : VariantFile :=
  {| f_lines := lines; f_records := []; f_fetch := no_records |}.

Definition vcf_file (records : list VariantRecord) : VariantFile :=
  {| f_lines := []; f_records := records; f_fetch := no_records |}.

(** A pre-test that always returns the same p-value. *)
Definition const_pre_filtering (prep : float) (p : Series) (k : list Z)
    (continuous : bool) : float * bool := (prep, false).

(** Stand-ins for the digest and for its encoding. *)
Definition md5_len (b : bytes) : bytes := [Z.of_nat (length b)].
Definition b64_id (b : bytes) : bytes := b.

Definition args (var_type : var_type_t) (burden : bool)
    (sample_order : list string) (min_af max_af filter_pvalue lrt_pvalue : float)
    (continuous : bool) : @run_args unit unit unit unit unit :=
  {| p := pheno; m := tt; cov := tt; var_type := var_type; burden := burden;
     all_strains := list_to_set (index pheno); sample_order := sample_order;
     lineage_effects := false; lineage_clusters := tt;
     min_af := min_af; max_af := max_af;
     filter_pvalue := filter_pvalue; lrt_pvalue := lrt_pvalue;
     null_fit := tt; firth_null := tt;
     uncompressed := false; continuous := continuous |}.

Definition block0 : block :=
  {| b_prefilter := 0; b_variants := []; b_variant_mat := [[zero; zero; zero; zero]] |}.

(** A presence/absence run at the default bounds and thresholds, and a
    variant whose allele frequency is the lower bound. *)
Definition args_default : @run_args unit unit unit unit unit :=
  args Rtab false ["A"; "B"; "C"; "D"] min_af_default max_af_default
    one one false.

Definition variant_at_min_af : read_out :=
  Variant [1; 0; 0; 0]%Z "g" ["A"] ["B"; "C"; "D"] min_af_default.

(** The options of a run. *)
Definition opts (kmers vcf pres burden : option string) (lmm : bool)
    (cpu : Z) (min_af max_af filter_pvalue lrt_pvalue : float)
    (output_patterns : option string) : options :=
  {| o_phenotypes := "phenotypes.tsv";
     o_kmers := kmers; o_vcf := vcf; o_pres := pres; o_burden := burden;
     o_distances := if lmm then None else Some "distances.tsv";
     o_load_m := None;
     o_similarity := if lmm then Some "similarity.tsv" else None;
     o_load_lmm := None;
     o_max_dimensions := 2; o_continuous := false; o_lmm := lmm;
     o_lineage := false; o_covariates := None;
     o_min_af := min_af; o_max_af := max_af;
     o_filter_pvalue := filter_pvalue; o_lrt_pvalue := lrt_pvalue;
     o_print_samples := false; o_output_patterns := output_patterns;
     o_uncompressed := false; o_cpu := cpu |}.

Definition env : @setup_env unit unit unit unit unit unit :=
  {| e_continuous := false; e_cov := tt; e_cov_columns := []; e_m := tt;
     e_max_dimensions := 2; e_null_fit := tt; e_firth_null := tt;
     e_lineage_clusters := tt; e_lineage_dict := []; e_lmm := tt;
     e_h2 := half |}.

(** A run under Python 3.7 whose set-up succeeds and writes nothing. *)
Definition world (variant_file : VariantFile) (burden_file : list string)
    : @world unit unit unit unit unit unit :=
  {| python_major := 3; python_minor := 7; phenotypes_table := Ok pheno;
     setup := λ _, ([], Ok (Some env));
     variant_file := variant_file; burden_file := burden_file |}.

Definition seer (kmer pattern prefilter filter : pyobj) : classes.Seer :=
  {| classes.s_kmer := kmer; classes.s_pattern := pattern;
     classes.s_af := PNone; classes.s_prep := PNone; classes.s_pvalue := PNone;
     classes.s_kbeta := PNone; classes.s_bse := PNone;
     classes.s_intercept := PNone; classes.s_betas := PNone;
     classes.s_max_lineage := PNone; classes.s_kstrains := PNone;
     classes.s_nkstrains := PNone; classes.s_notes := PNone;
     classes.s_prefilter := prefilter; classes.s_filter := filter |}.

(** A regression that flags the tuple of [None] as prefiltered and
    accepts every variant but the one named ["dull"]. *)
Definition regression (x : @worker_args unit unit unit unit unit) : classes.Seer :=
  match x with
  | AllNone => seer PNone PNone (PBool true) (PBool false)
  | Args a =>
      seer (PStr (a_var_name a)) (PBytes (a_pattern a)) (PBool false)
           (PBool (String.eqb (a_var_name a) "dull"))
  end.

Definition fitted (kmer pattern pvalue : pyobj) : classes.LMM :=
  {| classes.kmer := kmer; classes.pattern := pattern; classes.af := PNone;
     classes.prep := PNone; classes.pvalue := pvalue; classes.kbeta := PNone;
     classes.bse := PNone; classes.frac_h2 := PNone;
     classes.max_lineage := PNone; classes.kstrains := PNone;
     classes.nkstrains := PNone; classes.notes := PNone;
     classes.prefilter := PBool false; classes.filter := PBool false |}.

(** A mixed-model fit that returns the variants as it finds them. *)
Definition fit_lmm (lmm : unit) (h2 : float) (variants : list classes.LMM)
    (variant_mat : list (list float)) (lineage : bool) (clusters cov : unit)
    (lrt_pvalue : float) : list classes.LMM := variants.

Definition name_of (x : pyobj) : string :=
  match x with PStr s => s | _ => "" end.

(** An output line that only holds the name of the variant. *)
Definition format_output (x : classes.Seer + classes.LMM)
    (lineage_dict : list string) (lmm print_samples : bool) : string :=
  match x with
  | inl s => name_of (classes.s_kmer s)
  | inr v => name_of (classes.kmer v)
  end.

(** A record with two alternate alleles, and one that passes. *)
Definition multi_allelic : VariantRecord :=
  {| contig := "chr"; pos := 7; alleles := ["A"; "C"; "G"];
     alts := Some ["C"; "G"]; filter_keys := ["PASS"];
     samples := [("A", [Some 1%Z]); ("B", [Some 0%Z])] |}.

Definition snp : VariantRecord :=
  {| contig := "chr"; pos := 9; alleles := ["A"; "T"];
     alts := Some ["T"]; filter_keys := ["PASS"];
     samples := [("A", [Some 1%Z]); ("B", [Some 0%Z]);
                 ("C", [Some 1%Z]); ("D", [Some 0%Z])] |}.

(** The presence/absence matrix of the specification: one variant,
    present in A and C. *)
Definition rtab_one : VariantFile :=
  text_file ["Gene A B C D" ++ nl; "g1 1 0 1 0" ++ nl].


Definition burden_stream : stream :=
  {| infile := vcf_file []; burden_regions := [("gene1", "chr:5-9")] |}.

(** The same variant, present in A and C, in the three formats. *)
Definition args_kmers : @run_args unit unit unit unit unit :=
  args kmers false [] min_af_default max_af_default one one false.

Definition args_vcf : @run_args unit unit unit unit unit :=
  args vcf false [] min_af_default max_af_default one one false.

Definition rtab_stream : stream :=
  {| infile := text_file ["g1 1 0 1 0" ++ nl]; burden_regions := [] |}.

Definition kmers_stream : stream :=
  {| infile := text_file ["ACGT | C:3 A:1" ++ nl]; burden_regions := [] |}.

Definition vcf_stream : stream :=
  {| infile := vcf_file [snp]; burden_regions := [] |}.

(** A presence/absence matrix of four variants: one to print, one that
    no sample carries, one that the regression filters, one to print. *)
Definition rtab_four : stream :=
  {| infile := text_file ["g1 1 0 1 0" ++ nl; "g2 0 0 0 0" ++ nl;
                          "dull 1 1 0 0" ++ nl; "g4 0 1 1 1" ++ nl];
     burden_regions := [] |}.

Definition opts_fixed (cpu : Z) : options :=
  opts None None (Some "genes.Rtab") None false cpu
    min_af_default max_af_default one one (Some "patterns").

(** The same matrix with a blank line after the first variant. *)
Definition rtab_blank_line : stream :=
  {| infile := text_file ["g1 1 0 1 0" ++ nl; nl; "g4 0 1 1 1" ++ nl];
     burden_regions := [] |}.

(** The mixed model over a presence/absence matrix, at the defaults,
    with the patterns written. *)
Definition opts_lmm : options :=
  opts None None (Some "genes.Rtab") None true 1
    min_af_default max_af_default one one (Some "patterns").

End Sample.
(** More small inputs. *)
Module More.

(** The matrix of four variants of [Sample.rtab_four] as a file, with
    its header. *)
Definition rtab_four_file : VariantFile :=
  Sample.text_file ["Gene A B C D" ++ nl;
                    "g1 1 0 1 0" ++ nl; "g2 0 0 0 0" ++ nl;
                    "dull 1 1 0 0" ++ nl; "g4 0 1 1 1" ++ nl].

End More.
(** * Properties *)

(** ** The helpers on strings, on examples *)

Example split_kmer_line :
  PyStr.split "ACGT | s1:3  s2:1
" = ["ACGT"; "|"; "s1:3"; "s2:1"].
Proof. reflexivity. Qed.

Example split_on_bar :
  PyStr.split_on "|" (PyStr.rstrip "ACGT | s1:3 s2:1 ") = ["ACGT "; " s1:3 s2:1"].
Proof. reflexivity. Qed.

Example str_examples :
  (PyStr.str 0, PyStr.str 1204, PyStr.str (-35)) = ("0", "1204", "-35").
Proof. reflexivity. Qed.

Example re_match_examples :
  (Region.re_match "chr1:100-200", Region.re_match "a:b:7-9", Region.re_match ":1-2",
   Region.re_match "chr1:100_200", Region.re_match "chr1:-5")
  = (Some ("chr1", "100", "200"), Some ("a:b", "7", "9"), None, None, None).
Proof. reflexivity. Qed.

Example str_split_edges :
  (PyStr.split "  a  b  ", PyStr.split "", PyStr.rstrip "  a b  ",
   PyStr.lstrip "  a b  ", PyStr.split_on ":" "a:b:", PyStr.int "0042")
  = (["a"; "b"], [], "  a b", "a b  ", ["a"; "b"; ""], 42%Z).
Proof. reflexivity. Qed.

(** [LMM] takes fourteen arguments; [load_var_block] gives eleven. *)
Example LMM_takes_fourteen_arguments :
  length classes.LMM_fields = 14
  ∧ classes.LMM_new (replicate 11 PNone) = Raise TypeError
  ∧ is_Some (match classes.LMM_new (replicate 14 PNone) with
             | Ok v => Some v | Raise _ => None end).
Proof. split_and!; [reflexivity|reflexivity|by eexists]. Qed.

(** ** Facts on the comparisons of floats *)

Section FloatFacts.

Lemma SFcompare_antisym (x y : float) :
  SFcompare y x = option_map CompOpp (SFcompare x y).
Proof.
  destruct x as [sx|sx| |sx mx ex], y as [sy|sy| |sy my ey]; simpl;
    try reflexivity;
    try (destruct sx; reflexivity);
    try (destruct sy; reflexivity);
    try (destruct sx, sy; reflexivity).
  change (Pos.compare_cont Eq my mx) with (my ?= mx)%positive.
  change (Pos.compare_cont Eq mx my) with (mx ?= my)%positive.
  rewrite (Z.compare_antisym ex ey), (Pos.compare_antisym mx my).
  destruct sx, sy; simpl; try reflexivity;
    destruct (ex ?= ey)%Z; simpl; try reflexivity;
    destruct (mx ?= my)%positive; reflexivity.
Qed.

Lemma leb_refl (x : float) : is_nan x = false → leb x x = true.
Proof.
  unfold leb, SFleb.
  destruct x as [s|s| |s mx ex]; simpl; intros H; try done.
  - by destruct s.
  - change (Pos.compare_cont Eq mx mx) with (mx ?= mx)%positive.
    destruct s; rewrite Z.compare_refl, Pos.compare_refl; done.
Qed.



Lemma ltb_not_leb (x y : float) : ltb x y = true → leb y x = false.
Proof.
  unfold ltb, leb, SFltb, SFleb. rewrite (SFcompare_antisym x y).
  by destruct (SFcompare x y) as [[]|].
Qed.




End FloatFacts.

(** ** The conversion of a positive integer is a positive float *)

Section Conversion.

Lemma shr_1_m (r : shr_record) :
  (0 ≤ shr_m r)%Z → shr_m (shr_1 r) = (shr_m r / 2)%Z.
Proof.
  destruct r as [mm rr ss]; simpl. intros Hm.
  destruct mm as [|q|q]; try lia; simpl.
  - reflexivity.
  - destruct q; simpl.
    + rewrite Pos2Z.inj_xI. apply Z.div_unique with (r := 1%Z); lia.
    + rewrite Pos2Z.inj_xO. apply Z.div_unique with (r := 0%Z); lia.
    + reflexivity.
Qed.

Lemma iter_shr_1_m (n : positive) (r : shr_record) :
  (0 ≤ shr_m r)%Z →
  shr_m (SpecFloat.iter_pos shr_1 n r) = (shr_m r / 2 ^ Zpos n)%Z.
Proof.
  revert r. induction n as [n IH|n IH|]; intros r Hr; simpl.
  - assert (H1 : (0 ≤ shr_m (shr_1 r))%Z).
    { rewrite shr_1_m by done. apply Z.div_pos; lia. }
    assert (H2 : (0 ≤ shr_m (SpecFloat.iter_pos shr_1 n (shr_1 r)))%Z).
    { rewrite IH by done. apply Z.div_pos; [done|]. apply Z.pow_pos_nonneg; lia. }
    rewrite IH, IH, shr_1_m by done.
    rewrite !Z.div_div by (try apply Z.pow_pos_nonneg; lia).
    f_equal. rewrite (Pos2Z.inj_xI n).
    replace (2 * Zpos n + 1)%Z with (1 + Zpos n + Zpos n)%Z by lia.
    rewrite (Z.pow_add_r 2 (1 + Z.pos n) (Z.pos n)) by lia.
    rewrite (Z.pow_add_r 2 1 (Z.pos n)) by lia.
    change (2 ^ 1)%Z with 2%Z. lia.
  - assert (H2 : (0 ≤ shr_m (SpecFloat.iter_pos shr_1 n r))%Z).
    { rewrite IH by done. apply Z.div_pos; [done|]. apply Z.pow_pos_nonneg; lia. }
    rewrite IH, IH by done.
    rewrite !Z.div_div by (try apply Z.pow_pos_nonneg; lia).
    f_equal. rewrite (Pos2Z.inj_xO n).
    replace (2 * Zpos n)%Z with (Zpos n + Zpos n)%Z by lia.
    rewrite (Z.pow_add_r 2 (Z.pos n) (Z.pos n)) by lia. lia.
  - rewrite shr_1_m by done. reflexivity.
Qed.

Lemma digits2_pos_lower (q : positive) :
  (2 ^ (Zpos (digits2_pos q) - 1) ≤ Zpos q)%Z.
Proof.
  induction q as [q IH|q IH|]; simpl.
  - rewrite Pos2Z.inj_succ.
    replace (Z.succ (Zpos (digits2_pos q)) - 1)%Z
      with (1 + (Zpos (digits2_pos q) - 1))%Z by lia.
    rewrite (Z.pow_add_r 2 1) by lia. change (2 ^ 1)%Z with 2%Z. lia.
  - rewrite Pos2Z.inj_succ.
    replace (Z.succ (Zpos (digits2_pos q)) - 1)%Z
      with (1 + (Zpos (digits2_pos q) - 1))%Z by lia.
    rewrite (Z.pow_add_r 2 1) by lia. change (2 ^ 1)%Z with 2%Z. lia.
  - reflexivity.
Qed.

(** A positive mantissa stays positive through the shift to its
    canonical exponent, when the exponent is not below the least one. *)
Lemma shr_fexp_pos (q : positive) (e : Z) (l : location) :
  (emin prec emax ≤ e)%Z →
  let '(r, e') := shr_fexp prec emax (Zpos q) e l in
  (0 < shr_m r)%Z ∧ (emin prec emax ≤ e')%Z.
Proof.
  intros He. unfold shr_fexp, shr.
  assert (Hrec : shr_m (shr_record_of_loc (Zpos q) l) = Zpos q).
  { by destruct l as [|[]]. }
  destruct (fexp prec emax (Zdigits2 (Zpos q) + e) - e)%Z as [|n|n] eqn:Hn.
  - rewrite Hrec. lia.
  - split; [|lia].
    rewrite iter_shr_1_m by (rewrite Hrec; lia). rewrite Hrec.
    assert (Hle : (Zpos n ≤ Zpos (digits2_pos q) - 1)%Z).
    { revert Hn He. unfold fexp, emin, prec, emax. simpl Zdigits2. lia. }
    pose proof (digits2_pos_lower q) as Hq.
    assert (Hpow : (2 ^ Zpos n ≤ 2 ^ (Zpos (digits2_pos q) - 1))%Z).
    { apply Z.pow_le_mono_r; lia. }
    apply Z.div_str_pos. split; [apply Z.pow_pos_nonneg; lia | lia].
  - rewrite Hrec. lia.
Qed.

Lemma round_nearest_even_pos (mx : Z) (l : location) :
  (0 < mx)%Z → (0 < round_nearest_even mx l)%Z.
Proof.
  intros H. unfold round_nearest_even.
  destruct l as [|[]]; try done; [destruct (Z.even mx)|]; lia.
Qed.

Lemma binary_round_aux_pos (q : positive) (e : Z) (l : location) :
  (emin prec emax ≤ e)%Z →
  positive_float (binary_round_aux prec emax false (Zpos q) e l).
Proof.
  intros He. unfold binary_round_aux.
  pose proof (shr_fexp_pos q e l He) as H1.
  destruct (shr_fexp prec emax (Zpos q) e l) as [r1 e1].
  destruct H1 as [Hm1 He1].
  pose proof (round_nearest_even_pos (shr_m r1) (loc_of_shr_record r1) Hm1) as Hr.
  destruct (round_nearest_even (shr_m r1) (loc_of_shr_record r1)) as [|q2|q2];
    try lia.
  pose proof (shr_fexp_pos q2 e1 loc_Exact He1) as H2.
  destruct (shr_fexp prec emax (Zpos q2) e1 loc_Exact) as [r2 e2].
  destruct H2 as [Hm2 He2].
  destruct (shr_m r2) as [|q3|q3]; try lia.
  destruct (e2 <=? emax - prec)%Z; [right; eauto | by left].
Qed.

Lemma of_nat_pos (n : nat) : (0 < n)%nat → positive_float (of_nat n).
Proof.
  intros Hn. unfold of_nat, binary_normalize.
  destruct (Z.of_nat n) as [|q|q] eqn:Hq; try lia.
  unfold binary_round, shl_align.
  set (e' := fexp prec emax (Zpos (digits2_pos q) + 0)).
  assert (He' : (emin prec emax ≤ e')%Z).
  { unfold e', fexp. lia. }
  destruct (e' - 0)%Z as [|d|d] eqn:Hd;
    apply binary_round_aux_pos; unfold emin, prec, emax in *; lia.
Qed.

Lemma truediv_zero (n : nat) :
  (0 < n)%nat → truediv (of_nat 0) n = Ok zero.
Proof.
  intros Hn. unfold truediv.
  destruct (of_nat_pos n Hn) as [->|(mx & ex & ->)]; reflexivity.
Qed.

Lemma truediv_by_zero (x : float) : truediv x 0 = Raise ZeroDivisionError.
Proof. reflexivity. Qed.

End Conversion.

(** ** The allele-frequency bounds *)

Section Bounds.

Context {matrix cov_t clusters_t fit_t firth_t : Type}.
Variable pre_filtering : Series → list Z → bool → float * bool.
Variable md5 : bytes → bytes.
Variable b2a_base64 : bytes → bytes.




End Bounds.


(** One unit in the last place outside of the default bounds. *)
Example one_ulp_outside :
  af_in_bounds Sample.min_af_default (next_down Sample.min_af_default)
    Sample.max_af_default = false
  ∧ af_in_bounds Sample.min_af_default (next_up Sample.max_af_default)
      Sample.max_af_default = false
  ∧ af_in_bounds Sample.min_af_default Sample.min_af_default
      Sample.max_af_default = true
  ∧ af_in_bounds Sample.min_af_default Sample.max_af_default
      Sample.max_af_default = true.
Proof. vm_compute. auto. Qed.

(** ** What is counted in the mixed-model path *)

Section BlockCounts.

Context {matrix cov_t clusters_t fit_t firth_t : Type}.
Variable pre_filtering : Series → list Z → bool → float * bool.
Variable md5 : bytes → bytes.
Variable b2a_base64 : bytes → bytes.
Variable generator_stop : bool.

Abbreviation prefiltered b :=
  {| b_prefilter := b_prefilter b + 1;
     b_variants := b_variants b;
     b_variant_mat := b_variant_mat b |}.

(** A variant inside the bounds whose pre-test is not below the
    threshold leaves the block as it was: no counter moves. *)
Lemma pretest_failure_leaves_block
    (a : @run_args matrix cov_t clusters_t fit_t firth_t)
    (k : list Z) (var_name : string) (kstrains nkstrains : list string)
    (af : float) (var_idx : nat) (b : block) :
  af_in_bounds (min_af a) af (max_af a) = true →
  continuous a = false →
  ltb (pre_filtering (p a) k false).1 (filter_pvalue a) = false →
  load_var_body pre_filtering md5 b2a_base64 a var_idx
    (Variant k var_name kstrains nkstrains af) b = Ok b.
Proof.
  intros Hin Hc Hlt. unfold load_var_body. rewrite Hin, Hc. simpl.
  by rewrite Hlt.
Qed.

(** A variant inside the bounds whose pre-test is below the threshold
    reaches the call of [LMM], which raises: the class has fourteen
    fields and the call gives eleven. *)
Lemma admitted_variant_raises
    (a : @run_args matrix cov_t clusters_t fit_t firth_t)
    (k : list Z) (var_name : string) (kstrains nkstrains : list string)
    (af : float) (var_idx : nat) (b : block) :
  af_in_bounds (min_af a) af (max_af a) = true →
  py_lt_float (if negb (continuous a)
               then PFloat (pre_filtering (p a) k (continuous a)).1
               else PInt 0) (filter_pvalue a) = Ok true →
  load_var_body pre_filtering md5 b2a_base64 a var_idx
    (Variant k var_name kstrains nkstrains af) b = Raise TypeError.
Proof.
  intros Hin Hlt. unfold load_var_body. rewrite Hin, Hlt. reflexivity.
Qed.

(** C3, as amended. A read that returns no indicator and is not the end
    of the stream is skipped, it is neither tested nor printed and gets
    no column of the matrix, and the run goes on with the next read; but
    it is counted: [load_var_block] adds one to [prefilter], and
    [iter_variants] yields for it the tuple of [None], the one it yields
    for a variant outside of the bounds. *)
Theorem skipped_record_is_prefiltered
    (a : @run_args matrix cov_t clusters_t fit_t firth_t)
    (st st' : stream) (n var_idx : nat) (b : block) :
  read_variant st (p a) (var_type a) (burden a) (uncompressed a)
    (all_strains a) (sample_order a) = Ok (Skip, st') →
  load_var_loop pre_filtering md5 b2a_base64 a (S n) var_idx st b
  = load_var_loop pre_filtering md5 b2a_base64 a n (S var_idx) st' (prefiltered b)
  ∧ iter_variants_next md5 b2a_base64 generator_stop a
      {| g_stream := st; g_done := false |}
    = Ok (Some AllNone, {| g_stream := st'; g_done := false |})
  ∧ ∀ k var_name kstrains nkstrains af,
      af_in_bounds (min_af a) af (max_af a) = false →
      iter_variants_body md5 b2a_base64 a (Variant k var_name kstrains nkstrains af)
      = iter_variants_body md5 b2a_base64 a Skip.
Proof.
  intros Hread. repeat split.
  - simpl. rewrite Hread. reflexivity.
  - unfold iter_variants_next. simpl. rewrite Hread. reflexivity.
  - intros k var_name kstrains nkstrains af Hout. simpl. by rewrite Hout.
Qed.

End BlockCounts.

(** A stream of one record with two alternate alleles. *)
Lemma skipped_record_is_prefiltered_witness :
  read_variant {| infile := Sample.vcf_file [Sample.multi_allelic];
                  burden_regions := [] |}
    (p Sample.args_default) vcf false false
    (all_strains Sample.args_default) [] =
  Ok (Skip, {| infile := Sample.vcf_file []; burden_regions := [] |})
  ∧ load_var_loop (Sample.const_pre_filtering Sample.one) Sample.md5_len
      Sample.b64_id
      (Sample.args vcf false [] Sample.min_af_default Sample.max_af_default
         Sample.one Sample.one false)
      2 0 {| infile := Sample.vcf_file [Sample.multi_allelic];
             burden_regions := [] |} Sample.block0
    = Ok ({| b_prefilter := 1; b_variants := [];
             b_variant_mat := b_variant_mat Sample.block0 |}, true,
          {| infile := Sample.vcf_file []; burden_regions := [] |}).
Proof.
  split; [reflexivity|].
  destruct (skipped_record_is_prefiltered
              (Sample.const_pre_filtering Sample.one) Sample.md5_len Sample.b64_id
              true
              (Sample.args vcf false [] Sample.min_af_default Sample.max_af_default
                 Sample.one Sample.one false)
              {| infile := Sample.vcf_file [Sample.multi_allelic];
                 burden_regions := [] |}
              {| infile := Sample.vcf_file []; burden_regions := [] |}
              1 0 Sample.block0 eq_refl) as [H _].
  rewrite H. reflexivity.
Defined.

(** C3, as stated, fails: in a run of the mixed model over a file of one
    record with two alternate alleles, the record is counted as loaded
    and as filtered. *)
Lemma malformed_record_is_counted :
  main (Sample.const_pre_filtering Sample.one) Sample.md5_len Sample.b64_id
    Sample.regression Sample.fit_lmm Sample.format_output
    (Sample.world (Sample.vcf_file [Sample.multi_allelic]) [])
    (Sample.opts None (Some "calls.vcf") None None true 1
       Sample.min_af_default Sample.max_af_default Sample.one Sample.one None)
  = {| trace :=
         [Read_phenotypes; Read_setup; Open_variants;
          Stdout (PyStr.join tab
                    ["variant"; "af"; "filter-pvalue"; "lrt-pvalue"; "beta";
                     "beta-std-err"; "variant_h2"; "notes"]);
          Stderr ("1 loaded variants" ++ nl);
          Stderr ("1 filtered variants" ++ nl);
          Stderr ("0 tested variants" ++ nl);
          Stderr ("0 printed variants" ++ nl)];
       exit_status := Exit 0 |}.
Proof. vm_compute. reflexivity. Qed.

(** C2, on the code: a block of one variant, present in two samples of
    four, whose pre-test p-value is 1 under the default threshold 1. The
    variant is left out of the matrix, and out of both counts. *)
Lemma pretest_failure_is_not_counted :
  load_var_block (Sample.const_pre_filtering Sample.one) Sample.md5_len
    Sample.b64_id Sample.args_default
    {| infile := Sample.text_file ["g1 1 0 1 0" ++ nl]; burden_regions := [] |}
    lmm_block_size
  = Ok ([], [], {| c_prefilter := 0; c_tested := 0 |}, true,
        {| infile := Sample.text_file []; burden_regions := [] |}).
Proof. vm_compute. reflexivity. Qed.

(** C1, on the code: the run of the mixed model over the same variant
    ends with all its counters at zero, while the run of the fixed
    effects counts the variant. *)
Lemma lmm_run_loses_pretest_failures :
  main (Sample.const_pre_filtering Sample.one) Sample.md5_len Sample.b64_id
    Sample.regression Sample.fit_lmm Sample.format_output
    (Sample.world Sample.rtab_one [])
    (Sample.opts None None (Some "genes.Rtab") None true 1
       Sample.min_af_default Sample.max_af_default Sample.one Sample.one None)
  = {| trace :=
         [Read_phenotypes; Read_setup; Open_variants;
          Stdout (PyStr.join tab
                    ["variant"; "af"; "filter-pvalue"; "lrt-pvalue"; "beta";
                     "beta-std-err"; "variant_h2"; "notes"]);
          Stderr ("0 loaded variants" ++ nl);
          Stderr ("0 filtered variants" ++ nl);
          Stderr ("0 tested variants" ++ nl);
          Stderr ("0 printed variants" ++ nl)];
       exit_status := Exit 0 |}.
Proof. vm_compute. reflexivity. Qed.

Example fixed_run_counts_the_variant :
  fixed_effects Sample.md5_len Sample.b64_id true Sample.regression
    Sample.format_output
    (Sample.opts None None (Some "genes.Rtab") None false 1
       Sample.min_af_default Sample.max_af_default Sample.one Sample.one None)
    Sample.args_default [] Sample.rtab_stream (agg0 [])
  = Crashed RuntimeError
      {| prefilter := 0; tested := 1; printed := 1; out := [Stdout "g1"] |}
  ∧ main (Sample.const_pre_filtering Sample.one) Sample.md5_len Sample.b64_id
      Sample.regression Sample.fit_lmm Sample.format_output
      (Sample.world Sample.rtab_one [])
      (Sample.opts None None (Some "genes.Rtab") None false 1
         Sample.min_af_default Sample.max_af_default Sample.one Sample.one None)
    = {| trace :=
           [Read_phenotypes; Read_setup; Open_variants;
            Stdout (PyStr.join tab
                      ["variant"; "af"; "filter-pvalue"; "lrt-pvalue"; "beta";
                       "beta-std-err"; "intercept"; "PC1"; "PC2"; "notes"]);
            Stdout "g1"];
         exit_status := Traceback RuntimeError |}.
Proof. split; vm_compute; reflexivity. Qed.

(** C10, on the code: a block whose one variant passes the bounds and
    the pre-test is not returned, the call of [LMM] raises. *)
Lemma admitted_block_raises :
  load_var_block (Sample.const_pre_filtering Sample.half) Sample.md5_len
    Sample.b64_id Sample.args_default
    {| infile := Sample.text_file ["g1 1 0 1 0" ++ nl]; burden_regions := [] |}
    lmm_block_size
  = Raise TypeError.
Proof. vm_compute. reflexivity. Qed.

(** ** The threshold on the fitted variants, and the start of [main] *)

Section Threshold.

Variable format_output :
  classes.Seer + classes.LMM → list string → bool → bool → string.

Lemma eqb_not_ltb (x y : float) : eqb x y = true → ltb x y = false.
Proof.
  unfold eqb, ltb, SFeqb, SFltb. by destruct (SFcompare x y) as [[]|].
Qed.

Lemma ltb_false_cases (x y : float) :
  ltb x y = false ↔ leb y x = true ∨ is_nan x = true ∨ is_nan y = true.
Proof.
  unfold ltb, leb, SFltb, SFleb. rewrite (SFcompare_antisym x y).
  destruct x as [sx|sx| |sx mx ex], y as [sy|sy| |sy my ey]; simpl;
    try (destruct sx); try (destruct sy); simpl; try tauto;
    try (split; [intros _; by left | done]);
    try (split; [done | intros [?|[?|?]]; done]);
    destruct (ex ?= ey)%Z; simpl;
    try (split; [intros _; by left | done]);
    try (split; [done | intros [?|[?|?]]; done]);
    destruct (Pos.compare_cont Eq mx my); simpl;
    try (split; [intros _; by left | done]);
    try (split; [done | intros [?|[?|?]]; done]).
Qed.

Lemma write_pattern_counters (o : options) (x : pyobj) (s s1 : agg) (e : option exn) :
  write_pattern o x s = (s1, e) →
  prefilter s1 = prefilter s ∧ tested s1 = tested s ∧ printed s1 = printed s.
Proof.
  unfold write_pattern. destruct (given (o_output_patterns o)).
  - destruct (py_bytes x); intros [= <- <-]; done.
  - intros [= <- <-]; done.
Qed.

(** The body of the loop over the fitted variants, taken by itself: a
    fitted variant whose p-value is a float, and whose pattern is written
    without exception when patterns are asked for, is printed, and
    counted as printed, if and only if its p-value is strictly below the
    threshold [lrt_pvalue]. Otherwise, when the threshold is at most the
    p-value or one of the two is a NaN, nothing is printed and [printed]
    stays; so a p-value equal to the threshold is not printed. The
    counters [prefilter] and [tested] stay in both cases. No run of
    [main] comes to this loop, see [lmm_run_prints_no_fitted_variant]. *)
Lemma lmm_prints_below_threshold (o : options) (lineage_dict : list string)
    (variant : classes.LMM) (x : float) (s s1 : agg) :
  classes.pvalue variant = PFloat x →
  write_pattern o (classes.pattern variant) s = (s1, None) →
  let r := lmm_emit format_output o lineage_dict variant s in
  r.2 = None
  ∧ prefilter r.1 = prefilter s ∧ tested r.1 = tested s
  ∧ (ltb x (o_lrt_pvalue o) = true →
       printed r.1 = printed s + 1
       ∧ out r.1 = (out s1 ++ [Stdout (format_output (inr variant) lineage_dict
                                          (o_lmm o) (o_print_samples o))])%list)
  ∧ (ltb x (o_lrt_pvalue o) = false → r.1 = s1 ∧ printed r.1 = printed s)
  ∧ (ltb x (o_lrt_pvalue o) = false ↔
       leb (o_lrt_pvalue o) x = true ∨ is_nan x = true
       ∨ is_nan (o_lrt_pvalue o) = true)
  ∧ (eqb x (o_lrt_pvalue o) = true → r.1 = s1 ∧ printed r.1 = printed s).
Proof.
  intros Hp Hw r. unfold r, lmm_emit. rewrite Hw, Hp. simpl.
  destruct (write_pattern_counters _ _ _ _ _ Hw) as (Hpre & Htest & Hprint).
  pose proof (eqb_not_ltb x (o_lrt_pvalue o)) as Heq.
  pose proof (ltb_false_cases x (o_lrt_pvalue o)) as Hcases.
  destruct (ltb x (o_lrt_pvalue o)); simpl.
  - split_and!; try done.
    + intros _. by rewrite Hprint.
    + intros H. by specialize (Heq H).
  - split_and!; done.
Qed.

End Threshold.

(** The body of the loop on a p-value below the threshold 1, when
    patterns are written. *)
Example loop_body_below_threshold :
  printed (lmm_emit Sample.format_output Sample.opts_lmm []
             (Sample.fitted (PStr "g1") (PBytes [4%Z]) (PFloat Sample.half))
             (agg0 [])).1 = 1
  ∧ out (lmm_emit Sample.format_output Sample.opts_lmm []
           (Sample.fitted (PStr "g1") (PBytes [4%Z]) (PFloat Sample.half))
           (agg0 [])).1 = [Patterns [4%Z]; Stdout "g1"].
Proof.
  destruct (lmm_prints_below_threshold Sample.format_output Sample.opts_lmm
              [] (Sample.fitted (PStr "g1") (PBytes [4%Z]) (PFloat Sample.half))
              Sample.half (agg0 [])
              {| prefilter := 0; tested := 0; printed := 0;
                 out := [Patterns [4%Z]] |} eq_refl eq_refl)
    as (_ & _ & _ & H & _).
  exact (H eq_refl).
Qed.

(** The body of the loop on a p-value equal to the threshold 1: the
    variant is not printed. *)
Example loop_body_at_threshold :
  o_lrt_pvalue Sample.opts_lmm = Sample.one
  ∧ lmm_emit Sample.format_output Sample.opts_lmm []
      (Sample.fitted (PStr "g1") (PBytes [4%Z]) (PFloat Sample.one))
      {| prefilter := 0; tested := 1; printed := 0; out := [] |}
    = ({| prefilter := 0; tested := 1; printed := 0;
          out := [Patterns [4%Z]] |}, None).
Proof. split; reflexivity. Qed.


Section Startup.

Context {matrix cov_t clusters_t fit_t firth_t model_t : Type}.
Variable pre_filtering : Series → list Z → bool → float * bool.
Variable md5 : bytes → bytes.
Variable b2a_base64 : bytes → bytes.
Variable fixed_effects_regression :
  @worker_args matrix cov_t clusters_t fit_t firth_t → classes.Seer.
Variable fit_lmm :
  model_t → float → list classes.LMM → list (list float) → bool →
  clusters_t → cov_t → float → list classes.LMM.
Variable format_output :
  classes.Seer + classes.LMM → list string → bool → bool → string.

Lemma lmm_with_cores_is_refused (python_major : Z) (o : options) :
  o_lmm o = true → (1 < o_cpu o)%Z →
  ∃ msg, check_arguments python_major o = Some msg.
Proof.
  intros Hl Hc. unfold check_arguments. apply Z.ltb_lt in Hc. rewrite Hl, Hc.
  repeat match goal with
         | |- ∃ msg, (if ?c then _ else _) = Some msg =>
             destruct c eqn:?; [by eauto|]
         end.
  done.
Qed.

(** C7. A run that asks for the mixed model and for more than one
    process ends with the exit status 1, and all that it does before is
    to write one message on the standard error: it reads neither the
    phenotypes nor anything of the set-up, and does not open the variant
    file. *)
Theorem lmm_refuses_several_cores
    (w : @world matrix cov_t clusters_t fit_t firth_t model_t) (o : options) :
  o_lmm o = true → (1 < o_cpu o)%Z →
  exit_status (main pre_filtering md5 b2a_base64 fixed_effects_regression
                 fit_lmm format_output w o) = Exit 1
  ∧ ∃ msg, trace (main pre_filtering md5 b2a_base64 fixed_effects_regression
                    fit_lmm format_output w o) = [Stderr msg].
Proof.
  intros Hl Hc.
  destruct (lmm_with_cores_is_refused (python_major w) o Hl Hc) as [msg Hmsg].
  unfold main. rewrite Hmsg. simpl. eauto.
Qed.

End Startup.

(** The mixed model with four processes. *)
Lemma lmm_refuses_several_cores_witness :
  exit_status
    (main (Sample.const_pre_filtering Sample.one) Sample.md5_len Sample.b64_id
       Sample.regression Sample.fit_lmm Sample.format_output
       (Sample.world Sample.rtab_one [])
       (Sample.opts None None (Some "genes.Rtab") None true 4
          Sample.min_af_default Sample.max_af_default Sample.one Sample.one None))
  = Exit 1
  ∧ ∃ msg,
      trace
        (main (Sample.const_pre_filtering Sample.one) Sample.md5_len Sample.b64_id
           Sample.regression Sample.fit_lmm Sample.format_output
           (Sample.world Sample.rtab_one [])
           (Sample.opts None None (Some "genes.Rtab") None true 4
              Sample.min_af_default Sample.max_af_default Sample.one Sample.one None))
      = [Stderr msg].
Proof. apply lmm_refuses_several_cores; reflexivity. Defined.

Example lmm_with_four_cores :
  main (Sample.const_pre_filtering Sample.one) Sample.md5_len Sample.b64_id
    Sample.regression Sample.fit_lmm Sample.format_output
    (Sample.world Sample.rtab_one [])
    (Sample.opts None None (Some "genes.Rtab") None true 4
       Sample.min_af_default Sample.max_af_default Sample.one Sample.one None)
  = {| trace := [Stderr ("LMM does not currently support >1 core" ++ nl ++
                         "Consider splitting your input file " ++
                         "or running with 1 core." ++ nl)];
       exit_status := Exit 1 |}.
Proof. reflexivity. Qed.

(** ** What [read_variant] returns *)

Section Design.

Lemma foldl_absent_lookup (nkstrains : list string) (d : gmap string Z) (x : string) :
  foldl (λ d x, <[x := 0%Z]> d) d nkstrains !! x
  = if bool_decide (x ∈ nkstrains) then Some 0%Z else d !! x.
Proof.
  revert d. induction nkstrains as [|y l IH]; intros d; simpl.
  - reflexivity.
  - rewrite IH. destruct (decide (x = y)) as [->|Hne].
    + rewrite lookup_insert_eq.
      rewrite (bool_decide_eq_true_2 (y ∈ y :: l)); [|by left].
      by destruct (bool_decide (y ∈ l)).
    + rewrite lookup_insert_ne by done.
      destruct (bool_decide (x ∈ l)) eqn:Hl.
      * apply bool_decide_eq_true in Hl.
        rewrite (bool_decide_eq_true_2 (x ∈ y :: l)); [done|by right].
      * apply bool_decide_eq_false in Hl.
        rewrite (bool_decide_eq_false_2 (x ∈ y :: l)); [done|].
        by intros [?|?]%elem_of_cons.
Qed.


Lemma elem_of_sorted_elements (X : gset string) (x : string) :
  x ∈ merge_sort String.le (elements X) ↔ x ∈ X.
Proof. rewrite merge_sort_Permutation. apply elem_of_elements. Qed.


End Design.

Section Burden.

Context {matrix cov_t clusters_t fit_t firth_t : Type}.
Variable pre_filtering : Series → list Z → bool → float * bool.
Variable md5 : bytes → bytes.
Variable b2a_base64 : bytes → bytes.
Variable generator_stop : bool.


(** C9. The hash of a pattern is a function of the bytes of the
    indicator: it is the same each time, and two indicators with the
    same bytes have the same hash, whatever format the variants were read
    from and whatever run yields them. *)
Theorem hash_pattern_of_equal_bytes
    (a1 a2 : @run_args matrix cov_t clusters_t fit_t firth_t)
    (k1 k2 : list Z) (name1 name2 : string)
    (ks1 ks2 nks1 nks2 : list string) (af1 af2 : float) :
  view_uint8 k1 = view_uint8 k2 →
  hash_pattern md5 b2a_base64 k1 = hash_pattern md5 b2a_base64 k1
  ∧ hash_pattern md5 b2a_base64 k1 = hash_pattern md5 b2a_base64 k2
  ∧ ∀ args1 args2,
      iter_variants_body md5 b2a_base64 a1 (Variant k1 name1 ks1 nks1 af1)
      = Args args1 →
      iter_variants_body md5 b2a_base64 a2 (Variant k2 name2 ks2 nks2 af2)
      = Args args2 →
      a_pattern args1 = a_pattern args2.
Proof.
  intros Hv.
  assert (Hh : hash_pattern md5 b2a_base64 k1 = hash_pattern md5 b2a_base64 k2).
  { unfold hash_pattern. by rewrite Hv. }
  split_and!; [done|done|].
  intros args1 args2. unfold iter_variants_body.
  destruct (negb (af_in_bounds (min_af a1) af1 (max_af a1))); [done|].
  destruct (negb (af_in_bounds (min_af a2) af2 (max_af a2))); [done|].
  intros [= <-] [= <-]. exact Hh.
Qed.

End Burden.


(** The indicator of the specification, [1, 0, 1, 0], in two runs. *)
Lemma hash_pattern_of_equal_bytes_witness :
  hash_pattern Sample.md5_len Sample.b64_id [1; 0; 1; 0]%Z
  = hash_pattern Sample.md5_len Sample.b64_id [1; 0; 1; 0]%Z
  ∧ hash_pattern Sample.md5_len Sample.b64_id [1; 0; 1; 0]%Z
    = hash_pattern Sample.md5_len Sample.b64_id [1; 0; 1; 0]%Z
  ∧ ∀ args1 args2,
      iter_variants_body Sample.md5_len Sample.b64_id Sample.args_default
        (Variant [1; 0; 1; 0]%Z "g1" ["A"; "C"] ["B"; "D"] Sample.half)
      = Args args1 →
      iter_variants_body Sample.md5_len Sample.b64_id Sample.args_kmers
        (Variant [1; 0; 1; 0]%Z "ACGT" ["A"; "C"] ["B"; "D"] Sample.half)
      = Args args2 →
      a_pattern args1 = a_pattern args2.
Proof.
  apply (hash_pattern_of_equal_bytes Sample.md5_len Sample.b64_id
           Sample.args_default Sample.args_kmers
           [1; 0; 1; 0]%Z [1; 0; 1; 0]%Z "g1" "ACGT"
           ["A"; "C"] ["A"; "C"] ["B"; "D"] ["B"; "D"] Sample.half Sample.half).
  reflexivity.
Defined.

(** The example of the specification: the variant present in A and C has
    the allele frequency 0.5 and the indicator [1, 0, 1, 0], from each of
    the three formats. *)
Example same_indicator_from_three_formats :
  read_variant Sample.rtab_stream Sample.pheno Rtab false false
    (list_to_set (index Sample.pheno)) ["A"; "B"; "C"; "D"]
  = Ok (Variant [1; 0; 1; 0]%Z "g1" ["A"; "C"] ["B"; "D"] Sample.half,
        {| infile := Sample.text_file []; burden_regions := [] |})
  ∧ read_variant Sample.kmers_stream Sample.pheno kmers false false
      (list_to_set (index Sample.pheno)) []
    = Ok (Variant [1; 0; 1; 0]%Z "ACGT" ["A"; "C"] ["B"; "D"] Sample.half,
          {| infile := Sample.text_file []; burden_regions := [] |})
  ∧ read_variant Sample.vcf_stream Sample.pheno vcf false false
      (list_to_set (index Sample.pheno)) []
    = Ok (Variant [1; 0; 1; 0]%Z "chr_9_A_T" ["A"; "C"] ["B"; "D"] Sample.half,
          {| infile := Sample.vcf_file []; burden_regions := [] |}).
Proof. vm_compute. auto. Qed.

Example view_uint8_example :
  view_uint8 [1; 0]%Z = [1; 0; 0; 0; 0; 0; 0; 0; 0; 0; 0; 0; 0; 0; 0; 0]%Z.
Proof. reflexivity. Qed.

(** ** The pool of processes against the sequential loop *)

Section Parallel.

Context {matrix cov_t clusters_t fit_t firth_t : Type}.
Variable md5 : bytes → bytes.
Variable b2a_base64 : bytes → bytes.
Variable generator_stop : bool.
Variable fixed_effects_regression :
  @worker_args matrix cov_t clusters_t fit_t firth_t → classes.Seer.
Variable format_output :
  classes.Seer + classes.LMM → list string → bool → bool → string.
Variable a : @run_args matrix cov_t clusters_t fit_t firth_t.
Variable lineage_dict : list string.

Abbreviation next := (iter_variants_next md5 b2a_base64 generator_stop a).
Abbreviation seq_loop o :=
  (sequential md5 b2a_base64 generator_stop fixed_effects_regression
     format_output o a lineage_dict).
Abbreviation par_loop o :=
  (parallel md5 b2a_base64 generator_stop fixed_effects_regression
     format_output o a lineage_dict).
Abbreviation emit o := (fixed_emit format_output o lineage_dict).
Abbreviation emits o := (emit_all format_output o lineage_dict).

(** Once ended, the generator stays ended. *)
Lemma next_none_done (g g' : generator) :
  next g = Ok (None, g') → g_done g' = true ∧ next g' = Ok (None, g').
Proof.
  unfold iter_variants_next. destruct (g_done g) eqn:Hd.
  - intros [= <-]. by rewrite Hd.
  - destruct (read_variant _ _ _ _ _ _ _) as [[r st]|e]; simpl; [|done].
    destruct r; [destruct generator_stop|..]; intros [= <-]; done.
Qed.

Lemma sequential_more_fuel (o : options) (fuel fuel' : nat) (g : generator)
    (s s' : agg) :
  seq_loop o fuel g s = Finished s' → (fuel ≤ fuel')%nat →
  seq_loop o fuel' g s = Finished s'.
Proof.
  revert fuel' g s. induction fuel as [|fuel IH]; intros fuel' g s; [done|].
  intros H Hle. destruct fuel' as [|fuel']; [lia|].
  simpl in *. destruct (next g) as [[[data|] g1]|e]; try done.
  destruct (emit o (fixed_effects_regression data) s) as [s1 [e|]]; [done|].
  apply IH; [done|lia].
Qed.

(** The results of a run do not depend on the number of processes. *)
Lemma fixed_emit_with_cpu (o : options) (cpu : Z) (x : classes.Seer) (s : agg) :
  emit (with_cpu o cpu) x s = emit o x s.
Proof. reflexivity. Qed.

Lemma sequential_with_cpu (o : options) (cpu : Z) (fuel : nat)
    (g : generator) (s : agg) :
  seq_loop (with_cpu o cpu) fuel g s = seq_loop o fuel g s.
Proof.
  revert g s. induction fuel as [|fuel IH]; intros g s; [done|].
  simpl. destruct (next g) as [[[data|] g1]|e]; [|done|done].
  rewrite (fixed_emit_with_cpu o cpu).
  destruct (emit o (fixed_effects_regression data) s) as [s1 [e|]]; [done|].
  apply IH.
Qed.

(** A slice of a sequential run that finishes: the slice is read without
    exception, its results are written without exception, and the
    sequential loop finishes from there as it did. *)
Lemma sequential_slice (o : options) (n fuel : nat) (g : generator) (s s_end : agg) :
  seq_loop o fuel g s = Finished s_end →
  ∃ slice g' s1,
    islice md5 b2a_base64 generator_stop a n g = Ok (slice, g')
    ∧ emits o (map fixed_effects_regression slice) s = (s1, None)
    ∧ seq_loop o (fuel - length slice) g' s1 = Finished s_end
    ∧ (slice = [] → n ≠ 0 → s_end = s).
Proof.
  revert fuel g s. induction n as [|n IH]; intros fuel g s Hseq.
  - exists [], g, s. simpl. rewrite Nat.sub_0_r. done.
  - destruct fuel as [|fuel]; [done|]. simpl in Hseq. simpl islice.
    destruct (next g) as [[[data|] g1]|e] eqn:Hnext; try done.
    + destruct (emit o (fixed_effects_regression data) s) as [s1 [e|]] eqn:Hemit;
        [done|].
      destruct (IH fuel g1 s1 Hseq) as (slice & g' & s2 & Hsl & Hem & Hrest & _).
      exists (data :: slice), g', s2. simpl. rewrite Hsl. simpl.
      rewrite Hemit. done.
    + injection Hseq as <-. apply next_none_done in Hnext as [_ Hnext].
      exists [], g1, s. simpl. by rewrite Hnext.
Qed.

Lemma parallel_of_sequential (o : options) (fuel : nat) (g : generator)
    (s s_end : agg) :
  (1 < o_cpu o)%Z →
  seq_loop o fuel g s = Finished s_end →
  par_loop o fuel g s = Finished s_end.
Proof.
  intros Hcpu. revert g s. induction fuel as [|fuel IH]; intros g s Hseq; [done|].
  destruct (sequential_slice o (Z.to_nat (o_cpu o * kmer_per_core)) _ g s s_end Hseq)
    as (slice & g' & s1 & Hsl & Hem & Hrest & Hnil).
  cbn [parallel]. rewrite Hsl.
  destruct slice as [|data slice].
  - simpl. rewrite Hnil; [done|done|]. unfold kmer_per_core. lia.
  - cbn [map]. revert Hem. cbn [map].
    intros ->. apply IH.
    apply (sequential_more_fuel o (S fuel - length (data :: slice))); [done|].
    simpl. lia.
Qed.

(** When the run with one process finishes, which it only does before
    Python 3.7, the run with more than one process, which maps the
    regression over slices of [cpu * kmer_per_core] tuples, writes the
    same lines and the same patterns in the same order and ends with the
    same counters. *)
Lemma finished_runs_agree (o : options) (cpu : Z) (st : stream) (s s_end : agg) :
  (1 < cpu)%Z →
  fixed_effects md5 b2a_base64 generator_stop fixed_effects_regression
    format_output (with_cpu o 1) a lineage_dict st s = Finished s_end →
  fixed_effects md5 b2a_base64 generator_stop fixed_effects_regression
    format_output (with_cpu o cpu) a lineage_dict st s = Finished s_end.
Proof.
  intros Hcpu. unfold fixed_effects. simpl o_cpu.
  change (1 <? 1)%Z with false. cbv iota.
  rewrite (proj2 (Z.ltb_lt 1 cpu) Hcpu).
  rewrite sequential_with_cpu. intros Hseq.
  apply parallel_of_sequential; [done|].
  by rewrite sequential_with_cpu.
Qed.

End Parallel.

(** Four variants before Python 3.7, with four processes and with one. *)
Example finished_runs_agree_on_four_variants :
  fixed_effects Sample.md5_len Sample.b64_id false Sample.regression
    Sample.format_output (with_cpu (Sample.opts_fixed 1) 4)
    Sample.args_default [] Sample.rtab_four (agg0 [])
  = Finished {| prefilter := 1; tested := 3; printed := 2;
                out := [Patterns [32%Z]; Stdout "g1"; Patterns [32%Z];
                        Patterns [32%Z]; Stdout "g4"] |}.
Proof.
  apply (finished_runs_agree Sample.md5_len Sample.b64_id false Sample.regression
           Sample.format_output Sample.args_default [] (Sample.opts_fixed 1) 4
           Sample.rtab_four (agg0 [])).
  - reflexivity.
  - vm_compute. reflexivity.
Qed.

(** C5, on the code: a presence/absence matrix of four variants under
    Python 3.7. With one process the run prints the two variants that
    pass, writes the three patterns and then ends on the [RuntimeError]
    that the end of the generator has become; with four processes the
    same exception ends the run inside the first slice, before any
    result is returned, and the run prints nothing after the header.
    Neither run writes its counts. *)
Lemma pool_run_loses_its_last_slice :
  main (Sample.const_pre_filtering Sample.one) Sample.md5_len Sample.b64_id
    Sample.regression Sample.fit_lmm Sample.format_output
    (Sample.world More.rtab_four_file []) (Sample.opts_fixed 1)
  = {| trace :=
         [Read_phenotypes; Read_setup; Open_variants;
          Stdout (PyStr.join tab
                    ["variant"; "af"; "filter-pvalue"; "lrt-pvalue"; "beta";
                     "beta-std-err"; "intercept"; "PC1"; "PC2"; "notes"]);
          Patterns [32%Z]; Stdout "g1"; Patterns [32%Z]; Patterns [32%Z];
          Stdout "g4"];
       exit_status := Traceback RuntimeError |}
  ∧ main (Sample.const_pre_filtering Sample.one) Sample.md5_len Sample.b64_id
      Sample.regression Sample.fit_lmm Sample.format_output
      (Sample.world More.rtab_four_file []) (Sample.opts_fixed 4)
    = {| trace :=
           [Read_phenotypes; Read_setup; Open_variants;
            Stdout (PyStr.join tab
                      ["variant"; "af"; "filter-pvalue"; "lrt-pvalue"; "beta";
                       "beta-std-err"; "intercept"; "PC1"; "PC2"; "notes"])];
         exit_status := Traceback RuntimeError |}.
Proof. split; vm_compute; reflexivity. Qed.

(** The same holds of any exception of the reading, under any version
    of Python: on a blank line the two runs end with the same
    [IndexError], but the sequential loop has written the results of the
    variants before the line that raises, and the pool has not. *)
Example runs_that_raise :
  fixed_effects Sample.md5_len Sample.b64_id true Sample.regression
    Sample.format_output (Sample.opts_fixed 1)
    Sample.args_default [] Sample.rtab_blank_line (agg0 [])
  = Crashed IndexError
      {| prefilter := 0; tested := 1; printed := 1;
         out := [Patterns [32%Z]; Stdout "g1"] |}
  ∧ fixed_effects Sample.md5_len Sample.b64_id true Sample.regression
      Sample.format_output (Sample.opts_fixed 4)
      Sample.args_default [] Sample.rtab_blank_line (agg0 [])
    = Crashed IndexError (agg0 []).
Proof. vm_compute. auto. Qed.

(** ** The loops of [main] end *)

Section Fuel.

Lemma bind_Ok {A B} (r : result A) (f : A → result B) (y : B) :
  (r ≫= f) = Ok y → ∃ x, r = Ok x ∧ f x = Ok y.
Proof. destruct r as [x|e]; simpl; [eauto|done]. Qed.

(** Each read that is not the end of the stream takes one line, one
    record or one region from it. *)
Lemma read_variant_size (st st' : stream) (p : Series) (var_type : var_type_t)
    (burden uncompressed : bool) (all_strains : gset string)
    (sample_order : list string) (r : read_out) :
  read_variant st p var_type burden uncompressed all_strains sample_order
  = Ok (r, st') →
  (stream_size st' ≤ stream_size st)%nat
  ∧ (r ≠ Eof → stream_size st = S (stream_size st')).
Proof.
  unfold read_variant, stream_size.
  destruct st as [[lines records fetch] regions]; simpl.
  destruct var_type.
  - destruct lines as [|line rest]; simpl.
    + intros [= <- <-]. simpl. split; [lia|done].
    + destruct (String.eqb line "").
      * intros [= <- <-]. simpl. split; [lia|done].
      * destruct (PyStr.split line) as [|var_name ws]; [done|].
        destruct (PyStr.split_on "|" (PyStr.rstrip line)) as [|w1 [|strains ws']];
          [done|done|].
        intros H. apply bind_Ok in H as (x & _ & [= <- <-]). simpl.
        split; [lia|done].
  - destruct burden.
    + destruct regions as [|[var_name region] rest]; simpl.
      * intros [= <- <-]. simpl. split; [lia|done].
      * destruct (Region.re_match region) as [[[g1 g2] g3]|].
        -- intros H. apply bind_Ok in H as (vs & _ & H).
           apply bind_Ok in H as (d & _ & H).
           apply bind_Ok in H as (x & _ & [= <- <-]). simpl.
           split; [lia|intros _; lia].
        -- intros [= <- <-]. simpl. split; [lia|intros _; lia].
    + destruct records as [|variant rest]; simpl.
      * intros [= <- <-]. simpl. split; [lia|done].
      * intros H. apply bind_Ok in H as ([var_name d] & _ & H).
        destruct var_name as [var_name|].
        -- apply bind_Ok in H as (x & _ & [= <- <-]). simpl.
           split; [lia|intros _; lia].
        -- injection H as <- <-. simpl. split; [lia|intros _; lia].
  - destruct lines as [|line rest]; simpl.
    + intros [= <- <-]. simpl. split; [lia|done].
    + destruct (String.eqb line "").
      * intros [= <- <-]. simpl. split; [lia|done].
      * destruct (PyStr.split (PyStr.rstrip line)) as [|var_name strains]; [done|].
        intros H. apply bind_Ok in H as (x & _ & [= <- <-]). simpl.
        split; [lia|done].
Qed.

End Fuel.

Section Totality.

Context {matrix cov_t clusters_t fit_t firth_t model_t : Type}.
Variable pre_filtering : Series → list Z → bool → float * bool.
Variable md5 : bytes → bytes.
Variable b2a_base64 : bytes → bytes.
Variable generator_stop : bool.
Variable fixed_effects_regression :
  @worker_args matrix cov_t clusters_t fit_t firth_t → classes.Seer.
Variable fit_lmm :
  model_t → float → list classes.LMM → list (list float) → bool →
  clusters_t → cov_t → float → list classes.LMM.
Variable format_output :
  classes.Seer + classes.LMM → list string → bool → bool → string.
Variable o : options.
Variable a : @run_args matrix cov_t clusters_t fit_t firth_t.
Variable lineage_dict : list string.
Variable lmm : model_t.
Variable h2 : float.

Lemma next_size (g g' : generator) (x : option worker_args) :
  iter_variants_next md5 b2a_base64 generator_stop a g = Ok (x, g') →
  match x with
  | Some _ => (generator_size g' < generator_size g)%nat
  | None => generator_size g' = 0
  end.
Proof.
  unfold iter_variants_next, generator_size. destruct (g_done g) eqn:Hd.
  - intros [= <- <-]. by rewrite Hd.
  - intros H. apply bind_Ok in H as ([r st] & Hread & H).
    apply read_variant_size in Hread as [Hle Hlt].
    destruct r; [destruct generator_stop; [done|]|..];
      injection H as <- <-; simpl; try done;
      rewrite Hlt by done; lia.
Qed.

Lemma sequential_ends (fuel : nat) (g : generator) (s : agg) :
  (generator_size g < fuel)%nat →
  sequential md5 b2a_base64 generator_stop fixed_effects_regression
    format_output o a lineage_dict fuel g s ≠ No_fuel.
Proof.
  revert g s. induction fuel as [|fuel IH]; intros g s Hlt; [lia|].
  simpl.
  destruct (iter_variants_next md5 b2a_base64 generator_stop a g)
    as [[[data|] g1]|e] eqn:Hn; [|done|done].
  apply next_size in Hn.
  destruct (fixed_emit format_output o lineage_dict _ s) as [s1 [e|]]; [done|].
  apply IH. lia.
Qed.

Lemma islice_size (n : nat) (g g' : generator) (slice : list worker_args) :
  islice md5 b2a_base64 generator_stop a n g = Ok (slice, g') →
  (generator_size g' + length slice ≤ generator_size g)%nat.
Proof.
  revert g g' slice. induction n as [|n IH]; intros g g' slice; simpl.
  - intros [= <- <-]. simpl. lia.
  - intros H. apply bind_Ok in H as ([x g1] & Hn & H).
    apply next_size in Hn. destruct x as [data|].
    + apply bind_Ok in H as ([rest g2] & Hsl & [= <- <-]).
      apply IH in Hsl. simpl. lia.
    + injection H as <- <-. simpl. lia.
Qed.

Lemma parallel_ends (fuel : nat) (g : generator) (s : agg) :
  (generator_size g < fuel)%nat →
  parallel md5 b2a_base64 generator_stop fixed_effects_regression
    format_output o a lineage_dict fuel g s ≠ No_fuel.
Proof.
  revert g s. induction fuel as [|fuel IH]; intros g s Hlt; [lia|].
  cbn [parallel].
  destruct (islice md5 b2a_base64 generator_stop a _ g)
    as [[slice g1]|e] eqn:Hsl; [|done].
  apply islice_size in Hsl.
  destruct slice as [|data slice]; [done|]. cbn [map].
  destruct (emit_all format_output o lineage_dict _ s) as [s1 [e|]]; [done|].
  apply IH. simpl in Hsl. lia.
Qed.

Lemma load_var_loop_size (n var_idx : nat) (st st' : stream) (b b' : block)
    (eof : bool) :
  load_var_loop pre_filtering md5 b2a_base64 a n var_idx st b = Ok (b', eof, st') →
  if eof then (stream_size st' ≤ stream_size st)%nat
  else stream_size st = n + stream_size st'.
Proof.
  revert var_idx st b. induction n as [|n IH]; intros var_idx st b; simpl.
  - intros [= <- <- <-]. done.
  - intros H. apply bind_Ok in H as ([r st1] & Hread & H).
    apply read_variant_size in Hread as [Hle Hlt].
    destruct r.
    + injection H as <- <- <-. done.
    + apply bind_Ok in H as (b1 & _ & H). apply IH in H.
      rewrite Hlt by done. destruct eof; lia.
    + apply bind_Ok in H as (b1 & _ & H). apply IH in H.
      rewrite Hlt by done. destruct eof; lia.
Qed.

Lemma load_var_block_size (st st' : stream) (block_size : nat)
    (variants : list classes.LMM) (variant_mat : list (list float))
    (counts : counts_t) (eof : bool) :
  load_var_block pre_filtering md5 b2a_base64 a st block_size
  = Ok (variants, variant_mat, counts, eof, st') →
  if eof then (stream_size st' ≤ stream_size st)%nat
  else stream_size st = block_size + stream_size st'.
Proof.
  unfold load_var_block. destruct (Nat.eqb block_size 0); [done|].
  intros H. apply bind_Ok in H as ([[b eof'] st1] & Hloop & [= <- <- <- <- <-]).
  by apply load_var_loop_size in Hloop.
Qed.

Lemma lmm_block_size_pos : (0 < lmm_block_size)%nat.
Proof. unfold lmm_block_size. lia. Qed.

Lemma lmm_blocks_ends (fuel : nat) (st : stream) (s : agg) :
  (stream_size st < fuel)%nat →
  lmm_blocks pre_filtering md5 b2a_base64 fit_lmm format_output o a
    lineage_dict lmm h2 fuel st s ≠ No_fuel.
Proof.
  revert st s. induction fuel as [|fuel IH]; intros st s Hlt; [lia|].
  cbn [lmm_blocks].
  destruct (load_var_block pre_filtering md5 b2a_base64 a st lmm_block_size)
    as [[[[[variants variant_mat] counts] eof] st']|e] eqn:Hblock; [|done].
  apply load_var_block_size in Hblock.
  match goal with
  | |- (let '(_, _) := ?x in _) ≠ _ => destruct x as [s1 [e|]]; [done|]
  end.
  destruct eof; [done|]. apply IH.
  pose proof lmm_block_size_pos. lia.
Qed.

(** The association test always ends: with the fuel that [association]
    gives to its loops, no loop runs out of it. *)
Lemma association_ends (st : stream) (s : agg) :
  association pre_filtering md5 b2a_base64 generator_stop
    fixed_effects_regression fit_lmm format_output o a lineage_dict lmm h2 st s
  ≠ No_fuel.
Proof.
  unfold association, fixed_effects.
  destruct (negb (o_lmm o)).
  - destruct (1 <? o_cpu o)%Z.
    + apply parallel_ends. unfold generator_size. simpl. lia.
    + apply sequential_ends. unfold generator_size. simpl. lia.
  - apply lmm_blocks_ends. lia.
Qed.

End Totality.

Section Run.

Context {matrix cov_t clusters_t fit_t firth_t model_t : Type}.
Variable pre_filtering : Series → list Z → bool → float * bool.
Variable md5 : bytes → bytes.
Variable b2a_base64 : bytes → bytes.
Variable generator_stop : bool.
Variable fixed_effects_regression :
  @worker_args matrix cov_t clusters_t fit_t firth_t → classes.Seer.
Variable fit_lmm :
  model_t → float → list classes.LMM → list (list float) → bool →
  clusters_t → cov_t → float → list classes.LMM.
Variable format_output :
  classes.Seer + classes.LMM → list string → bool → bool → string.

(** Every run of [main] ends, with an exit status or with a traceback. *)
Lemma main_ends (w : @world matrix cov_t clusters_t fit_t firth_t model_t)
    (o : options) :
  exit_status (main pre_filtering md5 b2a_base64 fixed_effects_regression
                 fit_lmm format_output w o) ≠ Out_of_fuel.
Proof.
  unfold main.
  destruct (check_arguments _ _); [done|].
  destruct (phenotypes_table w) as [p|e]; [|done].
  destruct (setup w p) as [written [[env|]|e]]; [|done|done].
  destruct (open_variants _ _ _) as [[[[var_type burden] st] sample_order]|e];
    [|done].
  match goal with
  | |- exit_status (match ?x with _ => _ end) ≠ _ =>
      pose proof (association_ends pre_filtering md5 b2a_base64 _
                    fixed_effects_regression fit_lmm format_output o
                    _ (e_lineage_dict env) (e_lmm env) (e_h2 env) st _
                  : x ≠ No_fuel) as Hends;
      destruct x; done
  end.
Qed.

(** ** The counters of the fixed effects *)

(** Each result moves the counters in one of three ways: it is counted
    as prefiltered; or as tested only, when it is filtered; or as tested
    and printed. *)
Lemma fixed_emit_partition (o : options) (lineage_dict : list string)
    (x : classes.Seer) (s s' : agg) :
  fixed_emit format_output o lineage_dict x s = (s', None) →
  (truthy (classes.s_prefilter x) = true
   ∧ prefilter s' = prefilter s + 1 ∧ tested s' = tested s
   ∧ printed s' = printed s)
  ∨ (truthy (classes.s_prefilter x) = false
     ∧ truthy (classes.s_filter x) = true
     ∧ prefilter s' = prefilter s ∧ tested s' = tested s + 1
     ∧ printed s' = printed s)
  ∨ (truthy (classes.s_prefilter x) = false
     ∧ truthy (classes.s_filter x) = false
     ∧ prefilter s' = prefilter s ∧ tested s' = tested s + 1
     ∧ printed s' = printed s + 1).
Proof.
  unfold fixed_emit. destruct (truthy (classes.s_prefilter x)).
  - intros [= <-]. left. done.
  - destruct (write_pattern o _ _) as [s1 [e|]] eqn:Hw; [done|].
    apply write_pattern_counters in Hw as (H1 & H2 & H3). simpl in *.
    destruct (truthy (classes.s_filter x)); intros [= <-]; simpl.
    + right. left. done.
    + right. right. rewrite H3. done.
Qed.

(** In a run of the fixed effects that finishes, what is printed was
    tested. *)
Lemma sequential_printed_le_tested (o : options)
    (a : @run_args matrix cov_t clusters_t fit_t firth_t)
    (lineage_dict : list string) (fuel : nat) (g : generator) (s s' : agg) :
  sequential md5 b2a_base64 generator_stop fixed_effects_regression
    format_output o a lineage_dict fuel g s = Finished s' →
  (printed s ≤ tested s)%nat → (printed s' ≤ tested s')%nat.
Proof.
  revert g s. induction fuel as [|fuel IH]; intros g s; [done|]. simpl.
  destruct (iter_variants_next md5 b2a_base64 generator_stop a g) as [[[data|] g1]|e];
    [|by intros [= <-]|done].
  destruct (fixed_emit format_output o lineage_dict _ s) as [s1 [e|]] eqn:Hemit;
    [done|].
  intros Hseq Hle. apply (IH _ _ Hseq).
  apply fixed_emit_partition in Hemit. lia.
Qed.

End Run.

(** ** The column of a variant inside of the bounds *)

Section Columns.

Lemma ones_empty : ones ∅.
Proof. intros x v. by rewrite lookup_empty. Qed.

Lemma ones_insert (d : gmap string Z) (x : string) :
  ones d → ones (<[x := 1%Z]> d).
Proof.
  intros Hd y v. destruct (decide (x = y)) as [->|Hne].
  - rewrite lookup_insert_eq. by intros [= <-].
  - rewrite lookup_insert_ne by done. apply Hd.
Qed.

Lemma ones_foldl {A} (f : gmap string Z → A → gmap string Z) (l : list A)
    (d : gmap string Z) :
  (∀ d x, ones d → ones (f d x)) → ones d → ones (foldl f d l).
Proof.
  intros Hf. revert d. induction l as [|y l IH]; intros d Hd; simpl; [done|].
  apply IH, Hf, Hd.
Qed.

Lemma kmers_dict_ones (strains : list string) : ones (kmers_dict strains).
Proof.
  apply ones_foldl; [|apply ones_empty]. intros d x Hd. by apply ones_insert.
Qed.

Lemma Rtab_dict_ones (strains sample_order : list string) :
  ones (Rtab_dict strains sample_order).
Proof.
  apply ones_foldl; [|apply ones_empty]. intros d x Hd.
  destruct (negb _); [by apply ones_insert|done].
Qed.

Lemma read_vcf_var_ones (variant : VariantRecord) (d d' : gmap string Z)
    (var_name : option string) :
  read_vcf_var variant d = Ok (var_name, d') → ones d → ones d'.
Proof.
  unfold read_vcf_var. destruct (alts variant) as [alt|]; [|done].
  destruct (1 <? length alt)%nat; [by intros [= <- <-]|].
  destruct (_ && _); [by intros [= <- <-]|].
  intros [= <- <-] Hd. apply ones_foldl; [|done].
  intros d0 x Hd0. unfold read_vcf_call.
  destruct (existsb _ _); [by apply ones_insert|done].
Qed.

Lemma read_vcf_region_ones (variants : list VariantRecord) (d d' : gmap string Z) :
  read_vcf_region variants d = Ok d' → ones d → ones d'.
Proof.
  revert d. induction variants as [|variant rest IH]; intros d; simpl.
  - by intros [= <-].
  - intros H Hd. apply bind_Ok in H as ([var_name d1] & Hv & H).
    apply (IH d1 H). by apply (read_vcf_var_ones _ _ _ _ Hv).
Qed.

(** A variant that [design] builds from a dictionary of ones and whose
    allele frequency is at least a bound above zero is present in a
    sample of the phenotypes: its indicator holds a 1. *)
Lemma design_indicator (p : Series) (var_name var_name' : string)
    (d : gmap string Z) (k : list Z) (kstrains nkstrains : list string)
    (af min_af : float) :
  design p (list_to_set (index p)) var_name d
  = Ok (Variant k var_name' kstrains nkstrains af) →
  ones d → ltb zero min_af = true → leb min_af af = true →
  1%Z ∈ k.
Proof.
  unfold design. intros H Hd Hmin Hle.
  apply bind_Ok in H as (af' & Hdiv & [= <- <- <- <- <-]).
  set (all_strains := list_to_set (index p) : gset string) in *.
  set (ks := merge_sort String.le (elements (dom d ∩ all_strains))) in *.
  destruct ks as [|x ks'] eqn:Hks.
  - exfalso. simpl in Hdiv.
    destruct (size all_strains) as [|n] eqn:Hn; [done|].
    rewrite truediv_zero in Hdiv by lia. injection Hdiv as <-.
    apply ltb_not_leb in Hmin. congruence.
  - assert (Hx : x ∈ dom d ∩ all_strains).
    { apply elem_of_sorted_elements. fold ks. rewrite Hks. left. }
    apply elem_of_intersection in Hx as [Hxd Hxa].
    apply elem_of_dom in Hxd as [v Hv]. pose proof (Hd x v Hv) as ->.
    apply list_elem_of_omap. exists x. split.
    + unfold all_strains in Hxa. by apply elem_of_list_to_set in Hxa.
    + rewrite foldl_absent_lookup. rewrite bool_decide_eq_false_2; [done|].
      rewrite elem_of_sorted_elements. intros Hin.
      apply elem_of_difference in Hin as [_ Hin]. apply Hin.
      apply elem_of_list_to_set. left.
Qed.

Lemma read_variant_indicator (st st' : stream) (p : Series)
    (var_type : var_type_t) (burden uncompressed : bool)
    (sample_order : list string) (k : list Z) (var_name : string)
    (kstrains nkstrains : list string) (af min_af max_af : float) :
  read_variant st p var_type burden uncompressed (list_to_set (index p))
    sample_order = Ok (Variant k var_name kstrains nkstrains af, st') →
  ltb zero min_af = true → af_in_bounds min_af af max_af = true →
  1%Z ∈ k.
Proof.
  intros H Hmin Hin. apply andb_prop in Hin as [Hle _]. revert H.
  unfold read_variant.
  destruct st as [[lines records fetch] regions]; simpl.
  destruct var_type.
  - destruct lines as [|line rest]; [done|].
    destruct (String.eqb line ""); [done|].
    destruct (PyStr.split line) as [|name ws]; [done|].
    destruct (PyStr.split_on "|" (PyStr.rstrip line)) as [|w1 [|strains ws']];
      [done|done|].
    intros H. apply bind_Ok in H as (r & Hdes & [= -> <-]).
    eapply design_indicator; eauto using kmers_dict_ones.
  - destruct burden.
    + destruct regions as [|[name region] rest]; [done|].
      destruct (Region.re_match region) as [[[g1 g2] g3]|]; [|done].
      intros H. apply bind_Ok in H as (vs & _ & H).
      apply bind_Ok in H as (d & Hreg & H).
      apply bind_Ok in H as (r & Hdes & [= -> <-]).
      eapply design_indicator; eauto.
      eapply read_vcf_region_ones; eauto using ones_empty.
    + destruct records as [|variant rest]; [done|].
      intros H. apply bind_Ok in H as ([name d] & Hv & H).
      destruct name as [name|]; [|done].
      apply bind_Ok in H as (r & Hdes & [= -> <-]).
      eapply design_indicator; eauto.
      eapply read_vcf_var_ones; eauto using ones_empty.
  - destruct lines as [|line rest]; [done|].
    destruct (String.eqb line ""); [done|].
    destruct (PyStr.split (PyStr.rstrip line)) as [|name strains]; [done|].
    intros H. apply bind_Ok in H as (r & Hdes & [= -> <-]).
    eapply design_indicator; eauto using Rtab_dict_ones.
Qed.

(** The column of such a variant is not made of zeros: the compaction
    of [load_var_block] would keep it. *)
Lemma indicator_column_not_zero (k : list Z) :
  1%Z ∈ k → all_zero (map of_Z k) = false.
Proof.
  induction k as [|x k IH]; [by intros ?%elem_of_nil|].
  intros [<-|Hin]%elem_of_cons; simpl.
  - reflexivity.
  - rewrite IH by done. apply andb_false_r.
Qed.

End Columns.

(** * More properties of the code *)

(** ** The variant that [read_variant] returns *)

Section Reads.

(** What a read that returns a variant went through: a dictionary of
    ones, and the common end of [read_variant]. *)
Lemma read_variant_design (st st' : stream) (p : Series) (var_type : var_type_t)
    (burden uncompressed : bool) (all_strains : gset string)
    (sample_order : list string) (k : list Z) (var_name : string)
    (kstrains nkstrains : list string) (af : float) :
  read_variant st p var_type burden uncompressed all_strains sample_order
  = Ok (Variant k var_name kstrains nkstrains af, st') →
  ∃ d name, ones d
    ∧ design p all_strains name d = Ok (Variant k var_name kstrains nkstrains af).
Proof.
  unfold read_variant.
  destruct st as [[lines records fetch] regions]; simpl.
  destruct var_type.
  - destruct lines as [|line rest]; [done|].
    destruct (String.eqb line ""); [done|].
    destruct (PyStr.split line) as [|name ws]; [done|].
    destruct (PyStr.split_on "|" (PyStr.rstrip line)) as [|w1 [|strains ws']];
      [done|done|].
    intros H. apply bind_Ok in H as (r & Hdes & [= -> <-]).
    eauto using kmers_dict_ones.
  - destruct burden.
    + destruct regions as [|[name region] rest]; [done|].
      destruct (Region.re_match region) as [[[g1 g2] g3]|]; [|done].
      intros H. apply bind_Ok in H as (vs & _ & H).
      apply bind_Ok in H as (d & Hreg & H).
      apply bind_Ok in H as (r & Hdes & [= -> <-]).
      exists d, name. split; [|done].
      eapply read_vcf_region_ones; eauto using ones_empty.
    + destruct records as [|variant rest]; [done|].
      intros H. apply bind_Ok in H as ([name d] & Hv & H).
      destruct name as [name|]; [|done].
      apply bind_Ok in H as (r & Hdes & [= -> <-]).
      exists d, name. split; [|done].
      eapply read_vcf_var_ones; eauto using ones_empty.
  - destruct lines as [|line rest]; [done|].
    destruct (String.eqb line ""); [done|].
    destruct (PyStr.split (PyStr.rstrip line)) as [|name strains]; [done|].
    intros H. apply bind_Ok in H as (r & Hdes & [= -> <-]).
    eauto using Rtab_dict_ones.
Qed.

Lemma design_inv (p : Series) (all_strains : gset string) (name var_name : string)
    (d : gmap string Z) (k : list Z) (kstrains nkstrains : list string) (af : float) :
  design p all_strains name d = Ok (Variant k var_name kstrains nkstrains af) →
  var_name = name
  ∧ kstrains = merge_sort String.le (elements (dom d ∩ all_strains))
  ∧ nkstrains = merge_sort String.le (elements (all_strains ∖ list_to_set kstrains))
  ∧ k = omap (λ x, foldl (λ d x, <[x := 0%Z]> d) d nkstrains !! x) (index p)
  ∧ truediv (of_nat (length kstrains)) (size all_strains) = Ok af.
Proof.
  unfold design. intros H.
  apply bind_Ok in H as (af' & Hdiv & [= <- <- <- <- <-]). done.
Qed.

Lemma omap_total {A B} (f : A → option B) (g : A → B) (l : list A) :
  (∀ x, x ∈ l → f x = Some (g x)) → omap f l = map g l.
Proof.
  induction l as [|y l IH]; intros H; [done|].
  cbn [omap list_omap map]. rewrite (H y) by (by left). f_equal.
  apply IH. intros x Hx. apply H. by right.
Qed.

Lemma omap_ext_in {A B} (f g : A → option B) (l : list A) :
  (∀ x, x ∈ l → f x = g x) → omap f l = omap g l.
Proof.
  induction l as [|y l IH]; intros H; [done|].
  cbn [omap list_omap]. rewrite (H y) by (by left).
  rewrite IH; [done|]. intros x Hx. apply H. by right.
Qed.

(** X1. With the samples of the phenotypes as universe, as [main] sets
    it, the indicator of a variant that [read_variant] returns has one
    entry per sample of the phenotypes, in their order, and the entry of
    a sample is 1 when [kstrains] holds the sample and 0 when it does
    not. *)
Theorem indicator_follows_kstrains (st st' : stream) (p : Series)
    (var_type : var_type_t) (burden uncompressed : bool)
    (sample_order : list string) (k : list Z) (var_name : string)
    (kstrains nkstrains : list string) (af : float) :
  read_variant st p var_type burden uncompressed (list_to_set (index p))
    sample_order = Ok (Variant k var_name kstrains nkstrains af, st') →
  k = indicator (index p) kstrains ∧ length k = length (index p).
Proof.
  intros H. apply read_variant_design in H as (d & name & Hd & H).
  apply design_inv in H as (_ & Hks & Hnks & Hk & _).
  assert (Hk' : k = indicator (index p) kstrains).
  { rewrite Hk. apply omap_total. intros x Hx.
    rewrite foldl_absent_lookup.
    assert (Hxa : x ∈ (list_to_set (index p) : gset string))
      by (by apply elem_of_list_to_set).
    destruct (decide (x ∈ kstrains)) as [Hin|Hnin].
    - rewrite (bool_decide_eq_true_2 _ Hin).
      rewrite bool_decide_eq_false_2.
      + rewrite Hks in Hin. apply elem_of_sorted_elements in Hin.
        apply elem_of_intersection in Hin as [Hxd _].
        apply elem_of_dom in Hxd as [v Hv]. by rewrite Hv, (Hd x v Hv).
      + rewrite Hnks, elem_of_sorted_elements, elem_of_difference.
        intros [_ Hn]. apply Hn. by apply elem_of_list_to_set.
    - rewrite (bool_decide_eq_false_2 _ Hnin).
      rewrite bool_decide_eq_true_2; [done|].
      rewrite Hnks, elem_of_sorted_elements, elem_of_difference.
      split; [done|]. by rewrite elem_of_list_to_set. }
  split; [done|]. rewrite Hk'. unfold indicator. by rewrite length_map.
Qed.

(** X2. The two lists of samples that [read_variant] returns split the
    universe [all_strains]: a sample of the universe is in one of them
    and not in both, no sample outside of the universe is in either,
    and each list is sorted and without repetition. *)
Theorem kstrains_nkstrains_split (st st' : stream) (p : Series)
    (var_type : var_type_t) (burden uncompressed : bool)
    (all_strains : gset string) (sample_order : list string) (k : list Z)
    (var_name : string) (kstrains nkstrains : list string) (af : float) :
  read_variant st p var_type burden uncompressed all_strains sample_order
  = Ok (Variant k var_name kstrains nkstrains af, st') →
  (∀ x, x ∈ all_strains ↔ x ∈ kstrains ∨ x ∈ nkstrains)
  ∧ (∀ x, x ∈ kstrains → x ∉ nkstrains)
  ∧ NoDup kstrains ∧ NoDup nkstrains
  ∧ StronglySorted String.le kstrains ∧ StronglySorted String.le nkstrains
  ∧ length kstrains + length nkstrains = size all_strains.
Proof.
  intros H. apply read_variant_design in H as (d & name & Hd & H).
  apply design_inv in H as (_ & Hks & Hnks & _ & _).
  assert (Hin_ks : ∀ x, x ∈ kstrains ↔ x ∈ dom d ∧ x ∈ all_strains).
  { intros x. by rewrite Hks, elem_of_sorted_elements, elem_of_intersection. }
  assert (Hin_nks : ∀ x, x ∈ nkstrains ↔ x ∈ all_strains ∧ x ∉ kstrains).
  { intros x. by rewrite Hnks, elem_of_sorted_elements, elem_of_difference,
      elem_of_list_to_set. }
  assert (Hnd_ks : NoDup kstrains).
  { rewrite Hks, merge_sort_Permutation. apply NoDup_elements. }
  assert (Hnd_nks : NoDup nkstrains).
  { rewrite Hnks, merge_sort_Permutation. apply NoDup_elements. }
  split_and!.
  - intros x. pose proof (Hin_ks x). pose proof (Hin_nks x).
    destruct (decide (x ∈ kstrains)); tauto.
  - intros x Hx. rewrite Hin_nks. tauto.
  - done.
  - done.
  - rewrite Hks. apply StronglySorted_merge_sort; apply _.
  - rewrite Hnks. apply StronglySorted_merge_sort; apply _.
  - rewrite Hnks at 1. rewrite merge_sort_Permutation.
    change (length (elements ?X)) with (size X).
    rewrite size_difference.
    + rewrite size_list_to_set by done.
      assert (length kstrains ≤ size all_strains)%nat; [|lia].
      rewrite Hks at 1. rewrite merge_sort_Permutation.
      change (length (elements ?X)) with (size X).
      apply subseteq_size. apply intersection_subseteq_r.
    + intros x Hx. apply elem_of_list_to_set in Hx.
      by apply Hin_ks in Hx as [_ Hx].
Qed.

(** X3. What [read_variant] makes of a dictionary depends on the
    samples of the universe only: a sample of the variant file that the
    phenotypes do not hold changes neither the indicator, nor the two
    lists, nor the allele frequency. *)
Theorem design_ignores_other_samples (p : Series) (all_strains : gset string)
    (var_name : string) (d1 d2 : gmap string Z) :
  (∀ x, x ∈ all_strains → d1 !! x = d2 !! x) →
  (∀ x, x ∈ index p → x ∈ all_strains) →
  design p all_strains var_name d1 = design p all_strains var_name d2.
Proof.
  intros Hsame Hsub. unfold design.
  assert (Hdom : dom d1 ∩ all_strains = dom d2 ∩ all_strains).
  { apply set_eq. intros x. rewrite !elem_of_intersection, !elem_of_dom.
    split; intros [Hx Ha]; (split; [|done]).
    - by rewrite <- Hsame.
    - by rewrite Hsame. }
  rewrite Hdom.
  set (ks := merge_sort String.le (elements (dom d2 ∩ all_strains))).
  set (nks := merge_sort String.le (elements (all_strains ∖ list_to_set ks))).
  destruct (truediv _ _) as [af|e]; [|done]. simpl. do 2 f_equal.
  apply omap_ext_in. intros x Hx. rewrite !foldl_absent_lookup.
  destruct (bool_decide (x ∈ nks)); [done|]. apply Hsame, Hsub, Hx.
Qed.

End Reads.

(** ** Lines that [read_variant] cannot read *)

Section Lines.

Lemma blank_words (s : string) : blank s = true → PyStr.words s = ("", []).
Proof.
  induction s as [|c s IH]; [done|]. simpl.
  intros [Hc Hs]%andb_prop. by rewrite (IH Hs), Hc.
Qed.

Lemma blank_split (s : string) : blank s = true → PyStr.split s = [].
Proof. intros H. unfold PyStr.split. by rewrite (blank_words s H). Qed.

Lemma blank_rstrip (s : string) : blank s = true → PyStr.rstrip s = "".
Proof.
  induction s as [|c s IH]; [done|]. simpl.
  intros [Hc Hs]%andb_prop. by rewrite (IH Hs), Hc.
Qed.

Lemma split_on_absent (c : ascii) (s : string) :
  has_char c s = false → PyStr.split_on c s = [s].
Proof.
  induction s as [|c' s IH]; [done|]. simpl.
  intros [Hc Hs]%orb_false_elim. by rewrite Hc, (IH Hs).
Qed.

Lemma rstrip_has_char (c : ascii) (s : string) :
  has_char c s = false → has_char c (PyStr.rstrip s) = false.
Proof.
  induction s as [|c' s IH]; [done|]. simpl.
  intros [Hc Hs]%orb_false_elim.
  destruct (PyStr.isspace c' && String.eqb (PyStr.rstrip s) ""); [done|].
  simpl. by rewrite Hc, (IH Hs).
Qed.

(** X4. A line of white space only, as a blank line at the end of a
    file of k-mers or of a presence/absence matrix, is not skipped and is
    not taken for the end of the file: [read_variant] raises
    [IndexError] on it. *)
Theorem blank_line_raises (st : stream) (p : Series) (var_type : var_type_t)
    (burden uncompressed : bool) (all_strains : gset string)
    (sample_order : list string) (line_in : string) (rest : list string) :
  var_type ≠ vcf →
  f_lines (infile st) = line_in :: rest →
  line_in ≠ "" → blank line_in = true →
  read_variant st p var_type burden uncompressed all_strains sample_order
  = Raise IndexError.
Proof.
  intros Hvt Hlines Hne Hblank. unfold read_variant.
  apply String.eqb_neq in Hne.
  destruct var_type; [|done|]; rewrite Hlines, Hne.
  - by rewrite (blank_split _ Hblank).
  - by rewrite (blank_rstrip _ Hblank).
Qed.

(** X5. A line of k-mers without the bar that separates the k-mer from
    its samples makes [read_variant] raise [IndexError]. *)
Theorem kmers_line_without_bar_raises (st : stream) (p : Series)
    (burden uncompressed : bool) (all_strains : gset string)
    (sample_order : list string) (line_in : string) (rest : list string) :
  f_lines (infile st) = line_in :: rest →
  line_in ≠ "" → has_char "|" line_in = false →
  read_variant st p kmers burden uncompressed all_strains sample_order
  = Raise IndexError.
Proof.
  intros Hlines Hne Hbar. unfold read_variant.
  apply String.eqb_neq in Hne. rewrite Hlines, Hne.
  rewrite (split_on_absent _ _ (rstrip_has_char _ _ Hbar)).
  by destruct (PyStr.split line_in).
Qed.

(** X6. A read that is not the end of the stream takes one record and
    one only from the input of its own type, a line of a text file, a
    record of the variant calls or a region of the burden queue, however
    many records the index returns for a region; it takes nothing from
    the other inputs. *)
Theorem read_takes_one_record (st st' : stream) (p : Series)
    (var_type : var_type_t) (burden uncompressed : bool)
    (all_strains : gset string) (sample_order : list string) (r : read_out) :
  read_variant st p var_type burden uncompressed all_strains sample_order
  = Ok (r, st') →
  r ≠ Eof →
  pending var_type burden st = S (pending var_type burden st')
  ∧ stream_size st = S (stream_size st').
Proof.
  unfold read_variant, stream_size, pending.
  destruct st as [[lines records fetch] regions]; simpl.
  destruct var_type.
  - destruct lines as [|line rest]; simpl; [by intros [= <- <-]|].
    destruct (String.eqb line ""); [by intros [= <- <-]|].
    destruct (PyStr.split line) as [|var_name ws]; [done|].
    destruct (PyStr.split_on "|" (PyStr.rstrip line)) as [|w1 [|strains ws']];
      [done|done|].
    intros H _. apply bind_Ok in H as (x & _ & [= <- <-]). simpl. lia.
  - destruct burden.
    + destruct regions as [|[var_name region] rest]; simpl; [by intros [= <- <-]|].
      destruct (Region.re_match region) as [[[g1 g2] g3]|].
      * intros H _. apply bind_Ok in H as (vs & _ & H).
        apply bind_Ok in H as (d & _ & H).
        apply bind_Ok in H as (x & _ & [= <- <-]). simpl. lia.
      * intros [= <- <-] _. simpl. lia.
    + destruct records as [|variant rest]; simpl; [by intros [= <- <-]|].
      intros H _. apply bind_Ok in H as ([var_name d] & _ & H).
      destruct var_name as [var_name|].
      * apply bind_Ok in H as (x & _ & [= <- <-]). simpl. lia.
      * injection H as <- <-. simpl. lia.
  - destruct lines as [|line rest]; simpl; [by intros [= <- <-]|].
    destruct (String.eqb line ""); [by intros [= <- <-]|].
    destruct (PyStr.split (PyStr.rstrip line)) as [|var_name strains]; [done|].
    intros H _. apply bind_Ok in H as (x & _ & [= <- <-]). simpl. lia.
Qed.

End Lines.

(** ** The dictionary of presence *)

Section Dicts.

(** A loop that marks keys with 1: a key ends marked if an element
    marked it, and keeps what it had if none did. *)
Lemma foldl_mark {A} (test : A → bool) (key : A → string) (l : list A)
    (d : gmap string Z) (s : string) :
  foldl (λ d x, if test x then <[key x := 1%Z]> d else d) d l !! s
  = if existsb (λ x, test x && String.eqb (key x) s) l then Some 1%Z else d !! s.
Proof.
  revert d. induction l as [|x l IH]; intros d; [done|].
  cbn [foldl existsb]. rewrite IH.
  destruct (existsb _ l); [by rewrite orb_true_r|]. rewrite orb_false_r.
  destruct (test x); [|done]. simpl.
  destruct (String.eqb (key x) s) eqn:He.
  - apply String.eqb_eq in He as ->. by rewrite lookup_insert_eq.
  - apply String.eqb_neq in He. by rewrite lookup_insert_ne.
Qed.

Lemma existsb_elem_of {A} (f : A → bool) (l : list A) :
  existsb f l = true ↔ ∃ x, x ∈ l ∧ f x = true.
Proof.
  rewrite existsb_exists. split; intros (x & Hx & Hf); exists x;
    (split; [by apply list_elem_of_In|done]).
Qed.

(** X7. In a row of a presence/absence matrix, the sample at a
    position of the header is present when the row has, at that same
    position, a value other than ["0"], and only then: the values of the
    row beyond the last sample of the header, and the samples of the
    header beyond the last value of the row, are passed over in
    silence. *)
Theorem Rtab_row_by_position (strains sample_order : list string) (s : string) :
  (Rtab_dict strains sample_order !! s = Some 1%Z ↔
     ∃ i present, strains !! i = Some present ∧ sample_order !! i = Some s
                  ∧ present ≠ "0")
  ∧ (Rtab_dict strains sample_order !! s = None ↔
     ¬ ∃ i present, strains !! i = Some present ∧ sample_order !! i = Some s
                    ∧ present ≠ "0").
Proof.
  unfold Rtab_dict.
  rewrite (foldl_mark (λ ps, negb (String.eqb ps.1 "0")) snd).
  rewrite lookup_empty.
  assert (Hiff : existsb (λ x : string * string,
                   negb (String.eqb x.1 "0") && String.eqb x.2 s)
                   (zip strains sample_order) = true ↔
                 ∃ i present, strains !! i = Some present
                   ∧ sample_order !! i = Some s ∧ present ≠ "0").
  { rewrite existsb_elem_of. split.
    - intros ([t s'] & Hin & [Ht Hs]%andb_prop). simpl in *.
      apply String.eqb_eq in Hs as ->. apply negb_true_iff, String.eqb_neq in Ht.
      apply list_elem_of_lookup in Hin as [i Hi].
      apply lookup_zip_with_Some in Hi as (y & z & [= <- <-] & Hy & Hz). eauto.
    - intros (i & t & Ht & Hs & Hne). exists (t, s). split.
      + apply list_elem_of_lookup. exists i.
        apply lookup_zip_with_Some. eauto.
      + simpl. apply andb_true_intro. split.
        * by apply negb_true_iff, String.eqb_neq.
        * by apply String.eqb_eq. }
  destruct (existsb _ _).
  - split; [|split; [done|]].
    + split; [intros _; by apply Hiff|done].
    + intros Hn. exfalso. apply Hn. by apply Hiff.
  - split; [split; [done|]|].
    + intros H. by apply Hiff in H.
    + split; [|done]. intros _ H. by apply Hiff in H.
Qed.

Lemma read_vcf_calls_lookup (variant : VariantRecord) (d : gmap string Z)
    (s : string) :
  foldl read_vcf_call d (samples variant) !! s
  = if carried_by variant s then Some 1%Z else d !! s.
Proof.
  unfold carried_by.
  rewrite <- (foldl_mark (λ sc : string * list (option Z),
                existsb haplotype_present sc.2) fst).
  reflexivity.
Qed.

Lemma read_vcf_var_passes (variant : VariantRecord) (d : gmap string Z) :
  passes variant = true →
  read_vcf_var variant d
  = Ok (Some (vcf_name variant), foldl read_vcf_call d (samples variant)).
Proof.
  unfold passes, read_vcf_var, vcf_name.
  destruct (alts variant) as [a|]; [|done].
  destruct (1 <? length a)%nat; [done|]. simpl.
  destruct (bool_decide ("PASS" ∈ filter_keys variant)),
    (bool_decide ("." ∈ filter_keys variant)); done.
Qed.

Lemma read_vcf_var_filtered (variant : VariantRecord) (d : gmap string Z) :
  passes variant = false → alts variant ≠ None →
  read_vcf_var variant d = Ok (None, d).
Proof.
  unfold passes, read_vcf_var.
  destruct (alts variant) as [a|]; [|done].
  destruct (1 <? length a)%nat; [done|]. simpl.
  destruct (bool_decide ("PASS" ∈ filter_keys variant)),
    (bool_decide ("." ∈ filter_keys variant)); done.
Qed.

(** X8. For a record that is not filtered, [read_vcf_var] marks a
    sample present as soon as one of the calls of its genotype is not
    the reference allele 0, and a missing call counts as such a call: a
    sample whose genotype holds a missing call is marked present. The
    samples without such a call keep what the dictionary held. *)
Theorem read_vcf_var_marks_samples (variant : VariantRecord) (d : gmap string Z) :
  passes variant = true →
  ∃ d', read_vcf_var variant d = Ok (Some (vcf_name variant), d')
    ∧ (∀ s, d' !! s = if carried_by variant s then Some 1%Z else d !! s)
    ∧ (∀ s gt h, (s, gt) ∈ samples variant → h ∈ gt → h ≠ Some 0%Z →
         d' !! s = Some 1%Z)
    ∧ (∀ s gt, (s, gt) ∈ samples variant → None ∈ gt → d' !! s = Some 1%Z).
Proof.
  intros Hp. exists (foldl read_vcf_call d (samples variant)).
  assert (Hcall : ∀ s gt h, (s, gt) ∈ samples variant → h ∈ gt → h ≠ Some 0%Z →
            foldl read_vcf_call d (samples variant) !! s = Some 1%Z).
  { intros s gt h Hin Hh Hne. rewrite read_vcf_calls_lookup.
    replace (carried_by variant s) with true; [done|]. symmetry.
    apply existsb_elem_of. exists (s, gt). split; [done|]. simpl.
    apply andb_true_intro. split; [|by apply String.eqb_eq].
    apply existsb_elem_of. exists h. split; [done|].
    unfold haplotype_present. by rewrite bool_decide_eq_false_2. }
  split_and!.
  - by apply read_vcf_var_passes.
  - apply read_vcf_calls_lookup.
  - exact Hcall.
  - intros s gt Hin Hnone. by apply (Hcall s gt None).
Qed.

(** X9. The presence of a burden region is the union of the presences
    of its records that are not filtered: after the loop over the
    records of the region, a sample is marked when one such record
    carries it, and the filtered records, those with several alternate
    alleles or without a passing filter, add nothing. The loop raises
    [TypeError] when a record has no alternate allele at all. *)
Theorem burden_region_is_a_union (variants : list VariantRecord)
    (d : gmap string Z) :
  (Forall (λ v, alts v ≠ None) variants →
     ∃ d', read_vcf_region variants d = Ok d'
       ∧ ∀ s, d' !! s =
              if existsb (λ v, passes v && carried_by v s) variants
              then Some 1%Z else d !! s)
  ∧ (Exists (λ v, alts v = None) variants →
     read_vcf_region variants d = Raise TypeError).
Proof.
  split.
  - revert d. induction variants as [|v rest IH]; intros d Hall.
    + exists d. done.
    + apply Forall_cons in Hall as [Hv Hrest]. cbn [read_vcf_region existsb].
      destruct (passes v) eqn:Hp.
      * rewrite (read_vcf_var_passes v d Hp). simpl.
        destruct (IH (foldl read_vcf_call d (samples v)) Hrest) as (d' & -> & Hd').
        exists d'. split; [done|]. intros s. rewrite Hd', read_vcf_calls_lookup.
        destruct (carried_by v s); simpl; [|done].
        by destruct (existsb _ rest).
      * rewrite (read_vcf_var_filtered v d Hp Hv). simpl.
        destruct (IH d Hrest) as (d' & -> & Hd'). exists d'. done.
  - revert d. induction variants as [|v rest IH]; intros d Hex.
    + by apply Exists_nil in Hex.
    + cbn [read_vcf_region]. destruct (alts v) as [a|] eqn:Ha.
      * apply Exists_cons in Hex as [Hv|Hrest]; [congruence|].
        destruct (passes v) eqn:Hp.
        -- rewrite (read_vcf_var_passes v d Hp). simpl. by apply IH.
        -- rewrite (read_vcf_var_filtered v d Hp) by congruence. simpl.
           by apply IH.
      * unfold read_vcf_var. by rewrite Ha.
Qed.

(** X10. [load_burden] appends one pair per line to the queue, in the
    order of the lines and after what the queue held, when every line
    has two fields; when a line has another number of fields, as a
    blank line has, it raises [ValueError]. *)
Theorem load_burden_appends (region_file : list string)
    (burden_regions : list (string * string)) :
  (Forall (λ line, length (fields line) = 2) region_file →
     load_burden region_file burden_regions
     = Ok (burden_regions ++ map region_of_line region_file)%list)
  ∧ (Exists (λ line, length (fields line) ≠ 2) region_file →
     load_burden region_file burden_regions = Raise ValueError)
  ∧ (Exists (λ line, blank line = true) region_file →
     load_burden region_file burden_regions = Raise ValueError).
Proof.
  assert (Hline : ∀ line, length (fields line) = 2 →
            load_burden_line line = Ok (region_of_line line)).
  { intros line. unfold load_burden_line, region_of_line, fields.
    destruct (PyStr.split (PyStr.rstrip line)) as [|a [|b [|c l]]]; done. }
  assert (Hbad : ∀ line, length (fields line) ≠ 2 →
            load_burden_line line = Raise ValueError).
  { intros line. unfold load_burden_line, fields.
    destruct (PyStr.split (PyStr.rstrip line)) as [|a [|b [|c l]]]; done. }
  assert (Hraise : ∀ q, Exists (λ line, length (fields line) ≠ 2) region_file →
            load_burden region_file q = Raise ValueError).
  { induction region_file as [|line rest IH]; intros q Hex.
    - by apply Exists_nil in Hex.
    - cbn [load_burden].
      destruct (decide (length (fields line) = 2)) as [Hl|Hl].
      + rewrite (Hline _ Hl). simpl.
        apply Exists_cons in Hex as [?|Hex]; [done|]. by apply IH.
      + by rewrite (Hbad _ Hl). }
  split_and!.
  - revert burden_regions. clear Hraise.
    induction region_file as [|line rest IH]; intros q Hall.
    + simpl. by rewrite app_nil_r.
    + apply Forall_cons in Hall as [Hl Hrest]. cbn [load_burden map].
      rewrite (Hline _ Hl). simpl. rewrite (IH _ Hrest).
      by rewrite <- app_assoc.
  - apply Hraise.
  - intros Hex. apply Hraise. eapply Exists_impl; [exact Hex|].
    intros line Hb. simpl in Hb. unfold fields.
    by rewrite (blank_rstrip _ Hb).
Qed.

End Dicts.

(** ** The bytes of an indicator *)

Section Bytes.

Lemma of_bytes_digits (z : Z) (n s : nat) :
  of_bytes (map (λ i, Z.land (Z.shiftr z (8 * Z.of_nat i)) 255) (seq s n))
  = ((z / 2 ^ (8 * Z.of_nat s)) mod 2 ^ (8 * Z.of_nat n))%Z.
Proof.
  revert s. induction n as [|n IH]; intros s.
  - simpl. by rewrite Z.mod_1_r.
  - cbn [seq map of_bytes foldr].
    fold (of_bytes
            (map (λ i, Z.land (Z.shiftr z (8 * Z.of_nat i)) 255) (seq (S s) n))).
    rewrite IH. change 255%Z with (Z.ones 8).
    rewrite Z.land_ones, Z.shiftr_div_pow2 by lia.
    replace (8 * Z.of_nat (S s))%Z with (8 * Z.of_nat s + 8)%Z by lia.
    replace (8 * Z.of_nat (S n))%Z with (8 + 8 * Z.of_nat n)%Z by lia.
    rewrite (Z.pow_add_r 2 (8 * Z.of_nat s) 8),
      (Z.pow_add_r 2 8 (8 * Z.of_nat n)) by lia.
    rewrite <- Z.div_div by lia.
    change (2 ^ 8)%Z with 256%Z.
    rewrite Z.rem_mul_r by lia. reflexivity.
Qed.

Lemma int64_bytes_inj (z1 z2 : Z) :
  is_int64 z1 → is_int64 z2 → int64_bytes z1 = int64_bytes z2 → z1 = z2.
Proof.
  unfold is_int64. intros H1 H2 H. apply (f_equal of_bytes) in H.
  unfold int64_bytes in H. rewrite !of_bytes_digits in H.
  change (8 * Z.of_nat 0)%Z with 0%Z in H. rewrite !Z.div_1_r in H.
  change (2 ^ (8 * Z.of_nat 8))%Z with 18446744073709551616%Z in H.
  change (2 ^ 63)%Z with 9223372036854775808%Z in *.
  revert H. Z.div_mod_to_equations. lia.
Qed.

Lemma int64_bytes_length (z : Z) : length (int64_bytes z) = 8.
Proof. reflexivity. Qed.

Lemma int64_bytes_range (z b : Z) : b ∈ int64_bytes z → (0 ≤ b < 256)%Z.
Proof.
  unfold int64_bytes. intros (i & -> & _)%list_elem_of_fmap.
  change 255%Z with (Z.ones 8). rewrite Z.land_ones by lia.
  apply Z.mod_pos_bound. lia.
Qed.

(** X11. The bytes that [hash_pattern] hashes are eight per entry of
    the indicator, each between 0 and 255, and they determine the
    indicator: two arrays of 64-bit integers with the same bytes are the
    same array, so two variants have the same hash by their indicators
    or by a collision of the digest, never by the view. *)
Theorem view_uint8_is_faithful (k1 k2 : list Z) :
  length (view_uint8 k1) = 8 * length k1
  ∧ (∀ b, b ∈ view_uint8 k1 → (0 ≤ b < 256)%Z)
  ∧ (Forall is_int64 k1 → Forall is_int64 k2 →
     view_uint8 k1 = view_uint8 k2 → k1 = k2).
Proof.
  split_and!.
  - unfold view_uint8. induction k1 as [|z k IH]; [done|].
    cbn [map concat]. rewrite length_app, IH, int64_bytes_length. simpl. lia.
  - unfold view_uint8. intros b Hb.
    apply list_elem_of_In, in_concat in Hb as (l & Hl & Hb).
    apply in_map_iff in Hl as (z & <- & _).
    apply (int64_bytes_range z). by apply list_elem_of_In.
  - revert k2. induction k1 as [|z1 k1 IH]; intros [|z2 k2] H1 H2 H.
    + done.
    + apply (f_equal length) in H. unfold view_uint8 in H.
      cbn [map concat] in H. rewrite length_app, int64_bytes_length in H.
      simpl in H. lia.
    + apply (f_equal length) in H. unfold view_uint8 in H.
      cbn [map concat] in H. rewrite length_app, int64_bytes_length in H.
      simpl in H. lia.
    + apply Forall_cons in H1 as [Hz1 H1]. apply Forall_cons in H2 as [Hz2 H2].
      unfold view_uint8 in H. cbn [map concat] in H.
      apply app_inj_1 in H as [Hz Hk]; [|by rewrite !int64_bytes_length].
      f_equal; [by apply int64_bytes_inj | by apply IH].
Qed.

End Bytes.

(** ** The blocks of the mixed model *)

Section Blocks.

Context {matrix cov_t clusters_t fit_t firth_t model_t : Type}.
Variable pre_filtering : Series → list Z → bool → float * bool.
Variable md5 : bytes → bytes.
Variable b2a_base64 : bytes → bytes.
Variable generator_stop : bool.
Variable fit_lmm :
  model_t → float → list classes.LMM → list (list float) → bool →
  clusters_t → cov_t → float → list classes.LMM.
Variable format_output :
  classes.Seer + classes.LMM → list string → bool → bool → string.
Variable a : @run_args matrix cov_t clusters_t fit_t firth_t.

(** A turn of the loop that does not raise adds no variant and writes no
    column: it leaves the block, or counts one more prefiltered read. *)
Lemma load_var_body_Ok (var_idx : nat) (r : read_out) (b b' : block) :
  load_var_body pre_filtering md5 b2a_base64 a var_idx r b = Ok b' →
  b_variants b' = b_variants b ∧ b_variant_mat b' = b_variant_mat b
  ∧ (b_prefilter b ≤ b_prefilter b' ≤ b_prefilter b + 1)%nat.
Proof.
  unfold load_var_body. destruct r as [| |k var_name ks nks af].
  - intros [= <-]. simpl. split_and!; try done; lia.
  - intros [= <-]. simpl. split_and!; try done; lia.
  - destruct (af_in_bounds _ _ _).
    + destruct (py_lt_float _ _) as [[]|e]; simpl; [done| |done].
      intros [= <-]. split_and!; try done; lia.
    + intros [= <-]. simpl. split_and!; try done; lia.
Qed.

Lemma load_var_loop_Ok (n var_idx : nat) (st st' : stream) (b b' : block)
    (eof : bool) :
  load_var_loop pre_filtering md5 b2a_base64 a n var_idx st b = Ok (b', eof, st') →
  b_variants b' = b_variants b ∧ b_variant_mat b' = b_variant_mat b
  ∧ (b_prefilter b ≤ b_prefilter b')%nat
  ∧ (b_prefilter b' + stream_size st' ≤ b_prefilter b + stream_size st)%nat.
Proof.
  revert var_idx st b. induction n as [|n IH]; intros var_idx st b; simpl.
  - intros [= <- <- <-]. split_and!; try done; lia.
  - intros H. apply bind_Ok in H as ([r st1] & Hread & H).
    apply read_variant_size in Hread as [Hle Hlt].
    destruct r.
    + injection H as <- <- <-. split_and!; try done; lia.
    + apply bind_Ok in H as (b1 & Hb & H). apply IH in H.
      apply load_var_body_Ok in Hb. rewrite Hlt by done.
      destruct H as (-> & -> & ? & ?), Hb as (-> & -> & ?).
      split_and!; try done; lia.
    + apply bind_Ok in H as (b1 & Hb & H). apply IH in H.
      apply load_var_body_Ok in Hb. rewrite Hlt by done.
      destruct H as (-> & -> & ? & ?), Hb as (-> & -> & ?).
      split_and!; try done; lia.
Qed.

Lemma filter_zero_columns (n rows : nat) :
  List.filter (λ col, negb (all_zero col)) (replicate n (replicate rows zero)) = [].
Proof.
  assert (Hz : all_zero (replicate rows zero) = true).
  { induction rows as [|rows IH]; [done|]. simpl. by rewrite IH. }
  induction n as [|n IH]; [done|]. simpl. by rewrite Hz.
Qed.

Lemma load_var_block_Ok (st st' : stream) (block_size : nat)
    (variants : list classes.LMM) (variant_mat : list (list float))
    (counts : counts_t) (eof : bool) :
  load_var_block pre_filtering md5 b2a_base64 a st block_size
  = Ok (variants, variant_mat, counts, eof, st') →
  variants = [] ∧ variant_mat = [] ∧ c_tested counts = 0
  ∧ (c_prefilter counts + stream_size st' ≤ stream_size st)%nat
  ∧ (eof = false → stream_size st = block_size + stream_size st').
Proof.
  unfold load_var_block. destruct (Nat.eqb block_size 0); [done|].
  intros H. apply bind_Ok in H as ([[b eof'] st1] & Hloop & [= <- <- <- <- <-]).
  pose proof (load_var_loop_size pre_filtering md5 b2a_base64 a _ _ _ _ _ _ _ Hloop)
    as Hsize.
  apply load_var_loop_Ok in Hloop as (Hv & Hm & _ & Hp). simpl in *.
  rewrite Hv, Hm, filter_zero_columns. split_and!; try done; try lia.
  intros ->. exact Hsize.
Qed.

(** X12. Whatever the input, a call of [load_var_block] that returns
    has admitted no variant: the list of variants and the matrix are
    empty and [tested] is 0, since the call of [LMM] that admits a
    variant raises. What it returns is the count of the reads that it
    prefiltered, which is at most the number of records that it took
    from the stream; and when it did not meet the end of the stream, it
    took [block_size] records. *)
Theorem load_var_block_admits_nothing (st st' : stream) (block_size : nat)
    (variants : list classes.LMM) (variant_mat : list (list float))
    (counts : counts_t) (eof : bool) :
  load_var_block pre_filtering md5 b2a_base64 a st block_size
  = Ok (variants, variant_mat, counts, eof, st') →
  variants = [] ∧ variant_mat = [] ∧ c_tested counts = 0
  ∧ (c_prefilter counts + stream_size st' ≤ stream_size st)%nat
  ∧ (eof = false → stream_size st = block_size + stream_size st').
Proof. apply load_var_block_Ok. Qed.

Variable o : options.
Variable lineage_dict : list string.
Variable lmm : model_t.
Variable h2 : float.

Lemma lmm_blocks_Finished (fuel : nat) (st : stream) (s s' : agg) :
  lmm_blocks pre_filtering md5 b2a_base64 fit_lmm format_output o a
    lineage_dict lmm h2 fuel st s = Finished s' →
  tested s' = tested s ∧ printed s' = printed s ∧ out s' = out s
  ∧ (prefilter s ≤ prefilter s' ≤ prefilter s + stream_size st)%nat.
Proof.
  revert st s. induction fuel as [|fuel IH]; intros st s; [done|].
  cbn [lmm_blocks].
  destruct (load_var_block pre_filtering md5 b2a_base64 a st lmm_block_size)
    as [[[[[variants variant_mat] counts] eof] st']|e] eqn:Hblock; [|done].
  apply load_var_block_Ok in Hblock as (-> & -> & Ht & Hp & _).
  rewrite Ht. cbn [Nat.ltb Nat.leb].
  destruct eof.
  - intros [= <-]. simpl. split_and!; try done; lia.
  - intros H. apply IH in H as (-> & -> & -> & ?). simpl in *.
    split_and!; try done; lia.
Qed.

(** X13. A run of the mixed model that ends without exception has
    tested no variant, printed no line and written no pattern: its
    counters [tested] and [printed] and its output are what they were
    before the first block, and only [prefilter] has moved. *)
Theorem lmm_run_tests_nothing
    (fixed_effects_regression :
       @worker_args matrix cov_t clusters_t fit_t firth_t → classes.Seer)
    (st : stream) (s s' : agg) :
  o_lmm o = true →
  association pre_filtering md5 b2a_base64 generator_stop
    fixed_effects_regression fit_lmm format_output o a lineage_dict lmm h2 st s
  = Finished s' →
  tested s' = tested s ∧ printed s' = printed s ∧ out s' = out s
  ∧ (prefilter s ≤ prefilter s' ≤ prefilter s + stream_size st)%nat.
Proof.
  intros Hl. unfold association. rewrite Hl. cbn [negb]. apply lmm_blocks_Finished.
Qed.

(** X14. The two paths prefilter the same reads: for a read that is not
    the end of the stream, [iter_variants] yields the tuple of [None]
    exactly when the body of the loop of [load_var_block] counts the read
    in [prefilter]. *)
Theorem paths_prefilter_the_same_reads (var_idx : nat) (r : read_out) (b : block) :
  r ≠ Eof →
  iter_variants_body md5 b2a_base64 a r = AllNone
  ↔ load_var_body pre_filtering md5 b2a_base64 a var_idx r b
    = Ok {| b_prefilter := b_prefilter b + 1;
            b_variants := b_variants b;
            b_variant_mat := b_variant_mat b |}.
Proof.
  intros Hr. unfold iter_variants_body, load_var_body.
  destruct r as [| |k var_name ks nks af]; [done|done|].
  destruct (af_in_bounds _ _ _); simpl; [|done].
  split; [done|].
  destruct (py_lt_float _ _) as [[]|e]; simpl; [done| |done].
  intros [= H]. apply (f_equal b_prefilter) in H. simpl in H. lia.
Qed.

End Blocks.

(** ** What [main] writes and what it counts *)

Section Counting.

Lemma count_stdout_app (l1 l2 : list event) :
  count_stdout (l1 ++ l2) = count_stdout l1 + count_stdout l2.
Proof. unfold count_stdout. by rewrite List.filter_app, length_app. Qed.

Lemma count_patterns_app (l1 l2 : list event) :
  count_patterns (l1 ++ l2) = count_patterns l1 + count_patterns l2.
Proof. unfold count_patterns. by rewrite List.filter_app, length_app. Qed.

Lemma grows_refl (s : agg) : grows s s.
Proof. exists []. by rewrite app_nil_r. Qed.

Lemma grows_trans (s1 s2 s3 : agg) : grows s1 s2 → grows s2 s3 → grows s1 s3.
Proof.
  intros [l1 H1] [l2 H2]. exists (l1 ++ l2)%list.
  by rewrite H2, H1, app_assoc.
Qed.

Lemma accounts_grows (patterns : bool) (s s' : agg) :
  accounts patterns s s' → grows s s'.
Proof. intros (l & H & _). by exists l. Qed.

Lemma accounts_refl (patterns : bool) (s : agg) : accounts patterns s s.
Proof.
  exists []. rewrite app_nil_r.
  split_and!;
    [done | unfold count_stdout; simpl; lia | lia
    | destruct patterns; unfold count_patterns; simpl; lia].
Qed.

Lemma grows_same (s s' : agg) : out s' = out s → grows s s'.
Proof. intros H. exists []. by rewrite app_nil_r. Qed.

Lemma accounts_same (patterns : bool) (s s' : agg) :
  out s' = out s → printed s' = printed s → tested s' = tested s →
  accounts patterns s s'.
Proof.
  intros Ho Hp Ht. exists []. rewrite app_nil_r.
  split_and!;
    [done | unfold count_stdout; simpl; lia | lia
    | destruct patterns; unfold count_patterns; simpl; lia].
Qed.

Lemma accounts_trans (patterns : bool) (s1 s2 s3 : agg) :
  accounts patterns s1 s2 → accounts patterns s2 s3 → accounts patterns s1 s3.
Proof.
  intros (l1 & H1 & Hp1 & Ht1 & Hc1) (l2 & H2 & Hp2 & Ht2 & Hc2).
  exists (l1 ++ l2)%list. rewrite count_stdout_app, count_patterns_app.
  split_and!.
  - by rewrite H2, H1, app_assoc.
  - lia.
  - lia.
  - rewrite Hc1, Hc2. destruct patterns; lia.
Qed.

Lemma write_pattern_out (o : options) (x : pyobj) (s s1 : agg) (e : option exn) :
  write_pattern o x s = (s1, e) →
  ∃ written, out s1 = (out s ++ written)%list
    ∧ count_stdout written = 0
    ∧ (e = None →
       count_patterns written = if given (o_output_patterns o) then 1 else 0).
Proof.
  unfold write_pattern. destruct (given (o_output_patterns o)).
  - destruct (py_bytes x) as [b|e']; intros [= <- <-].
    + exists [Patterns b]. done.
    + exists []. by rewrite app_nil_r.
  - intros [= <- <-]. exists []. by rewrite app_nil_r.
Qed.

End Counting.

Section Output.

Context {matrix cov_t clusters_t fit_t firth_t model_t : Type}.
Variable pre_filtering : Series → list Z → bool → float * bool.
Variable md5 : bytes → bytes.
Variable b2a_base64 : bytes → bytes.
Variable generator_stop : bool.
Variable fixed_effects_regression :
  @worker_args matrix cov_t clusters_t fit_t firth_t → classes.Seer.
Variable fit_lmm :
  model_t → float → list classes.LMM → list (list float) → bool →
  clusters_t → cov_t → float → list classes.LMM.
Variable format_output :
  classes.Seer + classes.LMM → list string → bool → bool → string.
Variable o : options.
Variable a : @run_args matrix cov_t clusters_t fit_t firth_t.
Variable lineage_dict : list string.
Variable lmm : model_t.
Variable h2 : float.

Abbreviation patterns := (given (o_output_patterns o)).

Lemma fixed_emit_grows (x : classes.Seer) (s s' : agg) (e : option exn) :
  fixed_emit format_output o lineage_dict x s = (s', e) → grows s s'.
Proof.
  unfold fixed_emit. destruct (truthy (classes.s_prefilter x)).
  - intros [= <- <-]. by apply grows_same.
  - destruct (write_pattern o _ _) as [s1 e1] eqn:Hw.
    apply write_pattern_out in Hw as (l & Hl & _). simpl in Hl.
    destruct e1; [intros [= <- <-]; by exists l|].
    destruct (truthy (classes.s_filter x)); intros [= <- <-].
    + by exists l.
    + eexists. simpl. rewrite Hl, <- app_assoc. reflexivity.
Qed.

Lemma fixed_emit_accounts (x : classes.Seer) (s s' : agg) :
  fixed_emit format_output o lineage_dict x s = (s', None) →
  accounts patterns s s'.
Proof.
  unfold fixed_emit. destruct (truthy (classes.s_prefilter x)).
  - intros [= <-]. by apply accounts_same.
  - destruct (write_pattern o _ _) as [s1 [e1|]] eqn:Hw; [done|].
    pose proof (write_pattern_counters _ _ _ _ _ Hw) as (H1 & H2 & H3).
    apply write_pattern_out in Hw as (l & Hl & Hs & Hp).
    specialize (Hp eq_refl). simpl in *.
    destruct (truthy (classes.s_filter x)); intros [= <-].
    + exists l. rewrite Hs, Hp, H2, H3. split_and!; try done; try lia.
      destruct patterns; lia.
    + eexists (l ++ [_])%list. simpl. rewrite Hl, <- app_assoc.
      rewrite count_stdout_app, count_patterns_app, Hs, Hp, H2, H3.
      split_and!; try done.
      * unfold count_stdout. simpl. lia.
      * unfold count_patterns. simpl. destruct patterns; lia.
Qed.

Lemma emit_all_grows (ret : list classes.Seer) (s s' : agg) (e : option exn) :
  emit_all format_output o lineage_dict ret s = (s', e) → grows s s'.
Proof.
  revert s. induction ret as [|x ret IH]; intros s; simpl.
  - intros [= <- <-]. apply grows_refl.
  - destruct (fixed_emit format_output o lineage_dict x s) as [s1 e1] eqn:Hx.
    apply fixed_emit_grows in Hx. destruct e1.
    + by intros [= <- <-].
    + intros H. eapply grows_trans; eauto.
Qed.

Lemma emit_all_accounts (ret : list classes.Seer) (s s' : agg) :
  emit_all format_output o lineage_dict ret s = (s', None) →
  accounts patterns s s'
  ∧ prefilter s' + tested s' = prefilter s + tested s + length ret.
Proof.
  revert s. induction ret as [|x ret IH]; intros s; simpl.
  - intros [= <-]. split; [apply accounts_refl|lia].
  - destruct (fixed_emit format_output o lineage_dict x s) as [s1 [e1|]] eqn:Hx;
      [done|].
    intros H. apply IH in H as [Hacc Hn].
    pose proof (fixed_emit_partition format_output _ _ _ _ _ Hx) as Hpart.
    apply fixed_emit_accounts in Hx. split; [by eapply accounts_trans|lia].
Qed.

Lemma sequential_grows (fuel : nat) (g : generator) (s s' : agg) :
  (∃ e, sequential md5 b2a_base64 generator_stop fixed_effects_regression
          format_output o a lineage_dict fuel g s = Crashed e s')
  ∨ sequential md5 b2a_base64 generator_stop fixed_effects_regression
      format_output o a lineage_dict fuel g s = Finished s' →
  grows s s'.
Proof.
  revert g s. induction fuel as [|fuel IH]; intros g s; simpl.
  - intros [[? ?]|?]; done.
  - destruct (iter_variants_next md5 b2a_base64 generator_stop a g)
      as [[[data|] g1]|e1].
    + destruct (fixed_emit format_output o lineage_dict _ s) as [s1 e1] eqn:Hx.
      apply fixed_emit_grows in Hx. destruct e1.
      * intros [[? [= <- <-]]|?]; done.
      * intros H. eapply grows_trans; eauto.
    + intros [[? ?]|[= <-]]; [done|apply grows_refl].
    + intros [[? [= <- <-]]|?]; [apply grows_refl|done].
Qed.

Lemma parallel_grows (fuel : nat) (g : generator) (s s' : agg) :
  (∃ e, parallel md5 b2a_base64 generator_stop fixed_effects_regression
          format_output o a lineage_dict fuel g s = Crashed e s')
  ∨ parallel md5 b2a_base64 generator_stop fixed_effects_regression
      format_output o a lineage_dict fuel g s = Finished s' →
  grows s s'.
Proof.
  revert g s. induction fuel as [|fuel IH]; intros g s; cbn [parallel].
  - intros [[? ?]|?]; done.
  - destruct (islice md5 b2a_base64 generator_stop a _ g) as [[slice g1]|e1].
    + destruct slice as [|data slice]; cbn [map].
      * intros [[? ?]|[= <-]]; [done|apply grows_refl].
      * destruct (emit_all format_output o lineage_dict _ s) as [s1 e1] eqn:Hx.
        apply emit_all_grows in Hx. destruct e1.
        -- intros [[? [= <- <-]]|?]; done.
        -- intros H. eapply grows_trans; eauto.
    + intros [[? [= <- <-]]|?]; [apply grows_refl|done].
Qed.

Lemma lmm_emit_grows (variant : classes.LMM) (s s' : agg) (e : option exn) :
  lmm_emit format_output o lineage_dict variant s = (s', e) → grows s s'.
Proof.
  unfold lmm_emit.
  destruct (write_pattern o _ _) as [s1 e1] eqn:Hw.
  apply write_pattern_out in Hw as (l & Hl & _).
  destruct e1; [intros [= <- <-]; by exists l|].
  destruct (py_lt_float _ _) as [[]|e2]; intros [= <- <-].
  - eexists. simpl. rewrite Hl, <- app_assoc. reflexivity.
  - by exists l.
  - by exists l.
Qed.

Lemma lmm_emit_all_grows (fitted : list classes.LMM) (s s' : agg) (e : option exn) :
  lmm_emit_all format_output o lineage_dict fitted s = (s', e) → grows s s'.
Proof.
  revert s. induction fitted as [|x fitted IH]; intros s; simpl.
  - intros [= <- <-]. apply grows_refl.
  - destruct (lmm_emit format_output o lineage_dict x s) as [s1 e1] eqn:Hx.
    apply lmm_emit_grows in Hx. destruct e1.
    + by intros [= <- <-].
    + intros H. eapply grows_trans; eauto.
Qed.

Lemma lmm_blocks_grows (fuel : nat) (st : stream) (s s' : agg) :
  (∃ e, lmm_blocks pre_filtering md5 b2a_base64 fit_lmm format_output o a
          lineage_dict lmm h2 fuel st s = Crashed e s')
  ∨ lmm_blocks pre_filtering md5 b2a_base64 fit_lmm format_output o a
      lineage_dict lmm h2 fuel st s = Finished s' →
  grows s s'.
Proof.
  revert st s. induction fuel as [|fuel IH]; intros st s; cbn [lmm_blocks].
  - intros [[? ?]|?]; done.
  - destruct (load_var_block pre_filtering md5 b2a_base64 a st lmm_block_size)
      as [[[[[variants variant_mat] counts] eof] st']|e1].
    + match goal with
      | |- context [match ?x with (_, _) => _ end] =>
          destruct x as [s1 e2] eqn:Hx
      end.
      assert (Hg : grows s s1).
      { destruct (0 <? c_tested counts)%nat.
        - apply lmm_emit_all_grows in Hx.
          eapply grows_trans; [|exact Hx]. by apply grows_same.
        - injection Hx as <- <-. by apply grows_same. }
      destruct e2.
      * intros [[? [= <- <-]]|?]; done.
      * destruct eof.
        -- intros [[? ?]|[= <-]]; done.
        -- intros H. eapply grows_trans; eauto.
    + intros [[? [= <- <-]]|?]; [apply grows_refl|done].
Qed.

Lemma association_grows (st : stream) (s s' : agg) :
  (∃ e, association pre_filtering md5 b2a_base64 generator_stop
          fixed_effects_regression fit_lmm format_output o a lineage_dict lmm
          h2 st s = Crashed e s')
  ∨ association pre_filtering md5 b2a_base64 generator_stop
      fixed_effects_regression fit_lmm format_output o a lineage_dict lmm h2
      st s = Finished s' →
  grows s s'.
Proof.
  unfold association, fixed_effects. destruct (negb (o_lmm o)).
  - destruct (1 <? o_cpu o)%Z; [apply parallel_grows|apply sequential_grows].
  - apply lmm_blocks_grows.
Qed.

End Output.

(** ** The end of a run of the fixed effects from Python 3.7 on *)

Section Pending.

Lemma design_is_variant (p : Series) (all_strains : gset string)
    (var_name : string) (d : gmap string Z) (r : read_out) :
  design p all_strains var_name d = Ok r → r ≠ Eof ∧ r ≠ Skip.
Proof.
  unfold design. intros H. by apply bind_Ok in H as (af & _ & [= <-]).
Qed.

Lemma read_variant_pending (st st' : stream) (p : Series)
    (var_type : var_type_t) (burden uncompressed : bool)
    (all_strains : gset string) (sample_order : list string) (r : read_out) :
  read_variant st p var_type burden uncompressed all_strains sample_order
  = Ok (r, st') →
  no_empty_line st →
  no_empty_line st'
  ∧ (r = Eof → pending var_type burden st = 0)
  ∧ (r ≠ Eof → pending var_type burden st = S (pending var_type burden st')).
Proof.
  unfold read_variant, pending, no_empty_line.
  destruct st as [[lines records fetch] regions]; simpl.
  destruct var_type.
  - destruct lines as [|line rest]; simpl; [by intros [= <- <-]|].
    intros H [Hl Hne]%Forall_cons. apply String.eqb_neq in Hl.
    rewrite Hl in H.
    destruct (PyStr.split line) as [|var_name ws]; [done|].
    destruct (PyStr.split_on "|" (PyStr.rstrip line)) as [|w1 [|strains ws']];
      [done|done|].
    apply bind_Ok in H as (x & Hx & [= <- <-]).
    apply design_is_variant in Hx as [Hx _]. done.
  - destruct burden.
    + destruct regions as [|[var_name region] rest]; simpl; [by intros [= <- <-]|].
      destruct (Region.re_match region) as [[[g1 g2] g3]|].
      * intros H Hne. apply bind_Ok in H as (vs & _ & H).
        apply bind_Ok in H as (d & _ & H).
        apply bind_Ok in H as (x & Hx & [= <- <-]).
        apply design_is_variant in Hx as [Hx _]. done.
      * intros [= <- <-] Hne. done.
    + destruct records as [|variant rest]; simpl; [by intros [= <- <-]|].
      intros H Hne. apply bind_Ok in H as ([var_name d] & _ & H).
      destruct var_name as [var_name|].
      * apply bind_Ok in H as (x & Hx & [= <- <-]).
        apply design_is_variant in Hx as [Hx _]. done.
      * injection H as <- <-. done.
  - destruct lines as [|line rest]; simpl; [by intros [= <- <-]|].
    intros H [Hl Hne]%Forall_cons. apply String.eqb_neq in Hl.
    rewrite Hl in H.
    destruct (PyStr.split (PyStr.rstrip line)) as [|var_name strains]; [done|].
    apply bind_Ok in H as (x & Hx & [= <- <-]).
    apply design_is_variant in Hx as [Hx _]. done.
Qed.

(** Without a burden test, no read raises [RuntimeError]: the only
    exceptions of [read_variant] are then those of the parsing and of the
    division. *)
Lemma read_variant_error (st : stream) (p : Series) (var_type : var_type_t)
    (uncompressed : bool) (all_strains : gset string)
    (sample_order : list string) (e : exn) :
  read_variant st p var_type false uncompressed all_strains sample_order
  = Raise e →
  e ≠ RuntimeError.
Proof.
  assert (Hd : ∀ name d (st' : stream),
            (r ← design p all_strains name d; Ok (r, st')) = Raise e →
            e ≠ RuntimeError).
  { intros name d st'. unfold design.
    destruct (truediv _ _) as [af|e'] eqn:Hdiv; simpl; [done|].
    intros [= <-]. unfold truediv in Hdiv.
    destruct (eqb _ _); [by injection Hdiv as <-|done]. }
  unfold read_variant.
  destruct st as [[lines records fetch] regions]; simpl.
  destruct var_type.
  - destruct lines as [|line rest]; [done|].
    destruct (String.eqb line ""); [done|].
    destruct (PyStr.split line) as [|var_name ws]; [by intros [= <-]|].
    destruct (PyStr.split_on "|" (PyStr.rstrip line)) as [|w1 [|strains ws']];
      [by intros [= <-]|by intros [= <-]|].
    apply Hd.
  - destruct records as [|variant rest]; [done|].
    unfold read_vcf_var. destruct (alts variant) as [al|]; [|by intros [= <-]].
    destruct (1 <? length al)%nat; [done|].
    destruct (negb _ && negb _); [done|]. simpl.
    apply Hd.
  - destruct lines as [|line rest]; [done|].
    destruct (String.eqb line ""); [done|].
    destruct (PyStr.split (PyStr.rstrip line)) as [|var_name strains];
      [by intros [= <-]|].
    apply Hd.
Qed.

End Pending.

Section Counts.

Context {matrix cov_t clusters_t fit_t firth_t : Type}.
Variable md5 : bytes → bytes.
Variable b2a_base64 : bytes → bytes.
Variable fixed_effects_regression :
  @worker_args matrix cov_t clusters_t fit_t firth_t → classes.Seer.
Variable format_output :
  classes.Seer + classes.LMM → list string → bool → bool → string.
Variable o : options.
Variable a : @run_args matrix cov_t clusters_t fit_t firth_t.
Variable lineage_dict : list string.

Abbreviation left g := (left_to_read (var_type a) (burden a) g).
Abbreviation given_patterns := (given (o_output_patterns o)).
Abbreviation next := (iter_variants_next md5 b2a_base64 true a).
Abbreviation seq_loop :=
  (sequential md5 b2a_base64 true fixed_effects_regression format_output o a
     lineage_dict).
Abbreviation par_loop :=
  (parallel md5 b2a_base64 true fixed_effects_regression format_output o a
     lineage_dict).

(** From Python 3.7 on, a generator that has not ended yields a tuple or
    raises: it does not end. *)
Lemma next_yields (g g' : generator) (x : option worker_args) :
  next g = Ok (x, g') → g_done g = false →
  (∃ data, x = Some data) ∧ g_done g' = false
  ∧ (generator_size g' < generator_size g)%nat.
Proof.
  intros Hn Hd. pose proof (next_size md5 b2a_base64 true a _ _ _ Hn) as Hsize.
  unfold iter_variants_next in Hn. rewrite Hd in Hn.
  apply bind_Ok in Hn as ([r st] & Hread & Hn).
  destruct r; [done| |]; injection Hn as <- <-; eauto.
Qed.

Lemma next_counts (g g' : generator) (x : option worker_args) :
  next g = Ok (x, g') → g_done g = false →
  no_empty_line (g_stream g) →
  no_empty_line (g_stream g') ∧ left g = S (left g').
Proof.
  intros Hn Hd Hne. unfold iter_variants_next in Hn. rewrite Hd in Hn.
  apply bind_Ok in Hn as ([r st] & Hread & Hn).
  apply (read_variant_pending _ _ _ _ _ _ _ _ _ Hread) in Hne
    as (Hne & _ & Hrec).
  unfold left_to_read. rewrite Hd.
  destruct r; [done| |]; injection Hn as <- <-; simpl;
    (split; [done|by apply Hrec]).
Qed.

(** Without a burden test, the [RuntimeError] of the generator is the end
    of the input. *)
Lemma next_raises_at_the_end (g : generator) :
  next g = Raise RuntimeError → g_done g = false → burden a = false →
  no_empty_line (g_stream g) → left g = 0.
Proof.
  intros Hn Hd Hb Hne. unfold iter_variants_next in Hn. rewrite Hd in Hn.
  unfold left_to_read. rewrite Hd.
  destruct (read_variant (g_stream g) (p a) (var_type a) (burden a)
              (uncompressed a) (all_strains a) (sample_order a))
    as [[r st]|e] eqn:Hread; simpl in Hn.
  - apply (read_variant_pending _ _ _ _ _ _ _ _ _ Hread) in Hne
      as (_ & Heof & _).
    destruct r; [by apply Heof|done|done].
  - injection Hn as ->. rewrite Hb in Hread.
    by apply read_variant_error in Hread.
Qed.

(** The body of the loops raises [TypeError] only. *)
Lemma fixed_emit_error (x : classes.Seer) (s s' : agg) (e : exn) :
  fixed_emit format_output o lineage_dict x s = (s', Some e) → e = TypeError.
Proof.
  unfold fixed_emit. destruct (truthy (classes.s_prefilter x)); [done|].
  unfold write_pattern. destruct (given (o_output_patterns o)); simpl.
  - destruct (classes.s_pattern x); simpl;
      try (by intros [= <- <-]);
      destruct (truthy (classes.s_filter x)); done.
  - destruct (truthy (classes.s_filter x)); done.
Qed.


Lemma sequential_counts (fuel : nat) (g : generator) (s s' : agg) :
  seq_loop fuel g s = Crashed RuntimeError s' →
  g_done g = false → burden a = false → no_empty_line (g_stream g) →
  prefilter s' + tested s' = prefilter s + tested s + left g
  ∧ accounts given_patterns s s'.
Proof.
  revert g s. induction fuel as [|fuel IH]; intros g s; [done|].
  simpl. destruct (next g) as [[x g1]|e] eqn:Hn.
  - intros H Hd Hb Hne.
    destruct (next_yields _ _ _ Hn Hd) as ([data ->] & Hd1 & _).
    destruct (next_counts _ _ _ Hn Hd Hne) as [Hne1 Hleft].
    destruct (fixed_emit format_output o lineage_dict _ s) as [s1 [e|]] eqn:Hx.
    + injection H as -> <-. by apply fixed_emit_error in Hx.
    + apply IH in H as [Hc Hacc]; [|done..].
      pose proof (fixed_emit_partition format_output _ _ _ _ _ Hx) as Hpart.
      apply fixed_emit_accounts in Hx.
      split; [lia|by eapply accounts_trans].
  - intros [= -> <-] Hd Hb Hne.
    rewrite (next_raises_at_the_end g Hn Hd Hb Hne).
    split; [lia|apply accounts_refl].
Qed.


(** A generator that has fewer tuples to give than the slice asks for
    raises inside the slice. *)
Lemma islice_short (n : nat) (g : generator) :
  g_done g = false → (generator_size g < n)%nat →
  ∃ e, islice md5 b2a_base64 true a n g = Raise e.
Proof.
  revert g. induction n as [|n IH]; intros g Hd Hlt; [lia|].
  simpl. destruct (next g) as [[x g1]|e] eqn:Hn; [|by exists e].
  destruct (next_yields _ _ _ Hn Hd) as ([data ->] & Hd1 & Hsize).
  destruct (IH g1 Hd1) as [e He]; [lia|].
  exists e. simpl. by rewrite He.
Qed.



(** X16. From Python 3.7 on, a run of the fixed effects with one
    process, without burden test, that reads its input to the end, ends
    on the [RuntimeError] of the generator only after it has counted
    every record of the input once, as prefiltered or as tested, and its
    output is the account of its counters: one line printed for each
    variant counted as printed and, when [--output-patterns] is given,
    one pattern written for each variant counted as tested, and no
    pattern otherwise. *)
Theorem sequential_run_counts_to_the_end (st : stream) (s s' : agg) :
  (o_cpu o ≤ 1)%Z → burden a = false → no_empty_line st →
  fixed_effects md5 b2a_base64 true fixed_effects_regression format_output o a
    lineage_dict st s = Crashed RuntimeError s' →
  prefilter s' + tested s'
  = prefilter s + tested s + pending (var_type a) (burden a) st
  ∧ ∃ written, out s' = (out s ++ written)%list
      ∧ count_stdout written = printed s' - printed s
      ∧ (printed s ≤ printed s')%nat
      ∧ count_patterns written
        = (if given (o_output_patterns o) then tested s' - tested s else 0)
      ∧ (tested s ≤ tested s')%nat.
Proof.
  intros Hcpu Hb Hne. unfold fixed_effects.
  rewrite (proj2 (Z.ltb_ge 1 (o_cpu o)) Hcpu).
  intros H. apply sequential_counts in H as [Hc (l & Ho & Hp & Ht & Hl)];
    [|done..].
  split; [exact Hc|]. exists l. split_and!; try done; lia.
Qed.

(** X18. From Python 3.7 on, a run of the fixed effects over a pool
    whose input holds fewer records than a slice, [cpu * kmer_per_core],
    prints nothing and counts nothing: the exception that ends the
    generator, or any exception of the reading, is raised inside the
    first slice, before the pool returns a result. *)
Theorem short_pool_run_prints_nothing (st : stream) (s : agg) :
  (1 < o_cpu o)%Z →
  (stream_size st < Z.to_nat (o_cpu o * kmer_per_core))%nat →
  ∃ e, fixed_effects md5 b2a_base64 true fixed_effects_regression
         format_output o a lineage_dict st s = Crashed e s.
Proof.
  intros Hcpu Hshort. unfold fixed_effects.
  rewrite (proj2 (Z.ltb_lt 1 (o_cpu o)) Hcpu). cbn [parallel].
  destruct (islice_short (Z.to_nat (o_cpu o * kmer_per_core))
              {| g_stream := st; g_done := false |} eq_refl Hshort) as [e He].
  rewrite He. by exists e.
Qed.

End Counts.

(** ** The checks of [main] *)

Section Checks.

Lemma check_arguments_None (python_major : Z) (o : options) :
  check_arguments python_major o = None ↔ arguments_pass python_major o.
Proof.
  unfold check_arguments, arguments_pass.
  destruct (Z.ltb_spec (o_max_dimensions o) 1); [split; [done|lia]|].
  destruct (Z.ltb_spec 1 (o_cpu o)), (Z.ltb_spec python_major 3); simpl;
    try (split; [done|lia]);
    (destruct (given (o_burden o)), (given (o_vcf o)); simpl;
     try (split; [done|intros (_ & _ & Hb & _); by specialize (Hb eq_refl)]));
    (destruct (o_lmm o); simpl;
     [destruct (given (o_distances o)), (given (o_load_m o)); simpl;
      try (split; [done|intros (_ & _ & _ & Hl & _);
                        by destruct (Hl eq_refl) as (? & ? & _)])
     |destruct (given (o_similarity o)), (given (o_load_lmm o)); simpl;
      try (split; [done|intros (_ & _ & _ & _ & Hl);
                        by destruct (Hl eq_refl) as (? & ?)])]);
    try (split; [done|intros (_ & _ & _ & Hl & _);
                      destruct (Hl eq_refl) as (_ & _ & ?); lia]);
    (split; [intros _|done]); split_and!; try done; try lia; auto.
Qed.

End Checks.

Section Entry.

Context {matrix cov_t clusters_t fit_t firth_t model_t : Type}.
Variable pre_filtering : Series → list Z → bool → float * bool.
Variable md5 : bytes → bytes.
Variable b2a_base64 : bytes → bytes.
Variable fixed_effects_regression :
  @worker_args matrix cov_t clusters_t fit_t firth_t → classes.Seer.
Variable fit_lmm :
  model_t → float → list classes.LMM → list (list float) → bool →
  clusters_t → cov_t → float → list classes.LMM.
Variable format_output :
  classes.Seer + classes.LMM → list string → bool → bool → string.

Abbreviation run_main :=
  (main pre_filtering md5 b2a_base64 fixed_effects_regression fit_lmm
     format_output).

(** X17. [main] reads nothing before its checks. When the options pass
    the five checks (at least one dimension; one process, or Python 3;
    no burden test without a VCF file; with the mixed model no distances
    and one process; without it no similarities), the first thing that
    the run does is to read the phenotypes. When they do not, the run
    writes one message on the standard error and exits with status 1,
    and that is all it does: no file is read and no line is printed. *)
Theorem main_checks_before_reading
    (w : @world matrix cov_t clusters_t fit_t firth_t model_t) (o : options) :
  (arguments_pass (python_major w) o →
   hd_error (trace (run_main w o)) = Some Read_phenotypes)
  ∧ (¬ arguments_pass (python_major w) o →
     ∃ msg, run_main w o = {| trace := [Stderr msg]; exit_status := Exit 1 |}).
Proof.
  split.
  - intros Hpass%check_arguments_None. unfold main. rewrite Hpass.
    destruct (phenotypes_table w) as [p|e]; [|done].
    destruct (setup w p) as [written [[env|]|e]]; [|done|done].
    destruct (open_variants o _ _) as [[[[vt b] st] so]|e]; [|done].
    match goal with
    | |- context [association ?pf ?h ?b64 ?gs ?fer ?fl ?fo ?o ?a ?ld ?l ?h2 ?st ?s0] =>
        pose proof (association_grows pf h b64 gs fer fl fo o a ld l h2 st s0)
          as Hg;
        destruct (association pf h b64 gs fer fl fo o a ld l h2 st s0)
          as [s|e s|]
    end.
    + destruct (Hg s) as [l Hl]; [by right|]. simpl. by rewrite Hl.
    + destruct (Hg s) as [l Hl]; [left; by exists e|]. simpl. by rewrite Hl.
    + done.
  - intros Hfail. unfold main.
    destruct (check_arguments (python_major w) o) as [msg|] eqn:Hc.
    + by exists msg.
    + by apply check_arguments_None in Hc.
Qed.


End Entry.

(** ** [scripts/save_model.py] *)

Section SaveModel.

Import save_model.

Lemma ltb_nan_r (x y : float) : is_nan y = true → ltb x y = false.
Proof.
  unfold ltb, SFltb, is_nan. destruct y; try done.
  intros _. by destruct x.
Qed.

Lemma foldl_add_row (p_cutoff : float) (rows : list row) (v : string) :
  foldl (add_row p_cutoff) ∅ rows !! v
  = last (map (λ r, (af r, beta r))
            (List.filter (λ r, String.eqb (variant r) v
                               && ltb p_cutoff (lrt_pvalue r)) rows)).
Proof.
  induction rows as [|r rows IH] using rev_ind; [done|].
  rewrite foldl_app, List.filter_app, map_app. cbn [foldl List.filter].
  unfold add_row at 1.
  destruct (ltb p_cutoff (lrt_pvalue r)).
  - destruct (String.eqb_spec (variant r) v) as [<-|Hne]; cbn [andb map].
    + by rewrite lookup_insert_eq, last_snoc.
    + by rewrite lookup_insert_ne, app_nil_r.
  - rewrite andb_false_r. cbn [map]. by rewrite app_nil_r.
Qed.

(** X19. The model that [save_model] pickles holds a variant exactly
    when a row of that name has a p-value strictly above the cut-off,
    and holds for it the allele frequency and the effect size of the
    last such row of the table: the rows at or below the cut-off, and
    the rows without p-value, are left out, and of two rows of one name
    the later one is kept. The flag [--continuous] is pickled as given. *)
Theorem model_keeps_last_row_above_cutoff (p_cutoff : float) (continuous : bool)
    (pyseer_out : list row) (v : string) :
  (main p_cutoff continuous pyseer_out).1 !! v
  = last (map (λ r, (af r, beta r))
            (List.filter (λ r, String.eqb (variant r) v
                               && ltb p_cutoff (lrt_pvalue r)) pyseer_out))
  ∧ (main p_cutoff continuous pyseer_out).2 = continuous.
Proof. split; [apply foldl_add_row|done]. Qed.

(** X20. When no p-value of the table is above the cut-off, as with
    the default cut-off 1 and p-values that are probabilities, the model
    that [save_model] pickles is empty. *)
Theorem cutoff_above_every_pvalue_gives_empty_model (p_cutoff : float)
    (continuous : bool) (pyseer_out : list row) :
  Forall (λ r, leb (lrt_pvalue r) p_cutoff = true
               ∨ is_nan (lrt_pvalue r) = true) pyseer_out →
  main p_cutoff continuous pyseer_out = (∅, continuous).
Proof.
  intros Hall. unfold main. f_equal. apply map_eq. intros v.
  rewrite foldl_add_row, lookup_empty.
  replace (List.filter _ pyseer_out) with (@nil row); [done|].
  symmetry. induction Hall as [|r rows Hr _ IH]; [done|].
  cbn [List.filter]. rewrite IH.
  assert (ltb p_cutoff (lrt_pvalue r) = false) as ->.
  { destruct Hr as [Hle|Hnan]; [|by apply ltb_nan_r].
    destruct (ltb p_cutoff (lrt_pvalue r)) eqn:Hlt; [|done].
    apply ltb_not_leb in Hlt. congruence. }
  by rewrite andb_false_r.
Qed.

End SaveModel.

(** ** A run without samples *)

Section NoSample.

(** X21. When the phenotypes hold no sample, no variant is ever
    returned: the allele frequency is a division by the number of the
    samples, so that the end of [read_variant] raises
    [ZeroDivisionError], and a read can only return the end of the
    stream or a record that is skipped. *)
Theorem no_variant_without_samples (st : stream) (p : Series)
    (var_type : var_type_t) (burden uncompressed : bool)
    (sample_order : list string) :
  (∀ var_name d, design p ∅ var_name d = Raise ZeroDivisionError)
  ∧ (∀ r st',
       read_variant st p var_type burden uncompressed ∅ sample_order
       = Ok (r, st') →
       r = Eof ∨ r = Skip).
Proof.
  split.
  - intros var_name d. unfold design. by rewrite size_empty, truediv_by_zero.
  - intros r st' H. destruct r as [| |k var_name ks nks af]; [by left|by right|].
    apply read_variant_design in H as (d & name & _ & H).
    apply design_inv in H as (_ & _ & _ & _ & H).
    by rewrite size_empty, truediv_by_zero in H.
Qed.

End NoSample.

(** ** The regions of a burden test *)

Section Regions.

Import Region.

Lemma split_on_not_nil (sep : ascii) (s : string) : PyStr.split_on sep s ≠ [].
Proof.
  induction s as [|c s IH]; simpl; [done|].
  destruct (Ascii.eqb c sep); [done|]. by destruct (PyStr.split_on sep s).
Qed.

Lemma split_on_join (sep : ascii) (s : string) :
  PyStr.join (String sep "") (PyStr.split_on sep s) = s.
Proof.
  induction s as [|c s IH]; simpl; [done|].
  pose proof (split_on_not_nil sep s) as Hne.
  destruct (Ascii.eqb_spec c sep) as [->|Hc].
  - destruct (PyStr.split_on sep s) as [|w ws]; [done|].
    simpl in *. by rewrite IH.
  - destruct (PyStr.split_on sep s) as [|w [|w' ws]]; [done| |].
    + simpl in *. by rewrite IH.
    + by rewrite <- IH.
Qed.

Lemma split_on_present (sep : ascii) (a b : string) :
  has_char sep a = false →
  PyStr.split_on sep (a ++ String sep b) = a :: PyStr.split_on sep b.
Proof.
  induction a as [|c a IH]; simpl.
  - intros _. by rewrite Ascii.eqb_refl.
  - intros [Hc Ha]%orb_false_elim. rewrite Hc, (IH Ha). done.
Qed.

Lemma drop_final_newline_inv (s : string) :
  s = drop_final_newline s ∨ s = drop_final_newline s ++ nl.
Proof.
  induction s as [|c s IH]; [by left|].
  destruct s as [|c' s'].
  - simpl. destruct (Ascii.eqb_spec c newline) as [->|Hc]; [by right|by left].
  - change (drop_final_newline (String c (String c' s')))
      with (String c (drop_final_newline (String c' s'))).
    destruct IH as [IH|IH]; [left|right].
    + by rewrite <- IH.
    + change (String c (String c' s')
              = String c (drop_final_newline (String c' s') ++ nl)).
      by f_equal.
Qed.

Lemma drop_final_newline_absent (s : string) :
  has_char newline s = false → drop_final_newline s = s.
Proof.
  induction s as [|c s IH]; [done|].
  intros [Hc Hs]%orb_false_elim. destruct s as [|c' s'].
  - simpl. by rewrite Hc.
  - change (drop_final_newline (String c (String c' s')))
      with (String c (drop_final_newline (String c' s'))).
    by rewrite (IH Hs).
Qed.

Lemma drop_final_newline_app (s : string) :
  has_char newline s = false → drop_final_newline (s ++ nl) = s.
Proof.
  induction s as [|c s IH]; [done|].
  intros [Hc Hs]%orb_false_elim. specialize (IH Hs).
  destruct s as [|c' s']; simpl in *; by rewrite ?IH.
Qed.

Lemma digits_has_char (c : ascii) (s : string) :
  PyStr.is_digit c = false → PyStr.all_digits s = true → has_char c s = false.
Proof.
  intros Hc. induction s as [|c' s IH]; [done|]. simpl.
  intros [Hd Hs]%andb_prop. rewrite (IH Hs), orb_false_r.
  destruct (Ascii.eqb_spec c' c) as [->|]; [congruence|done].
Qed.

Lemma has_char_app (c : ascii) (s t : string) :
  has_char c (s ++ t) = has_char c s || has_char c t.
Proof.
  induction s as [|c' s IH]; [done|]. simpl. by rewrite IH, orb_assoc.
Qed.

Lemma append_assoc (s t u : string) : (s ++ t) ++ u = s ++ t ++ u.
Proof.
  induction s as [|c s IH]; [done|].
  change (String c ((s ++ t) ++ u) = String c (s ++ t ++ u)). by f_equal.
Qed.

Lemma range_newline (a b : string) :
  a ++ "-" ++ b ++ nl = (a ++ "-" ++ b) ++ nl.
Proof. by rewrite append_assoc. Qed.

Lemma match_range_Some (t g2 g3 : string) :
  match_range t = Some (g2, g3) ↔
  (t = g2 ++ "-" ++ g3 ∨ t = g2 ++ "-" ++ g3 ++ nl)
  ∧ g2 ≠ "" ∧ PyStr.all_digits g2 = true
  ∧ g3 ≠ "" ∧ PyStr.all_digits g3 = true.
Proof.
  unfold match_range. split.
  - pose proof (split_on_join "-" (drop_final_newline t)) as Hj.
    destruct (PyStr.split_on "-" (drop_final_newline t)) as [|a [|b [|c l]]];
      try done.
    destruct (negb (String.eqb a "")) eqn:Ha; [|done].
    destruct (PyStr.all_digits a) eqn:Hda; [|done].
    destruct (negb (String.eqb b "")) eqn:Hb; [|done].
    destruct (PyStr.all_digits b) eqn:Hdb; [|done].
    intros [= <- <-]. simpl in Hj.
    apply negb_true_iff, String.eqb_neq in Ha, Hb.
    split_and!; try done.
    destruct (drop_final_newline_inv t) as [Ht|Ht]; rewrite <- Hj in Ht.
    + by left.
    + right. by rewrite range_newline.
  - intros (Ht & Hn2 & Hd2 & Hn3 & Hd3).
    assert (Hdrop : drop_final_newline t = g2 ++ "-" ++ g3).
    { assert (Hnl : has_char newline (g2 ++ "-" ++ g3) = false).
      { rewrite !has_char_app, (digits_has_char newline g2),
          (digits_has_char newline g3); done. }
      destruct Ht as [->| ->].
      - by apply drop_final_newline_absent.
      - rewrite range_newline. by apply drop_final_newline_app. }
    rewrite Hdrop. change ("-" ++ g3) with (String "-" g3).
    rewrite split_on_present by (by apply digits_has_char).
    rewrite (split_on_absent "-" g3) by (by apply digits_has_char).
    apply String.eqb_neq in Hn2, Hn3. by rewrite Hn2, Hn3, Hd2, Hd3.
Qed.

Lemma match_tail_no_colon (s : string) :
  has_char ":" s = false → match_tail s = None.
Proof.
  induction s as [|c s IH]; [done|]. simpl.
  intros [Hc Hs]%orb_false_elim. by rewrite (IH Hs), Hc.
Qed.

Lemma match_tail_Some (s g1 g2 g3 : string) :
  match_tail s = Some (g1, g2, g3) ↔
  ∃ t, s = g1 ++ String ":" t ∧ match_range t = Some (g2, g3)
       ∧ has_char newline g1 = false.
Proof.
  split.
  - revert g1. induction s as [|c s IH]; intros g1; [done|]. simpl.
    destruct (match_tail s) as [[[h1 h2] h3]|].
    + destruct (Ascii.eqb c newline) eqn:Hc; [done|].
      intros [= <- <- <-]. destruct (IH h1 eq_refl) as (t & -> & Hr & Hn).
      exists t. simpl. by rewrite Hc.
    + destruct (Ascii.eqb_spec c ":") as [->|]; [|done].
      destruct (match_range s) as [[a b]|] eqn:Hr; [|done].
      intros [= <- <- <-]. by exists s.
  - intros (t & -> & Hr & Hn).
    assert (Ht : match_tail t = None).
    { apply match_tail_no_colon.
      apply match_range_Some in Hr as (Ht & _ & Hd2 & _ & Hd3).
      destruct Ht as [->| ->]; rewrite !has_char_app,
        (digits_has_char ":" g2), (digits_has_char ":" g3); done. }
    induction g1 as [|c g1 IH]; simpl.
    + by rewrite Ht, Hr.
    + simpl in Hn. apply orb_false_elim in Hn as [Hc Hn].
      by rewrite (IH Hn), Hc.
Qed.

(** X22. The regions that [read_variant] accepts: a string is read as a
    region, with the groups [g1], [g2] and [g3] that go to [fetch], when
    it is [g1:g2-g3], possibly followed by the end of a line, where [g1]
    is not empty and holds no end of line, and [g2] and [g3] are two
    non-empty strings of digits, and only then. The contig [g1] may
    itself hold colons: the colon of the region is the last one. *)
Theorem region_is_contig_start_end (s g1 g2 g3 : string) :
  re_match s = Some (g1, g2, g3) ↔
  (s = g1 ++ ":" ++ g2 ++ "-" ++ g3 ∨ s = g1 ++ ":" ++ g2 ++ "-" ++ g3 ++ nl)
  ∧ g1 ≠ "" ∧ has_char newline g1 = false
  ∧ g2 ≠ "" ∧ PyStr.all_digits g2 = true
  ∧ g3 ≠ "" ∧ PyStr.all_digits g3 = true.
Proof.
  unfold re_match. split.
  - destruct (match_tail s) as [[[h1 h2] h3]|] eqn:Hm; [|done].
    destruct (String.eqb_spec h1 "") as [|Hne]; [done|].
    intros [= <- <- <-].
    apply match_tail_Some in Hm as (t & -> & Hr & Hn).
    apply match_range_Some in Hr as (Ht & ? & ? & ? & ?).
    split_and!; try done. destruct Ht as [->| ->]; [by left|by right].
  - intros (Hs & Hne & Hn & Hn2 & Hd2 & Hn3 & Hd3).
    assert (Hm : match_tail s = Some (g1, g2, g3)).
    { apply match_tail_Some.
      destruct Hs as [->| ->]; eexists; (split; [reflexivity|]);
        (split; [|done]); apply match_range_Some; split_and!; try done;
        [by left|by right]. }
    rewrite Hm. apply String.eqb_neq in Hne. by rewrite Hne.
Qed.

End Regions.

(** ** The properties on the small inputs *)

(** A row of a presence/absence matrix, present in A and C of four
    samples. *)
Lemma indicator_follows_kstrains_witness :
  [1; 0; 1; 0]%Z = indicator (index Sample.pheno) ["A"; "C"]
  ∧ length [1; 0; 1; 0]%Z = length (index Sample.pheno).
Proof.
  apply indicator_follows_kstrains
    with (st := Sample.rtab_stream)
         (st' := {| infile := Sample.text_file []; burden_regions := [] |})
         (var_type := Rtab) (burden := false) (uncompressed := false)
         (sample_order := ["A"; "B"; "C"; "D"]) (var_name := "g1")
         (nkstrains := ["B"; "D"]) (af := Sample.half).
  vm_compute. reflexivity.
Defined.

(** A line of k-mers, present in C and A, in that order in the line. *)
Lemma kstrains_nkstrains_split_witness :
  (∀ x, x ∈ all_strains Sample.args_kmers ↔ x ∈ ["A"; "C"] ∨ x ∈ ["B"; "D"])
  ∧ (∀ x, x ∈ ["A"; "C"] → x ∉ ["B"; "D"])
  ∧ NoDup ["A"; "C"] ∧ NoDup ["B"; "D"]
  ∧ StronglySorted String.le ["A"; "C"] ∧ StronglySorted String.le ["B"; "D"]
  ∧ length ["A"; "C"] + length ["B"; "D"] = size (all_strains Sample.args_kmers).
Proof.
  apply kstrains_nkstrains_split
    with (st := Sample.kmers_stream)
         (st' := {| infile := Sample.text_file []; burden_regions := [] |})
         (p := Sample.pheno) (var_type := kmers) (burden := false)
         (uncompressed := false) (sample_order := [])
         (k := [1; 0; 1; 0]%Z) (var_name := "ACGT") (af := Sample.half).
  vm_compute. reflexivity.
Defined.

(** A sample of the variant file that has no phenotype. *)
Lemma design_ignores_other_samples_witness :
  design Sample.pheno (list_to_set (index Sample.pheno)) "g1" {["A" := 1%Z]}
  = design Sample.pheno (list_to_set (index Sample.pheno)) "g1"
      (<["Z" := 1%Z]> {["A" := 1%Z]}).
Proof.
  apply design_ignores_other_samples.
  - intros x Hx. apply elem_of_list_to_set in Hx.
    rewrite lookup_insert_ne; [done|].
    intros <-. vm_compute in Hx.
    repeat (apply elem_of_cons in Hx as [Hx|Hx]; [discriminate Hx|]).
    by apply elem_of_nil in Hx.
  - intros x Hx. by apply elem_of_list_to_set.
Defined.

(** A blank line between two rows of a presence/absence matrix. *)
Lemma blank_line_raises_witness :
  read_variant
    {| infile := Sample.text_file [nl; "g4 0 1 1 1" ++ nl]; burden_regions := [] |}
    Sample.pheno Rtab false false (list_to_set (index Sample.pheno))
    ["A"; "B"; "C"; "D"]
  = Raise IndexError.
Proof.
  apply blank_line_raises with (line_in := nl) (rest := ["g4 0 1 1 1" ++ nl]).
  - discriminate.
  - reflexivity.
  - discriminate.
  - reflexivity.
Defined.

(** A line of k-mers that only holds the k-mer. *)
Lemma kmers_line_without_bar_raises_witness :
  read_variant
    {| infile := Sample.text_file ["ACGT" ++ nl]; burden_regions := [] |}
    Sample.pheno kmers false false (list_to_set (index Sample.pheno)) []
  = Raise IndexError.
Proof.
  apply kmers_line_without_bar_raises with (line_in := "ACGT" ++ nl) (rest := []).
  - reflexivity.
  - discriminate.
  - reflexivity.
Defined.

(** A burden region takes one region of the queue, and no record. *)
Lemma read_takes_one_record_witness :
  pending vcf true Sample.burden_stream
  = S (pending vcf true {| infile := Sample.vcf_file []; burden_regions := [] |})
  ∧ stream_size Sample.burden_stream
    = S (stream_size {| infile := Sample.vcf_file []; burden_regions := [] |}).
Proof.
  apply read_takes_one_record
    with (p := Sample.pheno) (uncompressed := false)
         (all_strains := list_to_set (index Sample.pheno)) (sample_order := [])
         (r := Variant [0; 0; 0; 0]%Z "gene1" [] ["A"; "B"; "C"; "D"] zero).
  - vm_compute. reflexivity.
  - discriminate.
Defined.

(** A record whose samples A and C carry the alternate allele. *)
Lemma read_vcf_var_marks_samples_witness :
  ∃ d', read_vcf_var Sample.snp ∅ = Ok (Some (vcf_name Sample.snp), d')
    ∧ (∀ s, d' !! s = if carried_by Sample.snp s then Some 1%Z
                      else (∅ : gmap string Z) !! s)
    ∧ (∀ s gt h, (s, gt) ∈ samples Sample.snp → h ∈ gt → h ≠ Some 0%Z →
         d' !! s = Some 1%Z)
    ∧ (∀ s gt, (s, gt) ∈ samples Sample.snp → None ∈ gt → d' !! s = Some 1%Z).
Proof. apply read_vcf_var_marks_samples. reflexivity. Defined.

(** A block over one row whose pre-test p-value is not under the
    threshold. *)
Lemma load_var_block_admits_nothing_witness :
  (@nil classes.LMM) = [] ∧ (@nil (list float)) = []
  ∧ c_tested {| c_prefilter := 0; c_tested := 0 |} = 0
  ∧ (c_prefilter {| c_prefilter := 0; c_tested := 0 |}
     + stream_size {| infile := Sample.text_file []; burden_regions := [] |}
     ≤ stream_size Sample.rtab_stream)%nat
  ∧ (true = false →
     stream_size Sample.rtab_stream
     = lmm_block_size
       + stream_size {| infile := Sample.text_file []; burden_regions := [] |}).
Proof.
  apply load_var_block_admits_nothing
    with (pre_filtering := Sample.const_pre_filtering Sample.one)
         (md5 := Sample.md5_len) (b2a_base64 := Sample.b64_id)
         (a := Sample.args_default).
  vm_compute. reflexivity.
Defined.

(** The mixed model over a matrix of one row. *)
Lemma lmm_run_tests_nothing_witness :
  tested (agg0 []) = tested (agg0 [])
  ∧ printed (agg0 []) = printed (agg0 [])
  ∧ out (agg0 []) = out (agg0 [])
  ∧ (prefilter (agg0 []) ≤ prefilter (agg0 [])
     ≤ prefilter (agg0 []) + stream_size Sample.rtab_stream)%nat.
Proof.
  apply lmm_run_tests_nothing
    with (pre_filtering := Sample.const_pre_filtering Sample.one)
         (md5 := Sample.md5_len) (b2a_base64 := Sample.b64_id)
         (generator_stop := true)
         (fit_lmm := Sample.fit_lmm) (format_output := Sample.format_output)
         (a := Sample.args_default) (o := Sample.opts_lmm)
         (lineage_dict := []) (lmm := tt) (h2 := Sample.half)
         (fixed_effects_regression := Sample.regression).
  - reflexivity.
  - vm_compute. reflexivity.
Defined.

(** A variant at the lower bound of the allele frequency is prefiltered
    by neither path. *)
Lemma paths_prefilter_the_same_reads_witness :
  iter_variants_body Sample.md5_len Sample.b64_id Sample.args_default
    Sample.variant_at_min_af = AllNone
  ↔ load_var_body (Sample.const_pre_filtering Sample.one) Sample.md5_len
      Sample.b64_id Sample.args_default 0 Sample.variant_at_min_af Sample.block0
    = Ok {| b_prefilter := b_prefilter Sample.block0 + 1;
            b_variants := b_variants Sample.block0;
            b_variant_mat := b_variant_mat Sample.block0 |}.
Proof. apply paths_prefilter_the_same_reads. discriminate. Defined.


(** Four rows, of which one is prefiltered and three are tested, with
    one process. *)
Lemma sequential_run_counts_to_the_end_witness :
  1 + 3 = prefilter (agg0 []) + tested (agg0 [])
          + pending (var_type Sample.args_default) (burden Sample.args_default)
              Sample.rtab_four
  ∧ ∃ written,
      [Patterns [32%Z]; Stdout "g1"; Patterns [32%Z]; Patterns [32%Z];
       Stdout "g4"]
      = (out (agg0 []) ++ written)%list
      ∧ count_stdout written = 2 - printed (agg0 [])
      ∧ (printed (agg0 []) ≤ 2)%nat
      ∧ count_patterns written
        = (if given (o_output_patterns (Sample.opts_fixed 1))
           then 3 - tested (agg0 []) else 0)
      ∧ (tested (agg0 []) ≤ 3)%nat.
Proof.
  apply (sequential_run_counts_to_the_end Sample.md5_len Sample.b64_id
           Sample.regression Sample.format_output (Sample.opts_fixed 1)
           Sample.args_default [] Sample.rtab_four (agg0 [])
           {| prefilter := 1; tested := 3; printed := 2;
              out := [Patterns [32%Z]; Stdout "g1"; Patterns [32%Z];
                      Patterns [32%Z]; Stdout "g4"] |}).
  - simpl. lia.
  - reflexivity.
  - unfold no_empty_line. simpl. repeat constructor; discriminate.
  - vm_compute. reflexivity.
Defined.

(** The same four rows with four processes: a slice is of four
    thousand tuples. *)
Lemma short_pool_run_prints_nothing_witness :
  ∃ e, fixed_effects Sample.md5_len Sample.b64_id true Sample.regression
         Sample.format_output (Sample.opts_fixed 4) Sample.args_default []
         Sample.rtab_four (agg0 [])
       = Crashed e (agg0 []).
Proof.
  apply short_pool_run_prints_nothing.
  - reflexivity.
  - vm_compute. lia.
Defined.

(** A table of two rows, of p-values one half and one, at the default
    cut-off. *)
Lemma cutoff_above_every_pvalue_gives_empty_model_witness :
  save_model.main Sample.one false
    [{| save_model.variant := "g1"; save_model.af := Sample.half;
        save_model.lrt_pvalue := Sample.half; save_model.beta := Sample.one |};
     {| save_model.variant := "g4"; save_model.af := Sample.half;
        save_model.lrt_pvalue := Sample.one; save_model.beta := Sample.one |}]
  = (∅, false).
Proof.
  apply cutoff_above_every_pvalue_gives_empty_model.
  repeat constructor.
Defined.

